(** * Garfish browser-vm: proxyInterceptor/shared.ts and the observer module

    A shallow embedding of
      packages/browser-vm/src/proxyInterceptor/shared.ts
    (descriptor checks [isDataDescriptor], [isAccessorDescriptor],
    [verifyGetterDescriptor], [verifySetter], [verifySetterDescriptor]; the
    constructor test [safeToString], [isConstructor]; the function binder
    [transferProps], [bind]) and of the mutation-observer module
    ([observerModule]) over an explicit model of the part of the ECMAScript
    object model these functions use: a store of ordinary objects with own
    properties, prototype links and call behaviour, the abstract operations
    [[Get]], [[Set]], [[DefineOwnProperty]], [[SetPrototypeOf]],
    [instanceof], [new], ToPrimitive and ToString.

    Not modelled: Proxy, bound-function and other exotic objects apart from
    String wrappers, the prototypes of the wrappers of primitive values,
    property keys given as numbers (keys are taken after ToPropertyKey), the
    arrays that carry argument lists and lists of names, RegExp objects (a
    pattern is the set of strings it matches), the decimal form of finite
    numbers, and the identity of the Error objects the host throws. Strings
    are sequences of code units below 256. *)

From Stdlib Require Import ZArith NArith List Lia Bool Ascii String DecimalString.
From Stdlib Require Import Floats.SpecFloat.
From stdpp Require Import base decidable option list strings.

Local Open Scope string_scope.
Local Open Scope list_scope.

(* ===================================================================== *)
(** ** ECMAScript language values *)
(* ===================================================================== *)

(** Object references: positions in the store. *)
Abbreviation loc := nat (only parsing).

(** Symbols: the well-known [Symbol.hasInstance], and all the others. *)
Inductive Symbol : Type :=
| SymHasInstance
| SymOther (id : nat).

(** Property keys, after ToPropertyKey: a string or a symbol. *)
Inductive PropertyKey : Type :=
| KString (s : string)
| KSymbol (s : Symbol).

(** Numbers are binary64 values in canonical form ([valid_binary 53 1024]):
    one NaN, two zeros, two infinities. *)
Inductive JsValue : Type :=
| VUndefined
| VNull
| VBool (b : bool)
| VNumber (n : spec_float)
| VBigInt (z : Z)
| VString (s : string)
| VSymbol (s : Symbol)
| VObject (l : loc).

Global Instance spec_float_eq_dec : EqDecision spec_float.
Proof. solve_decision. Defined.
Global Instance Symbol_eq_dec : EqDecision Symbol.
Proof. solve_decision. Defined.
Global Instance PropertyKey_eq_dec : EqDecision PropertyKey.
Proof. solve_decision. Defined.
Global Instance JsValue_eq_dec : EqDecision JsValue.
Proof. solve_decision. Defined.

Definition NaN : JsValue := VNumber S754_nan.
Definition pos_zero : JsValue := VNumber (S754_zero false).
Definition neg_zero : JsValue := VNumber (S754_zero true).

(** The Number of a natural number (exact below 2^53). *)
Definition number_of_nat (n : nat) : spec_float :=
  binary_normalize 53 1024 (Z.of_nat n) 0 false.

(** SameValue(x, y), the comparison behind [Object.is]: NaN is the same as
    NaN, +0 and -0 differ, objects and symbols compare by identity. *)
Definition SameValue (x y : JsValue) : bool := bool_decide (x = y).

(** [Object.is(x, y)] *)
Definition Object_is (x y : JsValue) : bool := SameValue x y.

(** IEEE equality on numbers, as [===] uses it: NaN differs from itself,
    the two zeros are equal. *)
Definition IsStrictlyEqual (x y : JsValue) : bool :=
  match x, y with
  | VNumber a, VNumber b => SFeqb a b
  | _, _ => bool_decide (x = y)
  end.

(** ToBoolean *)
Definition ToBoolean (v : JsValue) : bool :=
  match v with
  | VUndefined | VNull => false
  | VBool b => b
  | VNumber (S754_zero _) | VNumber S754_nan => false
  | VNumber _ => true
  | VBigInt z => negb (Z.eqb z 0)
  | VString s => negb (bool_decide (s = ""))
  | VSymbol _ => true
  | VObject _ => true
  end.

(* ===================================================================== *)
(** ** Properties, descriptors and objects *)
(* ===================================================================== *)

(** An own property of an object: a data property or an accessor property
    ([get] and [set] are [VUndefined] or a function object). *)
Inductive Property : Type :=
| DataProperty (value : JsValue) (writable enumerable configurable : bool)
| AccessorProperty (get set : JsValue) (enumerable configurable : bool).

Definition prop_configurable (p : Property) : bool :=
  match p with
  | DataProperty _ _ _ c => c
  | AccessorProperty _ _ _ c => c
  end.

Definition prop_enumerable (p : Property) : bool :=
  match p with
  | DataProperty _ _ e _ => e
  | AccessorProperty _ _ e _ => e
  end.

Definition is_data_property (p : Property) : bool :=
  match p with
  | DataProperty _ _ _ _ => true
  | AccessorProperty _ _ _ _ => false
  end.

(** A property descriptor as a script sees it (TypeScript's
    [PropertyDescriptor]): every field may be absent. [Some VUndefined] is a
    field that is present and holds [undefined]. *)
Record PropertyDescriptor : Type := mkDesc {
  desc_value : option JsValue;
  desc_writable : option bool;
  desc_get : option JsValue;
  desc_set : option JsValue;
  desc_enumerable : option bool;
  desc_configurable : option bool
}.

(** FromPropertyDescriptor: the descriptor object that
    [Object.getOwnPropertyDescriptor] hands out for a property. *)
Definition FromPropertyDescriptor (p : Property) : PropertyDescriptor :=
  match p with
  | DataProperty v w e c =>
      mkDesc (Some v) (Some w) None None (Some e) (Some c)
  | AccessorProperty g s e c =>
      mkDesc None None (Some g) (Some s) (Some e) (Some c)
  end.

(** Reading a field of a descriptor object: an absent field reads as
    [undefined]. *)
Definition field (o : option JsValue) : JsValue := default VUndefined o.
Definition bool_field (o : option bool) : JsValue :=
  match o with Some b => VBool b | None => VUndefined end.

(** The code a function object runs when it is called. *)
Inductive Code : Type :=
| CodeHost (id : nat)
    (** a function of the page or of the host; what it does is given by the
        [Host] the semantics is run with *)
| CodeFunctionPrototype
    (** the intrinsic [Function.prototype] itself, which takes any arguments
        and returns [undefined] *)
| CodeFunctionPrototypeHasInstance
    (** the intrinsic [Function.prototype[Symbol.hasInstance]] *)
| CodeFunctionPrototypeApply
    (** the intrinsic [Function.prototype.apply] *)
| CodeObjectPrototypeProtoGetter
    (** the intrinsic getter of [Object.prototype.__proto__] *)
| CodeObjectPrototypeProtoSetter
    (** the intrinsic setter of [Object.prototype.__proto__] *)
| CodeFNOP
    (** [const fNOP = function () {}] of [bind] *)
| CodeBound (fn context : JsValue)
    (** [function bound(this: any) { ... }] of [bind], closed over [fn] and
        [context] *)
| CodeHasInstance (fn : JsValue)
    (** the method [value(instance) { ... }] of [bind], closed over [fn] *).

Record JsObject : Type := mkObject {
  obj_proto : JsValue;                       (* [[Prototype]]: an object or null *)
  obj_extensible : bool;                     (* [[Extensible]] *)
  obj_props : list (PropertyKey * Property); (* own properties, in creation order *)
  obj_call : option Code;                    (* [[Call]], for function objects *)
  obj_construct : bool                       (* has [[Construct]] *)
}.

Global Instance Property_eq_dec : EqDecision Property.
Proof. solve_decision. Defined.
Global Instance Code_eq_dec : EqDecision Code.
Proof. solve_decision. Defined.
Global Instance JsObject_eq_dec : EqDecision JsObject.
Proof. solve_decision. Defined.

(** The own property of a property list under a key. *)
Fixpoint own_property (ps : list (PropertyKey * Property)) (k : PropertyKey)
  : option Property :=
  match ps with
  | [] => None
  | (k', p) :: ps' => if bool_decide (k' = k) then Some p else own_property ps' k
  end.

(** Replace the property under [k], or add it after the existing ones. *)
Fixpoint put_property (ps : list (PropertyKey * Property)) (k : PropertyKey)
  (p : Property) : list (PropertyKey * Property) :=
  match ps with
  | [] => [(k, p)]
  | (k', p') :: ps' =>
      if bool_decide (k' = k) then (k, p) :: ps'
      else (k', p') :: put_property ps' k p
  end.

Definition with_props (o : JsObject) (ps : list (PropertyKey * Property)) : JsObject :=
  mkObject (obj_proto o) (obj_extensible o) ps (obj_call o) (obj_construct o).

Definition with_proto (o : JsObject) (p : JsValue) : JsObject :=
  mkObject p (obj_extensible o) (obj_props o) (obj_call o) (obj_construct o).

(* ===================================================================== *)
(** ** Machine state and the monad of script operations *)
(* ===================================================================== *)

(** What the host can observe: calls and constructions of host functions,
    and what is written to the console. *)
Inductive Event : Type :=
| EvCall (f : loc) (this : JsValue) (args : list JsValue)
| EvConstruct (f : loc) (args : list JsValue) (newTarget : JsValue)
| EvWarnNonConfigurable (p : PropertyKey)
    (** [warn(`property "${String(p)}" is non-configurable and non-writable.`)] *)
| EvWarnTransfer (key : PropertyKey)
    (** [console.warn(`Failed to transfer property ${String(key)}:`, e)] *).

Record State : Type := mkState {
  heap : list JsObject;
  trace : list Event
}.

Inductive Exception : Type :=
| TypeError
| Thrown (v : JsValue).

(** The outcome of an operation: a value, a thrown exception, or the two
    ways the model itself can give up, which no script can observe: a
    reference outside the store ([Stuck]) and an exhausted recursion budget
    ([Diverge]). *)
Inductive Completion (A : Type) : Type :=
| Normal (a : A)
| Throw (e : Exception)
| Stuck
| Diverge.
Arguments Normal {A} a.
Arguments Throw {A} e.
Arguments Stuck {A}.
Arguments Diverge {A}.

Definition M (A : Type) : Type := State -> State * Completion A.

Definition ret {A} (a : A) : M A := fun st => (st, Normal a).
Definition throw {A} (e : Exception) : M A := fun st => (st, Throw e).
Definition stuck {A} : M A := fun st => (st, Stuck).
Definition diverge {A} : M A := fun st => (st, Diverge).

Definition bind_M {A B} (m : M A) (k : A -> M B) : M B :=
  fun st =>
    match m st with
    | (st', Normal a) => k a st'
    | (st', Throw e) => (st', Throw e)
    | (st', Stuck) => (st', Stuck)
    | (st', Diverge) => (st', Diverge)
    end.

(** [try { m } catch (e) { handler }] *)
Definition try_catch {A} (m : M A) (handler : Exception -> M A) : M A :=
  fun st =>
    match m st with
    | (st', Throw e) => handler e st'
    | r => r
    end.

Declare Scope js_scope.
Delimit Scope js_scope with js.
Notation "x <- m ;; k" := (bind_M m (fun x => k))
  (at level 100, m at next level, right associativity) : js_scope.
Notation "m ;;; k" := (bind_M m (fun _ => k))
  (at level 100, right associativity) : js_scope.
Local Open Scope js_scope.

Definition get_heap : M (list JsObject) := fun st => (st, Normal (heap st)).
Definition emit (e : Event) : M unit :=
  fun st => (mkState (heap st) (trace st ++ [e]), Normal tt).

(** The object a reference points to. *)
Definition deref (l : loc) : M JsObject :=
  fun st => match heap st !! l with
            | Some o => (st, Normal o)
            | None => (st, Stuck)
            end.

Definition store (l : loc) (o : JsObject) : M unit :=
  fun st => (mkState (<[l := o]> (heap st)) (trace st), Normal tt).

Definition alloc (o : JsObject) : M loc :=
  fun st => (mkState (heap st ++ [o]) (trace st), Normal (length (heap st))).

(* ===================================================================== *)
(** ** Own properties of values: [Object.getOwnPropertyDescriptor] *)
(* ===================================================================== *)

(** The value of a decimal digit. *)
Definition digit_value (c : ascii) : option N :=
  let n := N_of_ascii c in
  if ((48 <=? n) && (n <=? 57))%N then Some (n - 48)%N else None.

Fixpoint parse_digits (s : string) (acc : N) : option N :=
  match s with
  | EmptyString => Some acc
  | String c s' =>
      match digit_value c with
      | Some d => parse_digits s' (acc * 10 + d)%N
      | None => None
      end
  end.

(** The integer a canonical numeric string denotes: decimal digits, no
    leading zero. *)
Definition canonical_index (s : string) : option N :=
  match s with
  | EmptyString => None
  | String c EmptyString => digit_value c
  | String c _ => if bool_decide (c = "0"%char) then None else parse_digits s 0
  end.

(** An array index is a canonical numeric string below 2^32 - 1. *)
Definition array_index (k : PropertyKey) : option N :=
  match k with
  | KString s =>
      match canonical_index s with
      | Some n => if (n <? 4294967295)%N then Some n else None
      | None => None
      end
  | KSymbol _ => None
  end.

(** [[GetOwnProperty]] of the String wrapper of [s]: [length] and the
    characters. *)
Definition string_own_property (s : string) (k : PropertyKey) : option Property :=
  match k with
  | KSymbol _ => None
  | KString ks =>
      if bool_decide (ks = "length") then
        Some (DataProperty (VNumber (number_of_nat (String.length s))) false false false)
      else
        match canonical_index ks with
        | Some n =>
            if (n <? N.of_nat (String.length s))%N then
              Some (DataProperty (VString (substring (N.to_nat n) 1 s)) false true false)
            else None
        | None => None
        end
  end.

(** ToObject(O).[[GetOwnProperty]](P) *)
Definition GetOwnProperty (O : JsValue) (P : PropertyKey) : M (option Property) :=
  match O with
  | VUndefined | VNull => throw TypeError
  | VObject l => o <- deref l ;; ret (own_property (obj_props o) P)
  | VString s => ret (string_own_property s P)
  | VBool _ | VNumber _ | VBigInt _ | VSymbol _ => ret None
  end.

(** [Object.getOwnPropertyDescriptor(O, P)] *)
Definition Object_getOwnPropertyDescriptor (O : JsValue) (P : PropertyKey)
  : M (option PropertyDescriptor) :=
  p <- GetOwnProperty O P ;; ret (FromPropertyDescriptor <$> p).

(* ===================================================================== *)
(** ** shared.ts: the descriptor checks *)
(* ===================================================================== *)

(** [key in desc] for a field of a descriptor object. *)
Definition has_field {A} (o : option A) : bool :=
  match o with Some _ => true | None => false end.

(** [x === false] for a boolean field. *)
Definition is_false (o : option bool) : bool :=
  match o with Some false => true | _ => false end.

(** [x === undefined] *)
Definition is_undefined (v : JsValue) : bool :=
  match v with VUndefined => true | _ => false end.

(** [export function isDataDescriptor(desc?: PropertyDescriptor)] *)
Definition isDataDescriptor (desc : option PropertyDescriptor) : bool :=
  match desc with
  | None => false
  | Some d => has_field (desc_value d) || has_field (desc_writable d)
  end.

(** [export function isAccessorDescriptor(desc?: PropertyDescriptor)] *)
Definition isAccessorDescriptor (desc : option PropertyDescriptor) : bool :=
  match desc with
  | None => false
  | Some d => has_field (desc_get d) || has_field (desc_set d)
  end.

(** Modelled from the spec: [warn] of [@garfish/utils], which is not part of
    the sources; the spec has it emit a diagnostic that is advisory only and
    never changes the verdict. The message names the property. *)
Definition warn (p : PropertyKey) : M unit := emit (EvWarnNonConfigurable p).

(** [export function verifyGetterDescriptor(target, p, newValue)];
    [DEV] is the build flag [__DEV__]. *)
Definition verifyGetterDescriptor (DEV : bool) (target : JsValue) (p : PropertyKey)
  (newValue : JsValue) : M Z :=
  desc <- Object_getOwnPropertyDescriptor target p ;;
  match desc with
  | Some d =>
      if is_false (desc_configurable d) then
        if isDataDescriptor desc && is_false (desc_writable d) then
          if negb (Object_is newValue (field (desc_value d))) then
            (if DEV then warn p else ret tt) ;;;
            ret 1%Z
          else ret 0%Z
        else if isAccessorDescriptor desc && is_undefined (field (desc_get d)) then
          ret 2%Z
        else ret 0%Z
      else ret 0%Z
  | None => ret 0%Z
  end.

(** [export function verifySetterDescriptor(target, p, newValue)] *)
Definition verifySetterDescriptor (DEV : bool) (target : JsValue) (p : PropertyKey)
  (newValue : JsValue) : M Z :=
  desc <- Object_getOwnPropertyDescriptor target p ;;
  match desc with
  | Some d =>
      if is_false (desc_configurable d) then
        if isDataDescriptor desc && is_false (desc_writable d) then
          if negb (Object_is newValue (field (desc_value d))) then
            (if DEV then warn p else ret tt) ;;;
            ret 1%Z
          else ret 3%Z
        else if isAccessorDescriptor desc && is_undefined (field (desc_set d)) then
          ret 2%Z
        else ret 0%Z
      else ret 0%Z
  | None => ret 0%Z
  end.

(** [export function verifySetter(proxyTarget, target, p, val, receiver)];
    [result] starts out [undefined]. *)
Definition verifySetter (DEV : bool) (proxyTarget target : JsValue) (p : PropertyKey)
  (val receiver : JsValue) : M JsValue :=
  verifyResult <-
    verifySetterDescriptor DEV
      (if ToBoolean proxyTarget then proxyTarget
       else (if ToBoolean receiver then receiver else target))
      p val ;;
  let result := VUndefined in
  let result :=
    if (verifyResult >? 0)%Z then
      let result :=
        if (verifyResult =? 1)%Z || (verifyResult =? 2)%Z then VBool false else result in
      let result := if (verifyResult =? 3)%Z then VBool true else result in
      result
    else result in
  ret result.

(* ===================================================================== *)
(** ** The object model: abstract operations of ECMAScript *)
(* ===================================================================== *)

(** The intrinsics of the realm sit at fixed places of the store. *)
Definition ObjectPrototype : loc := 0.
Definition FunctionPrototype : loc := 1.

(** The environment the code runs in: the build flag [__DEV__] and the
    behaviour of the functions the model does not define itself (those of
    the page and of the host), as transformers of the store. *)
Record Env : Type := mkEnv {
  DEV : bool;
  host_call :
    nat -> loc -> JsValue -> list JsValue -> list JsObject ->
    list JsObject * Completion JsValue;
  host_construct :
    nat -> loc -> list JsValue -> JsValue -> list JsObject ->
    list JsObject * Completion JsValue
}.

(** How a function object is entered: [f.call(this, ...args)] or
    [Reflect.construct(f, args, newTarget)]. *)
Inductive Mode : Type :=
| AsCall (this : JsValue)
| AsConstruct (newTarget : JsValue).

Definition run_host (f : list JsObject -> list JsObject * Completion JsValue)
  : M JsValue :=
  fun st => let (h', r) := f (heap st) in (mkState h' (trace st), r).

(** The first object along the prototype chain of [l] that owns [k]. *)
Inductive Lookup : Type :=
| Found (owner : loc) (p : Property)
| Absent
| Broken.

Fixpoint lookup_chain (fuel : nat) (h : list JsObject) (l : loc) (k : PropertyKey)
  {struct fuel} : Lookup :=
  match h !! l with
  | None => Broken
  | Some o =>
      match own_property (obj_props o) k with
      | Some p => Found l p
      | None =>
          match obj_proto o with
          | VObject l' =>
              match fuel with
              | 0 => Broken
              | S fuel' => lookup_chain fuel' h l' k
              end
          | _ => Absent
          end
      end
  end.

(** Does the prototype chain above [lo] contain the object [lp]? *)
Fixpoint proto_chain_has (fuel : nat) (h : list JsObject) (lo lp : loc)
  {struct fuel} : option bool :=
  match h !! lo with
  | None => None
  | Some o =>
      match obj_proto o with
      | VObject l' =>
          if bool_decide (l' = lp) then Some true
          else match fuel with
               | 0 => None
               | S fuel' => proto_chain_has fuel' h l' lp
               end
      | _ => Some false
      end
  end.

(** Does the chain that starts at the value [p] reach the object [target]? *)
Fixpoint chain_reaches (fuel : nat) (h : list JsObject) (p : JsValue) (target : loc)
  {struct fuel} : option bool :=
  match p with
  | VObject lp =>
      if bool_decide (lp = target) then Some true
      else match h !! lp with
           | None => None
           | Some o =>
               match fuel with
               | 0 => None
               | S fuel' => chain_reaches fuel' h (obj_proto o) target
               end
           end
  | _ => Some false
  end.

(** [typeof v] *)
Definition typeof (v : JsValue) : M string :=
  match v with
  | VUndefined => ret "undefined"
  | VNull => ret "object"
  | VBool _ => ret "boolean"
  | VNumber _ => ret "number"
  | VBigInt _ => ret "bigint"
  | VString _ => ret "string"
  | VSymbol _ => ret "symbol"
  | VObject l =>
      o <- deref l ;;
      ret (if has_field (obj_call o) then "function" else "object")
  end.

Definition IsCallable (v : JsValue) : M bool :=
  match v with
  | VObject l => o <- deref l ;; ret (has_field (obj_call o))
  | _ => ret false
  end.

(** *** Descriptors handed to [Object.defineProperty] *)

Definition IsAccessorDescriptor (D : PropertyDescriptor) : bool :=
  has_field (desc_get D) || has_field (desc_set D).
Definition IsDataDescriptor (D : PropertyDescriptor) : bool :=
  has_field (desc_value D) || has_field (desc_writable D).
Definition IsGenericDescriptor (D : PropertyDescriptor) : bool :=
  negb (IsAccessorDescriptor D) && negb (IsDataDescriptor D).

(** The field is absent, or holds what the property already has. *)
Definition absent_or_same {A} (eqb : A -> A -> bool) (o : option A) (x : A) : bool :=
  match o with
  | None => true
  | Some y => eqb y x
  end.

(** ValidateAndApplyPropertyDescriptor, step 2: a new property. *)
Definition new_property (D : PropertyDescriptor) : Property :=
  if IsAccessorDescriptor D then
    AccessorProperty (field (desc_get D)) (field (desc_set D))
      (default false (desc_enumerable D)) (default false (desc_configurable D))
  else
    DataProperty (field (desc_value D)) (default false (desc_writable D))
      (default false (desc_enumerable D)) (default false (desc_configurable D)).

(** Step 5: what a non-configurable property refuses. *)
Definition change_allowed (D : PropertyDescriptor) (current : Property) : bool :=
  if prop_configurable current then true
  else
    negb (bool_decide (desc_configurable D = Some true))
    && absent_or_same Bool.eqb (desc_enumerable D) (prop_enumerable current)
    && (IsGenericDescriptor D
        || Bool.eqb (IsAccessorDescriptor D) (negb (is_data_property current)))
    && match current with
       | AccessorProperty g s _ _ =>
           absent_or_same SameValue (desc_get D) g
           && absent_or_same SameValue (desc_set D) s
       | DataProperty v w _ _ =>
           if w then true
           else negb (bool_decide (desc_writable D = Some true))
                && absent_or_same SameValue (desc_value D) v
       end.

(** Step 6: the property after the change. *)
Definition changed_property (D : PropertyDescriptor) (current : Property) : Property :=
  match current with
  | DataProperty v w e c =>
      if IsAccessorDescriptor D then
        AccessorProperty (field (desc_get D)) (field (desc_set D))
          (default e (desc_enumerable D)) (default c (desc_configurable D))
      else
        DataProperty (default v (desc_value D)) (default w (desc_writable D))
          (default e (desc_enumerable D)) (default c (desc_configurable D))
  | AccessorProperty g s e c =>
      if IsDataDescriptor D then
        DataProperty (field (desc_value D)) (default false (desc_writable D))
          (default e (desc_enumerable D)) (default c (desc_configurable D))
      else
        AccessorProperty (default g (desc_get D)) (default s (desc_set D))
          (default e (desc_enumerable D)) (default c (desc_configurable D))
  end.

(** ValidateAndApplyPropertyDescriptor: the property to write, or [None]
    when the definition is refused. *)
Definition ValidateAndApplyPropertyDescriptor (extensible : bool)
  (D : PropertyDescriptor) (current : option Property) : option Property :=
  match current with
  | None => if extensible then Some (new_property D) else None
  | Some cur => if change_allowed D cur then Some (changed_property D cur) else None
  end.

(** O.[[DefineOwnProperty]](P, D) of an ordinary object. *)
Definition DefineOwnProperty (l : loc) (P : PropertyKey) (D : PropertyDescriptor)
  : M bool :=
  o <- deref l ;;
  match ValidateAndApplyPropertyDescriptor (obj_extensible o) D
          (own_property (obj_props o) P) with
  | Some p => store l (with_props o (put_property (obj_props o) P p)) ;;; ret true
  | None => ret false
  end.

(** [Object.defineProperty(O, P, D)]; ToPropertyDescriptor refuses a
    descriptor with both accessor and data fields. *)
Definition Object_defineProperty (O : JsValue) (P : PropertyKey) (D : PropertyDescriptor)
  : M JsValue :=
  match O with
  | VObject l =>
      if IsAccessorDescriptor D && IsDataDescriptor D then throw TypeError
      else
        ok <- DefineOwnProperty l P D ;;
        if ok then ret O else throw TypeError
  | _ => throw TypeError
  end.

(** O.[[SetPrototypeOf]](V) of an ordinary object. *)
Definition OrdinarySetPrototypeOf (l : loc) (V : JsValue) : M bool :=
  o <- deref l ;;
  if SameValue V (obj_proto o) then ret true
  else if negb (obj_extensible o) then ret false
  else
    h <- get_heap ;;
    match chain_reaches (length h) h V l with
    | None => stuck
    | Some true => ret false
    | Some false => store l (with_proto o V) ;;; ret true
    end.

(** [Object.setPrototypeOf(O, proto)] *)
Definition Object_setPrototypeOf (O proto : JsValue) : M JsValue :=
  match O with
  | VUndefined | VNull => throw TypeError
  | _ =>
      match proto with
      | VObject _ | VNull =>
          match O with
          | VObject l =>
              ok <- OrdinarySetPrototypeOf l proto ;;
              if ok then ret O else throw TypeError
          | _ => ret O
          end
      | _ => throw TypeError
      end
  end.

(** The getter of [Object.prototype.__proto__]. *)
Definition proto_getter (this : JsValue) : M JsValue :=
  match this with
  | VUndefined | VNull => throw TypeError
  | VObject l => o <- deref l ;; ret (obj_proto o)
  | _ => stuck
  end.

(** The setter of [Object.prototype.__proto__]. *)
Definition proto_setter (this proto : JsValue) : M JsValue :=
  match this with
  | VUndefined | VNull => throw TypeError
  | _ =>
      match proto with
      | VObject _ | VNull =>
          match this with
          | VObject l =>
              ok <- OrdinarySetPrototypeOf l proto ;;
              if ok then ret VUndefined else throw TypeError
          | _ => ret VUndefined
          end
      | _ => ret VUndefined
      end
  end.

(** OrdinaryOwnPropertyKeys, as [Reflect.ownKeys] lists them: array indices
    in ascending order, then strings and then symbols in creation order. *)
Fixpoint insert_index (x : N * PropertyKey) (l : list (N * PropertyKey))
  : list (N * PropertyKey) :=
  match l with
  | [] => [x]
  | y :: l' => if (fst x <=? fst y)%N then x :: y :: l' else y :: insert_index x l'
  end.

Definition sort_indices (l : list (N * PropertyKey)) : list (N * PropertyKey) :=
  fold_right insert_index [] l.

Definition index_keys (ks : list PropertyKey) : list (N * PropertyKey) :=
  omap (fun k => match array_index k with Some n => Some (n, k) | None => None end) ks.

Definition is_plain_string_key (k : PropertyKey) : bool :=
  match k with
  | KString _ => negb (has_field (array_index k))
  | KSymbol _ => false
  end.

Definition is_symbol_key (k : PropertyKey) : bool :=
  match k with
  | KString _ => false
  | KSymbol _ => true
  end.

Definition OrdinaryOwnPropertyKeys (o : JsObject) : list PropertyKey :=
  let ks := map fst (obj_props o) in
  map snd (sort_indices (index_keys ks))
  ++ filter (fun k => is_plain_string_key k = true) ks
  ++ filter (fun k => is_symbol_key k = true) ks.

(** [Reflect.ownKeys(target)] *)
Definition Reflect_ownKeys (target : JsValue) : M (list PropertyKey) :=
  match target with
  | VObject l => o <- deref l ;; ret (OrdinaryOwnPropertyKeys o)
  | _ => throw TypeError
  end.

(** *** Operations that may run code

    [[Get]] and [[Set]] run accessors, [instanceof] runs the
    [Symbol.hasInstance] method, [new] runs the constructor. They are written
    over [invoke], which enters a function object; the knot is tied by
    [run] below. *)

Section Operations.

Variable E : Env.
Variable invoke : JsValue -> Mode -> list JsValue -> M JsValue.

(** Call(F, V, args) *)
Definition Call (F this : JsValue) (args : list JsValue) : M JsValue :=
  invoke F (AsCall this) args.

(** Construct(F, args, newTarget) *)
Definition Construct (F : JsValue) (args : list JsValue) (newTarget : JsValue)
  : M JsValue :=
  invoke F (AsConstruct newTarget) args.

(** O.[[Get]](P, Receiver) of an ordinary object. *)
Definition OrdinaryGet (l : loc) (P : PropertyKey) (Receiver : JsValue) : M JsValue :=
  h <- get_heap ;;
  match lookup_chain (length h) h l P with
  | Found _ (DataProperty v _ _ _) => ret v
  | Found _ (AccessorProperty g _ _ _) =>
      if is_undefined g then ret VUndefined else Call g Receiver []
  | Absent => ret VUndefined
  | Broken => stuck
  end.

(** GetV(V, P), the read [V[P]]. The prototypes of the wrappers of
    primitive values are outside the model. *)
Definition GetV (V : JsValue) (P : PropertyKey) : M JsValue :=
  match V with
  | VObject l => OrdinaryGet l P V
  | VUndefined | VNull => throw TypeError
  | _ => stuck
  end.

(** The assignment [O[P] = V] in strict code: O.[[Set]](P, V, O), and a
    TypeError when it answers false. *)
Definition PutValue (O : JsValue) (P : PropertyKey) (V : JsValue) : M unit :=
  match O with
  | VObject l =>
      h <- get_heap ;;
      match lookup_chain (length h) h l P with
      | Broken => stuck
      | Found _ (AccessorProperty _ s _ _) =>
          if is_undefined s then throw TypeError
          else Call s O [V] ;;; ret tt
      | Found _ (DataProperty _ false _ _) => throw TypeError
      | Found _ (DataProperty _ true _ _) | Absent =>
          o <- deref l ;;
          match own_property (obj_props o) P with
          | Some (AccessorProperty _ _ _ _) => throw TypeError
          | Some (DataProperty _ false _ _) => throw TypeError
          | Some (DataProperty _ true e c) =>
              store l (with_props o (put_property (obj_props o) P (DataProperty V true e c)))
          | None =>
              if obj_extensible o then
                store l (with_props o
                           (put_property (obj_props o) P (DataProperty V true true true)))
              else throw TypeError
          end
      end
  | VUndefined | VNull => throw TypeError
  | _ => stuck
  end.

(** GetMethod(V, P) *)
Definition GetMethod (V : JsValue) (P : PropertyKey) : M JsValue :=
  func <- GetV V P ;;
  match func with
  | VUndefined | VNull => ret VUndefined
  | _ =>
      callable <- IsCallable func ;;
      if callable then ret func else throw TypeError
  end.

(** OrdinaryHasInstance(C, O) *)
Definition OrdinaryHasInstance (C O : JsValue) : M bool :=
  callable <- IsCallable C ;;
  if negb callable then ret false
  else
    match O with
    | VObject lo =>
        P <- GetV C (KString "prototype") ;;
        match P with
        | VObject lp =>
            h <- get_heap ;;
            match proto_chain_has (length h) h lo lp with
            | Some b => ret b
            | None => stuck
            end
        | _ => throw TypeError
        end
    | _ => ret false
    end.

(** InstanceofOperator(V, target), the expression [V instanceof target]. *)
Definition InstanceofOperator (V target : JsValue) : M bool :=
  match target with
  | VObject _ =>
      instOfHandler <- GetMethod target (KSymbol SymHasInstance) ;;
      if negb (is_undefined instOfHandler) then
        r <- Call instOfHandler target [V] ;;
        ret (ToBoolean r)
      else
        callable <- IsCallable target ;;
        if callable then OrdinaryHasInstance target V else throw TypeError
  | _ => throw TypeError
  end.

(** OrdinaryCreateFromConstructor(newTarget, "%Object.prototype%") *)
Definition OrdinaryCreateFromConstructor (newTarget : JsValue) : M loc :=
  proto <- GetV newTarget (KString "prototype") ;;
  alloc (mkObject
           (match proto with
            | VObject _ => proto
            | _ => VObject ObjectPrototype
            end)
           true [] None false).

(** A function object as a function declaration, a function expression or
    a method definition creates it: [length], [name] and, for constructors,
    [prototype] with its [constructor] back link. *)
Definition function_props (name : string) (len : nat)
  : list (PropertyKey * Property) :=
  [ (KString "length", DataProperty (VNumber (number_of_nat len)) false false true);
    (KString "name", DataProperty (VString name) false false true) ].

Definition CreateFunction (code : Code) (name : string) (len : nat) : M loc :=
  h <- get_heap ;;
  let F := length h in
  alloc (mkObject (VObject FunctionPrototype) true
           (function_props name len
            ++ [ (KString "prototype",
                  DataProperty (VObject (F + 1)) true false false) ])
           (Some code) true) ;;;
  alloc (mkObject (VObject ObjectPrototype) true
           [ (KString "constructor", DataProperty (VObject F) true false true) ]
           None false) ;;;
  ret F.

Definition CreateMethod (code : Code) (name : string) (len : nat) : M loc :=
  alloc (mkObject (VObject FunctionPrototype) true (function_props name len)
           (Some code) false).

(** *** shared.ts: the function binder *)

(** Modelled from the spec: [handlerParams] of [../utils], which is not
    part of the sources; the spec has the bound function forward "the given
    arguments". *)
Definition handlerParams (arguments : list JsValue) : list JsValue := arguments.

(** Modelled from the spec: [isObject] of [@garfish/utils], which is not
    part of the sources; the spec reads it as "is an object". A function
    counts as one only through the [typeof] test next to it. *)
Definition isObject (val : JsValue) : M bool :=
  t <- typeof val ;;
  ret (ToBoolean val && bool_decide (t = "object")).

(** Modelled from the spec: [makeMap] of [@garfish/utils], which is not part
    of the sources; the spec has [buildInProps] be the membership test of
    "a fixed set of intrinsic properties". *)
Definition makeMap (list : list PropertyKey) : PropertyKey -> bool :=
  fun val => bool_decide (val ∈ list).

(** [const buildInProps = makeMap([...])] *)
Definition buildInProps : PropertyKey -> bool :=
  makeMap [ KString "length"; KString "caller"; KString "callee";
            KString "arguments"; KString "prototype"; KSymbol SymHasInstance ].

(** One turn of the loop of [transferProps]. *)
Definition transferProp (source : JsValue) (target : JsValue) (key : PropertyKey)
  : M unit :=
  if buildInProps key then ret tt
  else
    sourceDesc <- Object_getOwnPropertyDescriptor source key ;;
    targetDesc <- Object_getOwnPropertyDescriptor target key ;;
    if match targetDesc with
       | Some d => negb (ToBoolean (bool_field (desc_configurable d)))
       | None => false
       end
    then ret tt
    else
      match sourceDesc with
      | Some sd =>
          try_catch
            (v <- GetV source key ;; PutValue target key v)
            (fun e =>
               try_catch
                 (v <- GetV source key ;;
                  Object_defineProperty target key
                    (mkDesc (Some v)
                       (Some (ToBoolean (bool_field (desc_writable sd))))
                       None None
                       (Some (ToBoolean (bool_field (desc_enumerable sd))))
                       (Some (ToBoolean (bool_field (desc_configurable sd))))) ;;;
                  ret tt)
                 (fun defineError =>
                    if DEV E then emit (EvWarnTransfer key) else ret tt))
      | None => ret tt
      end.

Fixpoint transferProps_loop (keys : list PropertyKey) (source target : JsValue)
  : M unit :=
  match keys with
  | [] => ret tt
  | key :: keys' =>
      transferProp source target key ;;;
      transferProps_loop keys' source target
  end.

(** [function transferProps(source: Function, target: Function)] *)
Definition transferProps (source target : JsValue) : M unit :=
  keys <- Reflect_ownKeys source ;;
  transferProps_loop keys source target.

(** The body of [function bound(this: any)]; [bound] is the function object
    itself. Arrays of arguments are not materialised in the store: the call
    [fn.apply(context, args)] enters [fn.apply] with the elements of [args]
    spread out after [context]; the spread [new fn(...args)] likewise hands
    the list over. *)
Definition bound_body (bound : loc) (fn context this : JsValue)
  (arguments : list JsValue) : M JsValue :=
  let args := handlerParams arguments in
  isInstance <- InstanceofOperator this (VObject bound) ;;
  if isInstance then
    obj <- Construct fn args fn ;;
    prototype <- GetV (VObject bound) (KString "prototype") ;;
    Object_setPrototypeOf obj prototype ;;;
    ret obj
  else
    apply <- GetV fn (KString "apply") ;;
    Call apply fn (context :: args).

(** The body of the [value(instance)] method that [bind] installs under
    [Symbol.hasInstance]. *)
Definition hasInstance_body (fn instance : JsValue) : M JsValue :=
  op <- GetV fn (KString "prototype") ;;
  isObj <- isObject op ;;
  t <- typeof op ;;
  if isObj || bool_decide (t = "function") then
    r <- InstanceofOperator instance fn ;;
    ret (VBool r)
  else ret (VBool false).

(** [export function bind(fn, context: any)] *)
Definition bind (fn context : JsValue) : M JsValue :=
  bound <- CreateFunction (CodeBound fn context) "bound" 0 ;;
  fNOP <- CreateFunction CodeFNOP "fNOP" 0 ;;
  PutValue (VObject bound) (KString "$native") fn ;;;
  transferProps fn (VObject bound) ;;;
  fnPrototype <- GetV fn (KString "prototype") ;;
  (if ToBoolean fnPrototype then
     fnPrototype' <- GetV fn (KString "prototype") ;;
     PutValue (VObject fNOP) (KString "prototype") fnPrototype'
   else ret tt) ;;;
  instance <- Construct (VObject fNOP) [] (VObject fNOP) ;;
  PutValue (VObject bound) (KString "prototype") instance ;;;
  (if ToBoolean (VSymbol SymHasInstance) then
     value <- CreateMethod (CodeHasInstance fn) "value" 1 ;;
     Object_defineProperty (VObject bound) (KSymbol SymHasInstance)
       (mkDesc (Some (VObject value)) None None None None (Some true)) ;;;
     ret tt
   else ret tt) ;;;
  ret (VObject bound).

(** [[Construct]] of a function written in ECMAScript (a base
    constructor): a fresh [this] that inherits from [newTarget.prototype]; an
    object the body returns replaces it. *)
Definition ordinary_construct (body : JsValue -> M JsValue) (newTarget : JsValue)
  : M JsValue :=
  thisArgument <- OrdinaryCreateFromConstructor newTarget ;;
  result <- body (VObject thisArgument) ;;
  match result with
  | VObject _ => ret result
  | _ => ret (VObject thisArgument)
  end.

(** Entering the function object [F]. *)
Definition invoke_step (F : JsValue) (mode : Mode) (args : list JsValue)
  : M JsValue :=
  match F with
  | VObject f =>
      o <- deref f ;;
      match obj_call o with
      | None => throw TypeError
      | Some code =>
          match mode with
          | AsCall this =>
              match code with
              | CodeHost id =>
                  emit (EvCall f this args) ;;;
                  run_host (host_call E id f this args)
              | CodeFunctionPrototype => ret VUndefined
              | CodeFunctionPrototypeHasInstance =>
                  b <- OrdinaryHasInstance this (nth 0 args VUndefined) ;;
                  ret (VBool b)
              | CodeFunctionPrototypeApply =>
                  callable <- IsCallable this ;;
                  if callable then Call this (nth 0 args VUndefined) (tl args)
                  else throw TypeError
              | CodeObjectPrototypeProtoGetter => proto_getter this
              | CodeObjectPrototypeProtoSetter =>
                  proto_setter this (nth 0 args VUndefined)
              | CodeFNOP => ret VUndefined
              | CodeBound fn context => bound_body f fn context this args
              | CodeHasInstance fn => hasInstance_body fn (nth 0 args VUndefined)
              end
          | AsConstruct newTarget =>
              if negb (obj_construct o) then throw TypeError
              else
                match code with
                | CodeHost id =>
                    emit (EvConstruct f args newTarget) ;;;
                    run_host (host_construct E id f args newTarget)
                | CodeFNOP => ordinary_construct (fun _ => ret VUndefined) newTarget
                | CodeBound fn context =>
                    ordinary_construct
                      (fun this => bound_body f fn context this args) newTarget
                | _ => stuck
                end
          end
      end
  | _ => throw TypeError
  end.

End Operations.

(** Entering a function object, with a budget for the depth of nested
    calls. *)
Fixpoint run (E : Env) (fuel : nat) (F : JsValue) (mode : Mode) (args : list JsValue)
  {struct fuel} : M JsValue :=
  match fuel with
  | 0 => diverge
  | S fuel' => invoke_step E (run E fuel') F mode args
  end.

(* ===================================================================== *)
(** ** A realm to run examples in *)
(* ===================================================================== *)

(** A built-in function object. *)
Definition builtin (code : Code) (name : string) (len : nat) : JsObject :=
  mkObject (VObject FunctionPrototype) true (function_props name len) (Some code) false.

(** The store of a fresh realm: [Object.prototype] with its [__proto__]
    accessor, [Function.prototype] with [apply] and [Symbol.hasInstance],
    and the functions behind them. *)
Definition realm_heap : list JsObject :=
  [ (* 0 *) mkObject VNull true
              [ (KString "__proto__", AccessorProperty (VObject 4) (VObject 5) false true) ]
              None false;
    (* 1 *) mkObject (VObject ObjectPrototype) true
              [ (KString "length", DataProperty (VNumber (number_of_nat 0)) false false true);
                (KString "name", DataProperty (VString "") false false true);
                (KString "apply", DataProperty (VObject 2) true false true);
                (KSymbol SymHasInstance, DataProperty (VObject 3) false false false) ]
              (Some CodeFunctionPrototype) false;
    (* 2 *) builtin CodeFunctionPrototypeApply "apply" 2;
    (* 3 *) builtin CodeFunctionPrototypeHasInstance "[Symbol.hasInstance]" 1;
    (* 4 *) builtin CodeObjectPrototypeProtoGetter "get __proto__" 0;
    (* 5 *) builtin CodeObjectPrototypeProtoSetter "set __proto__" 1 ].

(** A host whose functions return [undefined] when called and a fresh empty
    object when constructed, and touch nothing else. *)
Definition quiet_host (dev : bool) : Env :=
  mkEnv dev
    (fun _ _ _ _ h => (h, Normal VUndefined))
    (fun _ _ _ _ h =>
       ((h ++ [mkObject (VObject ObjectPrototype) true [] None false])%list,
        Normal (VObject (length h)))).

(* ===================================================================== *)
(** ** The observer module: [observerModule(_sandbox)] *)
(* ===================================================================== *)

Module Observer.

(** [_sandbox.options]; [disableCollect] may be left out. *)
Record SandboxOptions : Type := mkOptions {
  disableCollect : option bool
}.

(** What [observer.disconnect] evaluates to on an observer object: the
    method of the class, which every instance inherits, unless the page has
    put something else in its place. *)
Inductive DisconnectProperty : Type :=
| ClassMethod
| NotAFunction
| PageFunction (id : nat).

(** What reaches the outside: the native [MutationObserver.prototype.disconnect]
    run on an observer, and calls of functions of the page. *)
Inductive ObserverEvent : Type :=
| NativeDisconnect (observer : nat)
| PageCall (id : nat) (observer : nat).

Global Instance DisconnectProperty_eq_dec : EqDecision DisconnectProperty.
Proof. solve_decision. Defined.
Global Instance ObserverEvent_eq_dec : EqDecision ObserverEvent.
Proof. solve_decision. Defined.

(** The closure of [observerModule]: the options of the sandbox it was
    handed, the observer objects its class has created (an observer is its
    position in this list), the [[SetData]] of [observerSet] (a deleted
    entry stays in the list as [None], as the language defines it), and
    the events so far. *)
Record ModuleState : Type := mkModule {
  options : SandboxOptions;
  observers : list DisconnectProperty;
  observerSet : list (option nat);
  log : list ObserverEvent
}.

(** [Set.prototype.has], [add], [delete] and [clear] *)
Definition SetHas (data : list (option nat)) (v : nat) : bool :=
  bool_decide (Some v ∈ data).

Definition SetAdd (data : list (option nat)) (v : nat) : list (option nat) :=
  if SetHas data v then data else data ++ [Some v].

Definition SetDelete (data : list (option nat)) (v : nat) : list (option nat) :=
  map (fun e => if bool_decide (e = Some v) then None else e) data.

Definition SetClear (data : list (option nat)) : list (option nat) :=
  map (fun _ => None) data.

(** The members of a set, in insertion order. *)
Definition members (data : list (option nat)) : list nat := omap id data.

(** [const observerSet = new Set<MutationObserver>()] *)
Definition observerModule (_sandbox : SandboxOptions) : ModuleState :=
  mkModule _sandbox [] [] [].

(** [new ProxyMutationObserver(cb)]: [super(cb)] makes the observer, then
    the constructor tracks it unless collection is disabled. The callback
    plays no part in the tracking. *)
Definition ProxyMutationObserver (st : ModuleState) : ModuleState * nat :=
  let this := length (observers st) in
  let created := observers st ++ [ClassMethod] in
  if negb (default false (disableCollect (options st))) then
    (mkModule (options st) created (SetAdd (observerSet st) this) (log st), this)
  else
    (mkModule (options st) created (observerSet st) (log st), this).

(** [disconnect()] of the class: forget the observer, then
    [super.disconnect()]. *)
Definition disconnect (this : nat) (st : ModuleState) : ModuleState :=
  let data :=
    if SetHas (observerSet st) this then SetDelete (observerSet st) this
    else observerSet st in
  mkModule (options st) (observers st) data (log st ++ [NativeDisconnect this]).

(** The page puts [v] in place of [observer.disconnect]. *)
Definition shadow_disconnect (observer : nat) (v : DisconnectProperty)
  (st : ModuleState) : ModuleState :=
  mkModule (options st) (<[observer := v]> (observers st)) (observerSet st) (log st).

(** The callback of [recover]:
    [if (observer && typeof observer.disconnect === 'function') observer.disconnect()] *)
Definition recover_callback (observer : nat) (st : ModuleState) : ModuleState :=
  match observers st !! observer with
  | Some ClassMethod => disconnect observer st
  | Some (PageFunction id) =>
      mkModule (options st) (observers st) (observerSet st)
        (log st ++ [PageCall id observer])
  | Some NotAFunction => st
  | None => st
  end.

(** [Set.prototype.forEach]: walk the entries by position, skipping the
    deleted ones, and look at the list again after every callback. [None]
    when the budget runs out before the end of the list. *)
Fixpoint SetForEach (fuel : nat) (callbackfn : nat -> ModuleState -> ModuleState)
  (index : nat) (st : ModuleState) {struct fuel} : option ModuleState :=
  match observerSet st !! index with
  | None => Some st
  | Some e =>
      match fuel with
      | 0 => None
      | S fuel' =>
          SetForEach fuel' callbackfn (S index)
            (match e with
             | Some v => callbackfn v st
             | None => st
             end)
      end
  end.

(** [const recover = () => { observerSet.forEach(...); observerSet.clear(); }] *)
Definition recover (fuel : nat) (st : ModuleState) : option ModuleState :=
  match SetForEach fuel recover_callback 0 st with
  | Some st' =>
      Some (mkModule (options st') (observers st') (SetClear (observerSet st')) (log st'))
  | None => None
  end.

(** [n] observers created one after the other. *)
Fixpoint create_observers (n : nat) (st : ModuleState) : ModuleState :=
  match n with
  | 0 => st
  | S n' => create_observers n' (fst (ProxyMutationObserver st))
  end.

(** The states the closure can be in: observers are made and
    disconnected, the page may shadow a [disconnect], the sandbox may change
    its options, and [recover] runs. *)
Inductive Reachable : ModuleState -> Prop :=
| reach_module (_sandbox : SandboxOptions) : Reachable (observerModule _sandbox)
| reach_new st : Reachable st -> Reachable (fst (ProxyMutationObserver st))
| reach_disconnect st this :
    Reachable st -> this < length (observers st) -> Reachable (disconnect this st)
| reach_shadow st observer v :
    Reachable st -> Reachable (shadow_disconnect observer v st)
| reach_options st opts :
    Reachable st -> Reachable (mkModule opts (observers st) (observerSet st) (log st))
| reach_recover st fuel st' :
    Reachable st -> recover fuel st = Some st' -> Reachable st'.

(** How often the native disconnect ran on an observer. *)
Definition native_disconnects (observer : nat) (l : list ObserverEvent) : nat :=
  length (filter (fun e => e = NativeDisconnect observer) l).

End Observer.

(* ===================================================================== *)
(** ** The claims in the words of the specification *)
(* ===================================================================== *)

(** The verdicts of the specification and the numbers the code returns for
    them. *)
Inductive InterceptionVerdict : Type :=
| Allowed
| RejectedValueMismatch
| RejectedAccessorMissing
| AllowedNoopWrite.

Definition verdict_code (v : InterceptionVerdict) : Z :=
  match v with
  | Allowed => 0
  | RejectedValueMismatch => 1
  | RejectedAccessorMissing => 2
  | AllowedNoopWrite => 3
  end.

(** [classifyForSet], following the specification: the case analysis on the
    own property of the target. *)
Definition classifyForSet (own : option Property) (newValue : JsValue)
  : InterceptionVerdict :=
  match own with
  | None => Allowed
  | Some pr =>
      if prop_configurable pr then Allowed
      else
        match pr with
        | DataProperty stored writable _ _ =>
            if writable then Allowed
            else if Object_is newValue stored then AllowedNoopWrite
            else RejectedValueMismatch
        | AccessorProperty _ setter _ _ =>
            if is_undefined setter then RejectedAccessorMissing else Allowed
        end
  end.

(** [classifyForGet], following the specification. *)
Definition classifyForGet (own : option Property) (value : JsValue)
  : InterceptionVerdict :=
  match own with
  | None => Allowed
  | Some pr =>
      if prop_configurable pr then Allowed
      else
        match pr with
        | DataProperty stored writable _ _ =>
            if writable then Allowed
            else if Object_is value stored then Allowed
            else RejectedValueMismatch
        | AccessorProperty getter _ _ _ =>
            if is_undefined getter then RejectedAccessorMissing else Allowed
        end
  end.

(** The authority object of the set trap: the alternate target of the
    proxy if there is one, else the receiver if it is truthy, else the
    target. *)
Definition authority (proxyTarget receiver target : JsValue) : JsValue :=
  if ToBoolean proxyTarget then proxyTarget
  else if ToBoolean receiver then receiver
  else target.

(** What the set trap makes of a verdict: deny, report success, or no
    verdict. *)
Definition translate (v : InterceptionVerdict) : JsValue :=
  match v with
  | RejectedValueMismatch | RejectedAccessorMissing => VBool false
  | AllowedNoopWrite => VBool true
  | Allowed => VUndefined
  end.

(** The same on the numbers of the code. *)
Definition translate_code (n : Z) : JsValue :=
  if (n =? 1)%Z || (n =? 2)%Z then VBool false
  else if (n =? 3)%Z then VBool true
  else VUndefined.

(** The outcome of an operation with its value mapped. *)
Definition map_outcome {A B} (f : A -> B) (r : State * Completion A)
  : State * Completion B :=
  match r with
  | (st, Normal a) => (st, Normal (f a))
  | (st, Throw e) => (st, Throw e)
  | (st, Stuck) => (st, Stuck)
  | (st, Diverge) => (st, Diverge)
  end.

(* ===================================================================== *)
(** ** Objects and functions the examples use *)
(* ===================================================================== *)

(** An object with fixed properties, as [Object.freeze] and
    [Object.defineProperty] leave it:
    [nan] and [negzero] are non-configurable and read-only, [hidden] is a
    non-configurable accessor without getter and setter, [plain] is an
    everyday property. *)
Definition fixed_object : JsObject :=
  mkObject (VObject ObjectPrototype) false
    [ (KString "nan", DataProperty NaN false true false);
      (KString "negzero", DataProperty neg_zero false true false);
      (KString "hidden", AccessorProperty VUndefined VUndefined false false);
      (KString "plain", DataProperty (VBool true) true true true) ]
    None false.

(** The realm with [fixed_object] at place 6. *)
Definition fixed_state : State := mkState (realm_heap ++ [fixed_object]) [].

(** [function Widget(a, b) { ... }] with the static [Widget.version = "1.0"],
    at place 6 of the store, and [Widget.prototype] at place 7. What calling
    and constructing it does is up to the host. *)
Definition Widget : JsObject :=
  mkObject (VObject FunctionPrototype) true
    (function_props "Widget" 2
     ++ [ (KString "prototype", DataProperty (VObject 7) true false false);
          (KString "version", DataProperty (VString "1.0") true true true) ])
    (Some (CodeHost 0)) true.

Definition Widget_prototype : JsObject :=
  mkObject (VObject ObjectPrototype) true
    [ (KString "constructor", DataProperty (VObject 6) true false true) ]
    None false.

Definition page_state : State :=
  mkState (realm_heap ++ [Widget; Widget_prototype]) [].

(** [const now = () => { ... }], at place 6: an arrow function has no
    [prototype] property and cannot be constructed. The built-in methods of
    the host ([setTimeout], [addEventListener]) are of the same kind. *)
Definition arrow_function : JsObject :=
  mkObject (VObject FunctionPrototype) true (function_props "now" 0)
    (Some (CodeHost 0)) false.

Definition arrow_state : State := mkState (realm_heap ++ [arrow_function]) [].

(** [function Odd() {}] after
    [Object.defineProperty(Odd, "__proto__", { value: 5, writable: true,
                            enumerable: true, configurable: true })],
    at place 6, with [Odd.prototype] at place 7. *)
Definition Odd : JsObject :=
  mkObject (VObject FunctionPrototype) true
    (function_props "Odd" 0
     ++ [ (KString "prototype", DataProperty (VObject 7) true false false);
          (KString "__proto__", DataProperty (VNumber (number_of_nat 5)) true true true) ])
    (Some (CodeHost 0)) true.

Definition odd_state : State :=
  mkState (realm_heap ++ [Odd; Widget_prototype]) [].

(** The states after [bind(fn, undefined)] in these three scenes, with a
    host that does nothing; the wrapper is at place 8 where the function
    has a prototype object at place 7, and at place 7 after the arrow
    function. *)
Definition page_bound_state : State :=
  fst (bind (quiet_host false) (run (quiet_host false) 1) (VObject 6) VUndefined page_state).

Definition arrow_bound_state : State :=
  fst (bind (quiet_host false) (run (quiet_host false) 1) (VObject 6) VUndefined arrow_state).

Definition odd_bound_state : State :=
  fst (bind (quiet_host false) (run (quiet_host false) 1) (VObject 6) VUndefined odd_state).

(* ===================================================================== *)
(** ** When [bind] runs no code of the page *)
(* ===================================================================== *)

(** What the read [o[k]] finds when no getter is in the way: the value of
    the data property the chain holds, [undefined] when it holds none. *)
Definition data_lookup (h : list JsObject) (l : loc) (k : PropertyKey)
  : option JsValue :=
  match lookup_chain (length h) h l k with
  | Found _ (DataProperty v _ _ _) => Some v
  | Absent => Some VUndefined
  | _ => None
  end.

(** The objects every function inherits from hold no setter under [k]. *)
Definition inherits_no_setter (h : list JsObject) (k : PropertyKey) : bool :=
  match lookup_chain (length h) h FunctionPrototype k with
  | Found _ (AccessorProperty _ s _ _) => is_undefined s
  | Found _ (DataProperty _ _ _ _) => true
  | Absent => true
  | Broken => false
  end.

(** They hold nothing under [k] that refuses an assignment either. *)
Definition inherits_assignable (h : list JsObject) (k : PropertyKey) : bool :=
  match lookup_chain (length h) h FunctionPrototype k with
  | Found _ (DataProperty _ w _ _) => w
  | Absent => true
  | _ => false
  end.

(** An own property of a function that [transferProps] passes over, or
    copies without running a getter or a setter. *)
Definition plain_static (h : list JsObject) (kp : PropertyKey * Property) : bool :=
  buildInProps (fst kp) || (is_data_property (snd kp) && inherits_no_setter h (fst kp)).

(** The value is not a reference out of the store. *)
Definition valid_value (h : list JsObject) (v : JsValue) : bool :=
  match v with
  | VObject l => has_field (h !! l)
  | _ => true
  end.

(** The function object [fo] at [fn] can be bound without running code of
    the page: its statics are plain, nothing is in the way of [$native], and
    [fn.prototype] reads as [fnPrototype] without a getter. *)
Record Bindable (h : list JsObject) (fn : loc) (fo : JsObject)
  (fnPrototype : JsValue) : Prop := mkBindable {
  bindable_fn : h !! fn = Some fo;
  bindable_statics : forallb (plain_static h) (obj_props fo) = true;
  bindable_native : inherits_assignable h (KString "$native") = true;
  bindable_prototype : data_lookup h fn (KString "prototype") = Some fnPrototype;
  bindable_valid : valid_value h fnPrototype = true
}.

(** Every property of the list is a data property. *)
Definition data_only (ps : list (PropertyKey * Property)) : Prop :=
  forall k p, own_property ps k = Some p -> is_data_property p = true.

(** The properties [ps'] of the target after [transferProps] has run over
    the keys [keys] of the source [fo], from the properties [ps]: names
    outside [keys] and protected names are as they were; every other key of
    [fo] that holds a value is now a data property of the target with that
    value, unless the target had a non-configurable property under it, which
    is as it was. *)
Definition transferred (fo : JsObject) (ps ps' : list (PropertyKey * Property))
  (keys : list PropertyKey) : Prop :=
  data_only ps'
  /\ (forall k, ~ In k keys \/ buildInProps k = true ->
       own_property ps' k = own_property ps k)
  /\ (forall k v w e c,
       In k keys -> buildInProps k = false ->
       own_property (obj_props fo) k = Some (DataProperty v w e c) ->
       (exists w' e' c', own_property ps' k = Some (DataProperty v w' e' c'))
       \/ (exists p0, own_property ps k = Some p0
                      /\ prop_configurable p0 = false
                      /\ own_property ps' k = Some p0)).

(** *** The store [bind] leaves behind

    [bind] adds six objects to a store of [n] objects: the wrapper [bound]
    at [n] and the prototype object it is created with at [n + 1], [fNOP]
    at [n + 2] and its prototype object at [n + 3], the instance of [fNOP]
    at [n + 4], and the [Symbol.hasInstance] method at [n + 5]. *)

(** The properties of the wrapper when [transferProps] starts. *)
Definition bound_props (n : loc) (fn : JsValue) : list (PropertyKey * Property) :=
  function_props "bound" 0
  ++ [ (KString "prototype", DataProperty (VObject (n + 1)) true false false);
       (KString "$native", DataProperty fn true true true) ].

(** The properties of the wrapper in the end, from those [transferProps]
    left. *)
Definition wrapper_props (n : loc) (ps : list (PropertyKey * Property))
  : list (PropertyKey * Property) :=
  put_property
    (put_property ps (KString "prototype")
       (DataProperty (VObject (n + 4)) true false false))
    (KSymbol SymHasInstance) (DataProperty (VObject (n + 5)) false false true).

(** [fNOP.prototype] when [new fNOP()] runs: [fn.prototype] if that is
    truthy, else the object [fNOP] was created with. *)
Definition fNOP_prototype (n : loc) (fnPrototype : JsValue) : JsValue :=
  if ToBoolean fnPrototype then fnPrototype else VObject (n + 3).

(** The [[Prototype]] of [new fNOP()]. *)
Definition instance_proto (p : JsValue) : JsValue :=
  match p with
  | VObject _ => p
  | _ => VObject ObjectPrototype
  end.

Definition bound_objects (n : loc) (fn context fnPrototype : JsValue)
  (ps : list (PropertyKey * Property)) : list JsObject :=
  [ mkObject (VObject FunctionPrototype) true (wrapper_props n ps)
      (Some (CodeBound fn context)) true;
    mkObject (VObject ObjectPrototype) true
      [ (KString "constructor", DataProperty (VObject n) true false true) ]
      None false;
    mkObject (VObject FunctionPrototype) true
      (function_props "fNOP" 0
       ++ [ (KString "prototype",
             DataProperty (fNOP_prototype n fnPrototype) true false false) ])
      (Some CodeFNOP) true;
    mkObject (VObject ObjectPrototype) true
      [ (KString "constructor", DataProperty (VObject (n + 2)) true false true) ]
      None false;
    mkObject (instance_proto (fNOP_prototype n fnPrototype)) true [] None false;
    mkObject (VObject FunctionPrototype) true (function_props "value" 1)
      (Some (CodeHasInstance fn)) false ].

Definition bound_heap (h : list JsObject) (fn context fnPrototype : JsValue)
  (ps : list (PropertyKey * Property)) : list JsObject :=
  h ++ bound_objects (length h) fn context fnPrototype ps.

(** *** The two branches of the wrapper *)

(** The construction branch of [bound]: construct [fn] from the arguments,
    re-parent the instance to the prototype object of the wrapper, return
    it. *)
Definition construct_and_reparent (invoke : JsValue -> Mode -> list JsValue -> M JsValue)
  (bound : loc) (fn : JsValue) (args : list JsValue) : M JsValue :=
  obj <- Construct invoke fn args fn ;;
  prototype <- GetV invoke (VObject bound) (KString "prototype") ;;
  Object_setPrototypeOf obj prototype ;;;
  ret obj.


(** The read [fn[k]] finds, without running a getter, the function object
    that runs the intrinsic [code]. *)
Definition resolves_to (h : list JsObject) (fn : loc) (k : PropertyKey) (code : Code)
  : bool :=
  match data_lookup h fn k with
  | Some (VObject l) =>
      match h !! l with
      | Some o => bool_decide (obj_call o = Some code)
      | None => false
      end
  | _ => false
  end.

(** An everyday function: its instance check and its [apply] are the ones
    every function inherits from [Function.prototype]. *)
Record Everyday (h : list JsObject) (fn : loc) (fo : JsObject) : Prop := mkEveryday {
  everyday_callable : has_field (obj_call fo) = true;
  everyday_hasInstance :
    resolves_to h fn (KSymbol SymHasInstance) CodeFunctionPrototypeHasInstance = true;
  everyday_apply :
    resolves_to h fn (KString "apply") CodeFunctionPrototypeApply = true
}.

(** "The setup of the prototype property was skipped": the wrapper at
    [bound] still has the prototype object it was created with, the one
    next to it in the store. *)
Definition prototype_setup_skipped (st : State) (bound : loc) : Prop :=
  exists bo,
    heap st !! bound = Some bo
    /\ own_property (obj_props bo) (KString "prototype")
       = Some (DataProperty (VObject (bound + 1)) true false false).

(** Is the object [fp] on the prototype chain of the value [x]? [None]
    when the chain leaves the store. *)
Definition inherits_from (h : list JsObject) (x : JsValue) (fp : loc) : option bool :=
  match x with
  | VObject lx => proto_chain_has (length h) h lx fp
  | _ => Some false
  end.

(** Is the value an object, callable or not? *)
Definition is_object (v : JsValue) : bool :=
  match v with
  | VObject _ => true
  | _ => false
  end.

(* ===================================================================== *)
(** ** shared.ts: [safeToString] and [isConstructor] *)
(* ===================================================================== *)

(** The string keys of a key list, in its order. *)
Definition string_keys (ks : list PropertyKey) : list string :=
  omap (fun k => match k with KString s => Some s | KSymbol _ => None end) ks.

(** The decimal name of an index. *)
Definition index_name (i : nat) : string := NilZero.string_of_uint (Nat.to_uint i).

(** [Object.getOwnPropertyNames(O)]: the own string keys of ToObject(O),
    enumerable or not. *)
Definition Object_getOwnPropertyNames (O : JsValue) : M (list string) :=
  match O with
  | VUndefined | VNull => throw TypeError
  | VObject l => o <- deref l ;; ret (string_keys (OrdinaryOwnPropertyKeys o))
  | VString s => ret (map index_name (seq 0 (String.length s)) ++ ["length"])
  | VBool _ | VNumber _ | VBigInt _ | VSymbol _ => ret []
  end.

(** The well-known [Symbol.toPrimitive]: the first of the other symbols. *)
Definition SymToPrimitive : Symbol := SymOther 0.

(** ToString of a primitive value. The decimal form of a finite number
    other than zero is outside the model; an object is no primitive. *)
Definition ToString_primitive (v : JsValue) : M string :=
  match v with
  | VUndefined => ret "undefined"
  | VNull => ret "null"
  | VBool true => ret "true"
  | VBool false => ret "false"
  | VNumber S754_nan => ret "NaN"
  | VNumber (S754_zero _) => ret "0"
  | VNumber (S754_infinity false) => ret "Infinity"
  | VNumber (S754_infinity true) => ret "-Infinity"
  | VNumber (S754_finite _ _ _) => stuck
  | VBigInt z => ret (NilZero.string_of_int (Z.to_int z))
  | VString s => ret s
  | VSymbol _ => throw TypeError
  | VObject _ => stuck
  end.

(** The character classes of the two patterns, on code units below 256:
    [\s] (white space and line terminators), [[A-Z]], and the word
    characters that [\b] looks at. *)
Definition is_white_space (c : ascii) : bool :=
  let n := N_of_ascii c in
  ((9 <=? n) && (n <=? 13) || (n =? 32) || (n =? 160))%N.

Definition is_upper_letter (c : ascii) : bool :=
  let n := N_of_ascii c in ((65 <=? n) && (n <=? 90))%N.

Definition is_word_char (c : ascii) : bool :=
  let n := N_of_ascii c in
  ((97 <=? n) && (n <=? 122) || (65 <=? n) && (n <=? 90)
   || (48 <=? n) && (n <=? 57) || (n =? 95))%N.

(** What is left of [s] after the prefix [p], if [s] starts with it. *)
Fixpoint after_prefix (p s : string) : option string :=
  match p with
  | EmptyString => Some s
  | String a p' =>
      match s with
      | String b s' => if bool_decide (a = b) then after_prefix p' s' else None
      | EmptyString => None
      end
  end.

Fixpoint skip_white_space (s : string) : string :=
  match s with
  | String c s' => if is_white_space c then skip_white_space s' else s
  | EmptyString => s
  end.

(** The match of [/^function\s+[A-Z]/] on [s]: the pattern is anchored at
    the start, and the white space it takes can only end where the next
    character is none. *)
Definition matches_function_pattern (s : string) : bool :=
  match after_prefix "function" s with
  | Some (String c rest) =>
      is_white_space c
      && match skip_white_space rest with
         | String d _ => is_upper_letter d
         | EmptyString => false
         end
  | _ => false
  end.

(** The match of [/^class\b/] on [s]: after [class] comes the end of the
    string or a character that is no word character. *)
Definition matches_class_pattern (s : string) : bool :=
  match after_prefix "class" s with
  | Some EmptyString => true
  | Some (String c _) => negb (is_word_char c)
  | None => false
  end.

Section ConstructorTest.

Variable invoke : JsValue -> Mode -> list JsValue -> M JsValue.

(** One turn of OrdinaryToPrimitive: the method [name] of [O], if it is
    callable and returns a primitive. *)
Definition primitive_from (O : JsValue) (name : string) : M (option JsValue) :=
  method <- GetV invoke O (KString name) ;;
  callable <- IsCallable method ;;
  if callable then
    result <- Call invoke method O [] ;;
    ret (if is_object result then None else Some result)
  else ret None.

(** OrdinaryToPrimitive(O, string): [toString], then [valueOf]. *)
Definition OrdinaryToPrimitive (O : JsValue) : M JsValue :=
  first <- primitive_from O "toString" ;;
  match first with
  | Some result => ret result
  | None =>
      second <- primitive_from O "valueOf" ;;
      match second with
      | Some result => ret result
      | None => throw TypeError
      end
  end.

(** ToPrimitive(input, string) *)
Definition ToPrimitive (input : JsValue) : M JsValue :=
  match input with
  | VObject _ =>
      exoticToPrim <- GetMethod invoke input (KSymbol SymToPrimitive) ;;
      if negb (is_undefined exoticToPrim) then
        result <- Call invoke exoticToPrim input [VString "string"] ;;
        if negb (is_object result) then ret result else throw TypeError
      else OrdinaryToPrimitive input
  | _ => ret input
  end.

(** ToString(argument) *)
Definition ToString (argument : JsValue) : M string :=
  primValue <- ToPrimitive argument ;;
  ToString_primitive primValue.

(** [pattern.test(S)] for a pattern without flags, written as a literal
    where it is used: the literal makes a new RegExp object every time, so
    [lastIndex] is 0 and nothing of it is left behind; [RegExp.prototype]
    is taken to be as the realm made it. *)
Definition RegExp_test (pattern : string -> bool) (S : JsValue) : M bool :=
  string <- ToString S ;;
  ret (pattern string).

(** [function safeToString(thing)] *)
Definition safeToString (thing : JsValue) : M JsValue :=
  try_catch
    (toString <- GetV invoke thing (KString "toString") ;;
     Call invoke toString thing [])
    (fun e => ret (VString "[toString failed]")).

(** [export function isConstructor(fn)] *)
Definition isConstructor (fn : JsValue) : M JsValue :=
  fp <- GetV invoke fn (KString "prototype") ;;
  hasConstructor <-
    (if ToBoolean fp then
       constructor <- GetV invoke fp (KString "constructor") ;;
       if IsStrictlyEqual constructor fn then
         names <- Object_getOwnPropertyNames fp ;;
         ret (VBool (Nat.ltb 1 (List.length names)))
       else ret (VBool false)
     else ret fp) ;;
  functionStr <-
    (if negb (ToBoolean hasConstructor) then safeToString fn
     else ret (VBool false)) ;;
  if ToBoolean hasConstructor then ret hasConstructor
  else
    isFunction <- RegExp_test matches_function_pattern functionStr ;;
    if isFunction then ret (VBool true)
    else
      isClass <- RegExp_test matches_class_pattern functionStr ;;
      ret (VBool isClass).

End ConstructorTest.

(* ===================================================================== *)
(** ** A realm where functions have a source text *)
(* ===================================================================== *)

(** [Function.prototype] with [toString], a function of the host at place
    6 of the store. *)
Definition text_realm_heap : list JsObject :=
  <[FunctionPrototype :=
      mkObject (VObject ObjectPrototype) true
        [ (KString "length", DataProperty (VNumber (number_of_nat 0)) false false true);
          (KString "name", DataProperty (VString "") false false true);
          (KString "apply", DataProperty (VObject 2) true false true);
          (KSymbol SymHasInstance, DataProperty (VObject 3) false false false);
          (KString "toString", DataProperty (VObject 6) true false true) ]
        (Some CodeFunctionPrototype) false]> realm_heap
  ++ [ builtin (CodeHost 0) "toString" 0 ].

(** A function object as a declaration makes it, with its prototype object
    next to it in the store. *)
Definition declared_function (name : string) (place : loc) (id : nat) : JsObject :=
  mkObject (VObject FunctionPrototype) true
    (function_props name 0
     ++ [ (KString "prototype", DataProperty (VObject (place + 1)) true false false) ])
    (Some (CodeHost id)) true.

(** [function Gadget() {}] with [Gadget.prototype.kind = "gadget"] at places
    7 and 8, [function helper() {}] at 9 and 10, [class point {}] at 11
    and 12. *)
Definition text_heap : list JsObject :=
  text_realm_heap
  ++ [ declared_function "Gadget" 7 1;
       mkObject (VObject ObjectPrototype) true
         [ (KString "constructor", DataProperty (VObject 7) true false true);
           (KString "kind", DataProperty (VString "gadget") true true true) ]
         None false;
       declared_function "helper" 9 2;
       mkObject (VObject ObjectPrototype) true
         [ (KString "constructor", DataProperty (VObject 9) true false true) ]
         None false;
       declared_function "point" 11 3;
       mkObject (VObject ObjectPrototype) true
         [ (KString "constructor", DataProperty (VObject 11) true false true) ]
         None false ].

Definition text_state : State := mkState text_heap [].

(** The source texts of the functions of the scene; the wrapper that
    [bind(Gadget, undefined)] makes comes to place 13. *)
Definition source_texts : list (loc * string) :=
  [ (7, "function Gadget() { }");
    (9, "function helper() { }");
    (11, "class point { }");
    (13, "function bound() { }") ].

Fixpoint source_text (texts : list (loc * string)) (l : loc) : option string :=
  match texts with
  | [] => None
  | (l', s) :: texts' => if Nat.eqb l' l then Some s else source_text texts' l
  end.

(** A host whose function 0 is [Function.prototype.toString]: it gives the
    source text of the function it is called on, and throws a TypeError on
    anything else. Its other functions are those of [quiet_host]. *)
Definition text_host : Env :=
  mkEnv false
    (fun id _ this _ h =>
       if Nat.eqb id 0 then
         match this with
         | VObject l =>
             match source_text source_texts l with
             | Some s => (h, Normal (VString s))
             | None => (h, Throw TypeError)
             end
         | _ => (h, Throw TypeError)
         end
       else (h, Normal VUndefined))
    (host_construct (quiet_host false)).


(** [function Clock() {}] with the accessor static [Clock.stamp] at place 6,
    its prototype object at place 7, and the getter of [stamp], the function
    1 of the host, at place 8. *)
Definition Clock : JsObject :=
  mkObject (VObject FunctionPrototype) true
    (function_props "Clock" 0
     ++ [ (KString "prototype", DataProperty (VObject 7) true false false);
          (KString "stamp", AccessorProperty (VObject 8) VUndefined true true) ])
    (Some (CodeHost 0)) true.

Definition clock_state : State :=
  mkState (realm_heap ++ [Clock; Widget_prototype; builtin (CodeHost 1) "get stamp" 0]) [].

(** A host whose function 1 returns 42 and touches nothing. *)
Definition clock_host : Env :=
  mkEnv false
    (fun id _ _ _ h =>
       (h, Normal (if Nat.eqb id 1 then VNumber (number_of_nat 42) else VUndefined)))
    (host_construct (quiet_host false)).

(* ===================================================================== *)
(** ** What the target of a copy holds under the name *)
(* ===================================================================== *)

(** The property answers the assignment [o[k] = v] with a TypeError and runs
    no code: a read-only data property, or an accessor without a setter. *)
Definition refuses_assignment (p : Property) : bool :=
  match p with
  | DataProperty _ w _ _ => negb w
  | AccessorProperty _ s _ _ => is_undefined s
  end.

(** What the chain of an object holds under a name lets the assignment
    write an own property: nothing, or a writable data property. *)
Definition admits_assignment (lk : Lookup) : bool :=
  match lk with
  | Absent => true
  | Found _ (DataProperty _ w _ _) => w
  | _ => false
  end.

(** What the chain holds under a name has no setter for the assignment to
    run: nothing, a data property, or an accessor without a setter. *)
Definition holds_no_setter (lk : Lookup) : bool :=
  match lk with
  | Absent => true
  | Found _ (DataProperty _ _ _ _) => true
  | Found _ (AccessorProperty _ s _ _) => is_undefined s
  | Broken => false
  end.

(** The [writable] that [transferProps] hands to [Object.defineProperty]:
    [sourceDesc.writable], which is [undefined] for an accessor. *)
Definition source_writable (p : Property) : bool :=
  ToBoolean (bool_field (desc_writable (FromPropertyDescriptor p))).

(* ===================================================================== *)
(** * Theorems *)
(* ===================================================================== *)

(** ** The descriptor checks *)

Lemma Object_is_NaN : Object_is NaN NaN = true.
Proof. reflexivity. Qed.

Lemma Object_is_zeros : Object_is pos_zero neg_zero = false.
Proof. reflexivity. Qed.

(** The zeros that [Object.is] tells apart are equal for [===]. *)
Lemma IsStrictlyEqual_zeros : IsStrictlyEqual pos_zero neg_zero = true.
Proof. reflexivity. Qed.

Lemma IsStrictlyEqual_NaN : IsStrictlyEqual NaN NaN = false.
Proof. reflexivity. Qed.

(** On an object the set check returns the number of the verdict, whatever
    the build flag. *)
Lemma verifySetterDescriptor_object DEV st l o p newValue :
  heap st !! l = Some o ->
  snd (verifySetterDescriptor DEV (VObject l) p newValue st)
  = Normal (verdict_code (classifyForSet (own_property (obj_props o) p) newValue)).
Proof.
  intros Hl.
  unfold verifySetterDescriptor, Object_getOwnPropertyDescriptor, GetOwnProperty,
    deref, bind_M, ret, warn, emit.
  rewrite Hl; simpl.
  unfold classifyForSet.
  destruct (own_property (obj_props o) p) as [[v w e c | g s e c] | ]; simpl;
    [ destruct c, w; simpl; try reflexivity;
      destruct (Object_is newValue v); simpl; try reflexivity;
      destruct DEV; reflexivity
    | destruct c; simpl; try reflexivity; destruct s; reflexivity
    | reflexivity ].
Qed.

Lemma verifyGetterDescriptor_object DEV st l o p value :
  heap st !! l = Some o ->
  snd (verifyGetterDescriptor DEV (VObject l) p value st)
  = Normal (verdict_code (classifyForGet (own_property (obj_props o) p) value)).
Proof.
  intros Hl.
  unfold verifyGetterDescriptor, Object_getOwnPropertyDescriptor, GetOwnProperty,
    deref, bind_M, ret, warn, emit.
  rewrite Hl; simpl.
  unfold classifyForGet.
  destruct (own_property (obj_props o) p) as [[v w e c | g s e c] | ]; simpl;
    [ destruct c, w; simpl; try reflexivity;
      destruct (Object_is value v); simpl; try reflexivity;
      destruct DEV; reflexivity
    | destruct c; simpl; try reflexivity; destruct g; reflexivity
    | reflexivity ].
Qed.

(** The checks only read the store. *)
Lemma verifySetterDescriptor_heap DEV target p newValue st :
  heap (fst (verifySetterDescriptor DEV target p newValue st)) = heap st.
Proof.
  unfold verifySetterDescriptor, Object_getOwnPropertyDescriptor, GetOwnProperty,
    deref, bind_M, ret, throw, warn, emit.
  destruct target as [ | | b | n | z | s | s | l]; simpl; try reflexivity.
  - destruct (string_own_property s p) as [[v w e c | g s' e c] | ]; simpl;
      try reflexivity.
    + destruct c, w; simpl; try reflexivity.
      destruct (Object_is newValue v); simpl; try reflexivity.
      destruct DEV; reflexivity.
    + destruct c; simpl; try reflexivity. destruct s'; reflexivity.
  - destruct (heap st !! l) as [o | ]; simpl; try reflexivity.
    destruct (own_property (obj_props o) p) as [[v w e c | g s' e c] | ]; simpl;
      try reflexivity.
    + destruct c, w; simpl; try reflexivity.
      destruct (Object_is newValue v); simpl; try reflexivity.
      destruct DEV; reflexivity.
    + destruct c; simpl; try reflexivity. destruct s'; reflexivity.
Qed.

(** C1. For every target object and property key, [verifySetterDescriptor]
    (the specification's classifyForSet) returns: 0 (Allowed) when the target
    has no own descriptor for the key, when the descriptor is configurable,
    and when it is a data descriptor that is writable; for a non-configurable
    read-only data descriptor 3 (AllowedNoopWrite) when [Object.is] finds the
    new value the same as the stored one, NaN over NaN included, and 1
    (RejectedValueMismatch) otherwise, +0 over -0 included; 2
    (RejectedAccessorMissing) for a non-configurable accessor without setter,
    whatever the value. *)
Theorem verifySetterDescriptor_cases
  (DEV : bool) (st : State) (l : loc) (o : JsObject) (p : PropertyKey)
  (newValue : JsValue) :
  heap st !! l = Some o ->
  snd (verifySetterDescriptor DEV (VObject l) p newValue st)
  = Normal (verdict_code (classifyForSet (own_property (obj_props o) p) newValue))
  /\ (own_property (obj_props o) p = None ->
      snd (verifySetterDescriptor DEV (VObject l) p newValue st) = Normal 0%Z)
  /\ (forall pr, own_property (obj_props o) p = Some pr ->
      prop_configurable pr = true ->
      snd (verifySetterDescriptor DEV (VObject l) p newValue st) = Normal 0%Z)
  /\ (forall v e c, own_property (obj_props o) p = Some (DataProperty v true e c) ->
      snd (verifySetterDescriptor DEV (VObject l) p newValue st) = Normal 0%Z)
  /\ (forall stored e,
      own_property (obj_props o) p = Some (DataProperty stored false e false) ->
      snd (verifySetterDescriptor DEV (VObject l) p newValue st)
      = Normal (if Object_is newValue stored then 3%Z else 1%Z))
  /\ (forall e,
      own_property (obj_props o) p = Some (DataProperty NaN false e false) ->
      snd (verifySetterDescriptor DEV (VObject l) p NaN st) = Normal 3%Z)
  /\ (forall e,
      own_property (obj_props o) p = Some (DataProperty neg_zero false e false) ->
      snd (verifySetterDescriptor DEV (VObject l) p pos_zero st) = Normal 1%Z)
  /\ (forall g e,
      own_property (obj_props o) p = Some (AccessorProperty g VUndefined e false) ->
      snd (verifySetterDescriptor DEV (VObject l) p newValue st) = Normal 2%Z).
Proof.
  intros Hl.
  repeat split.
  - apply verifySetterDescriptor_object; exact Hl.
  - intros Hp. rewrite (verifySetterDescriptor_object _ _ _ _ _ _ Hl), Hp. reflexivity.
  - intros pr Hp Hc. rewrite (verifySetterDescriptor_object _ _ _ _ _ _ Hl), Hp.
    destruct pr as [v w e c | g s e c]; simpl in Hc; subst; reflexivity.
  - intros v e c Hp. rewrite (verifySetterDescriptor_object _ _ _ _ _ _ Hl), Hp.
    destruct c; reflexivity.
  - intros stored e Hp. rewrite (verifySetterDescriptor_object _ _ _ _ _ _ Hl), Hp.
    simpl. destruct (Object_is newValue stored); reflexivity.
  - intros e Hp. rewrite (verifySetterDescriptor_object _ _ _ _ _ _ Hl), Hp.
    reflexivity.
  - intros e Hp. rewrite (verifySetterDescriptor_object _ _ _ _ _ _ Hl), Hp.
    reflexivity.
  - intros g e Hp. rewrite (verifySetterDescriptor_object _ _ _ _ _ _ Hl), Hp.
    reflexivity.
Qed.

(** The claim at [fixed_object]: NaN over NaN is a no-op write. *)
Lemma verifySetterDescriptor_cases_witness :
  fixed_state.(heap) !! 6 = Some fixed_object
  /\ snd (verifySetterDescriptor true (VObject 6) (KString "nan") NaN fixed_state)
     = Normal 3%Z.
Proof.
  split; [reflexivity | ].
  exact (proj1 (verifySetterDescriptor_cases true fixed_state 6 fixed_object
                  (KString "nan") NaN eq_refl)).
Defined.

(** C3. For every target object and property key, [verifyGetterDescriptor]
    (the specification's classifyForGet) returns 0 (Allowed) when the target
    has no own descriptor for the key or the descriptor is configurable; for
    a non-configurable read-only data descriptor it returns 1
    (RejectedValueMismatch) exactly when [Object.is] tells the value the
    virtual get would return from the stored one; for a non-configurable
    accessor without getter it returns 2 (RejectedAccessorMissing); in every
    other case it returns 0. *)
Theorem verifyGetterDescriptor_cases
  (DEV : bool) (st : State) (l : loc) (o : JsObject) (p : PropertyKey)
  (value : JsValue) :
  heap st !! l = Some o ->
  snd (verifyGetterDescriptor DEV (VObject l) p value st)
  = Normal (verdict_code (classifyForGet (own_property (obj_props o) p) value))
  /\ (own_property (obj_props o) p = None ->
      snd (verifyGetterDescriptor DEV (VObject l) p value st) = Normal 0%Z)
  /\ (forall pr, own_property (obj_props o) p = Some pr ->
      prop_configurable pr = true ->
      snd (verifyGetterDescriptor DEV (VObject l) p value st) = Normal 0%Z)
  /\ (forall stored e,
      own_property (obj_props o) p = Some (DataProperty stored false e false) ->
      (snd (verifyGetterDescriptor DEV (VObject l) p value st) = Normal 1%Z
       <-> Object_is value stored = false)
      /\ (Object_is value stored = true ->
          snd (verifyGetterDescriptor DEV (VObject l) p value st) = Normal 0%Z))
  /\ (forall s e,
      own_property (obj_props o) p = Some (AccessorProperty VUndefined s e false) ->
      snd (verifyGetterDescriptor DEV (VObject l) p value st) = Normal 2%Z)
  /\ (forall v e,
      own_property (obj_props o) p = Some (DataProperty v true e false) ->
      snd (verifyGetterDescriptor DEV (VObject l) p value st) = Normal 0%Z)
  /\ (forall g s e,
      own_property (obj_props o) p = Some (AccessorProperty g s e false) ->
      g <> VUndefined ->
      snd (verifyGetterDescriptor DEV (VObject l) p value st) = Normal 0%Z).
Proof.
  intros Hl.
  repeat split.
  - apply verifyGetterDescriptor_object; exact Hl.
  - intros Hp. rewrite (verifyGetterDescriptor_object _ _ _ _ _ _ Hl), Hp. reflexivity.
  - intros pr Hp Hc. rewrite (verifyGetterDescriptor_object _ _ _ _ _ _ Hl), Hp.
    destruct pr as [v w e c | g s e c]; simpl in Hc; subst; reflexivity.
  - rewrite (verifyGetterDescriptor_object _ _ _ _ _ _ Hl), H. simpl.
    destruct (Object_is value stored); [discriminate | reflexivity].
  - rewrite (verifyGetterDescriptor_object _ _ _ _ _ _ Hl), H. simpl.
    intros ->. reflexivity.
  - rewrite (verifyGetterDescriptor_object _ _ _ _ _ _ Hl), H. simpl.
    intros ->. reflexivity.
  - intros s e Hp. rewrite (verifyGetterDescriptor_object _ _ _ _ _ _ Hl), Hp.
    reflexivity.
  - intros v e Hp. rewrite (verifyGetterDescriptor_object _ _ _ _ _ _ Hl), Hp.
    reflexivity.
  - intros g s e Hp Hg. rewrite (verifyGetterDescriptor_object _ _ _ _ _ _ Hl), Hp.
    destruct g; try reflexivity. contradiction.
Qed.

(** The claim at [fixed_object]: reading +0 where -0 is stored is a
    mismatch. *)
Lemma verifyGetterDescriptor_cases_witness :
  fixed_state.(heap) !! 6 = Some fixed_object
  /\ snd (verifyGetterDescriptor false (VObject 6) (KString "negzero") pos_zero
            fixed_state)
     = Normal 1%Z.
Proof.
  split; [reflexivity | ].
  exact (proj1 (verifyGetterDescriptor_cases false fixed_state 6 fixed_object
                  (KString "negzero") pos_zero eq_refl)).
Defined.

(** C2. [verifySetter] takes as authority the alternate target of the proxy
    if there is one, else the receiver if it is truthy, else the target, runs
    the set check on it and translates the verdict: 1 and 2 become [false],
    3 becomes [true], 0 leaves the result [undefined]. *)
Theorem verifySetter_translates
  (DEV : bool) (proxyTarget target : JsValue) (p : PropertyKey)
  (val receiver : JsValue) (st : State) :
  verifySetter DEV proxyTarget target p val receiver st
  = map_outcome translate_code
      (verifySetterDescriptor DEV (authority proxyTarget receiver target) p val st)
  /\ (forall v, translate_code (verdict_code v) = translate v)
  /\ (forall l o,
      authority proxyTarget receiver target = VObject l ->
      heap st !! l = Some o ->
      snd (verifySetter DEV proxyTarget target p val receiver st)
      = Normal (translate (classifyForSet (own_property (obj_props o) p) val))).
Proof.
  assert (Heq : verifySetter DEV proxyTarget target p val receiver st
    = map_outcome translate_code
        (verifySetterDescriptor DEV (authority proxyTarget receiver target) p val st)).
  { unfold verifySetter, authority, bind_M, map_outcome, ret.
    destruct (verifySetterDescriptor DEV _ p val st) as [st' [n | e | | ]];
      try reflexivity.
    unfold translate_code.
    destruct (n =? 1)%Z eqn:H1; destruct (n =? 2)%Z eqn:H2;
      destruct (n =? 3)%Z eqn:H3; destruct (n >? 0)%Z eqn:H0; simpl;
      try reflexivity; exfalso; lia. }
  split; [exact Heq | split].
  - intros []; reflexivity.
  - intros l o Ha Hl. rewrite Heq, Ha.
    pose proof (verifySetterDescriptor_object DEV st l o p val Hl) as Hd.
    destruct (verifySetterDescriptor DEV (VObject l) p val st) as [st' r].
    simpl in Hd. subst r. simpl.
    destruct (classifyForSet (own_property (obj_props o) p) val); reflexivity.
Qed.

(** The claim at [fixed_object], which stands as the receiver: writing +0
    over the stored -0 is denied. *)
Lemma verifySetter_translates_witness :
  snd (verifySetter true VUndefined VNull (KString "negzero") pos_zero (VObject 6)
         fixed_state)
  = Normal (VBool false).
Proof.
  exact (proj2 (proj2 (verifySetter_translates true VUndefined VNull
                         (KString "negzero") pos_zero (VObject 6) fixed_state))
           6 fixed_object eq_refl eq_refl).
Defined.

(** ** The observer module *)

Module ObserverFacts.
Import Observer.

Lemma members_app (a b : list (option nat)) : members (a ++ b) = members a ++ members b.
Proof. unfold members. apply omap_app. Qed.

Lemma members_Some (l : list nat) : members (map Some l) = l.
Proof. induction l as [ | x l IH]; simpl; [reflexivity | ]. f_equal. exact IH. Qed.

Lemma members_SetClear (data : list (option nat)) : members (SetClear data) = [].
Proof. induction data as [ | e data IH]; simpl; [reflexivity | exact IH]. Qed.

Lemma elem_of_members (v : nat) (data : list (option nat)) :
  v ∈ members data <-> Some v ∈ data.
Proof.
  unfold members. rewrite list_elem_of_omap. split.
  - intros [x [Hx Hv]]. destruct x; simpl in Hv; [ | discriminate].
    injection Hv as ->. exact Hx.
  - intros H. exists (Some v). split; [exact H | reflexivity].
Qed.

Lemma SetDelete_length (data : list (option nat)) (v : nat) :
  length (SetDelete data v) = length data.
Proof. unfold SetDelete. apply length_map. Qed.

Lemma SetDelete_absent (data : list (option nat)) (v : nat) :
  Some v ∉ data -> SetDelete data v = data.
Proof.
  induction data as [ | e data IH]; intros Hn; simpl; [reflexivity | ].
  rewrite not_elem_of_cons in Hn. destruct Hn as [Hne Hn].
  rewrite bool_decide_eq_false_2 by congruence.
  f_equal. apply IH. exact Hn.
Qed.

Lemma SetDelete_app (a b : list (option nat)) (v : nat) :
  SetDelete (a ++ b) v = SetDelete a v ++ SetDelete b v.
Proof. unfold SetDelete. apply map_app. Qed.

Lemma SetDelete_not_elem (data : list (option nat)) (v o : nat) :
  Some o ∉ data -> Some o ∉ SetDelete data v.
Proof.
  induction data as [ | e data IH]; simpl; intros Hn; [exact Hn | ].
  rewrite not_elem_of_cons in Hn. destruct Hn as [Hne Hn].
  rewrite not_elem_of_cons. split; [ | apply IH; exact Hn].
  destruct (bool_decide (e = Some v)); congruence.
Qed.

(** The callback of [recover] never makes the set longer. *)
Lemma recover_callback_length (v : nat) (st : ModuleState) :
  length (observerSet (recover_callback v st)) = length (observerSet st).
Proof.
  unfold recover_callback.
  destruct (observers st !! v) as [[ | | id] | ]; simpl; try reflexivity.
  destruct (SetHas (observerSet st) v); [apply SetDelete_length | reflexivity].
Qed.

(** [forEach] comes to the end of the set within a budget of its length. *)
Lemma SetForEach_total (fuel index : nat) (st : ModuleState) :
  length (observerSet st) <= fuel + index ->
  is_Some (SetForEach fuel recover_callback index st).
Proof.
  revert index st. induction fuel as [ | fuel IH]; intros index st Hlen; simpl.
  - rewrite lookup_ge_None_2 by lia. eexists; reflexivity.
  - destruct (observerSet st !! index) as [e | ]; [ | eexists; reflexivity].
    apply IH. destruct e as [v | ]; [rewrite recover_callback_length | ]; lia.
Qed.

(** An observer that is not in the set is not disconnected by the walk. *)
Lemma SetForEach_untracked (o : nat) (fuel index : nat) (st st' : ModuleState) :
  SetForEach fuel recover_callback index st = Some st' ->
  Some o ∉ observerSet st ->
  native_disconnects o (log st') = native_disconnects o (log st).
Proof.
  revert index st. induction fuel as [ | fuel IH]; intros index st Hrun Hn; simpl in Hrun.
  - destruct (observerSet st !! index); [discriminate | ]. congruence.
  - destruct (observerSet st !! index) as [e | ] eqn:He; [ | congruence].
    destruct e as [v | ].
    + assert (Hvo : v <> o).
      { intros ->. apply Hn. eapply list_elem_of_lookup_2. exact He. }
      apply IH in Hrun.
      * rewrite Hrun. unfold recover_callback.
        destruct (observers st !! v) as [[ | | id] | ]; simpl; try reflexivity.
        -- unfold native_disconnects.
           rewrite filter_app, length_app, filter_cons_False by congruence.
           simpl. lia.
        -- unfold native_disconnects.
           rewrite filter_app, length_app, filter_cons_False by congruence.
           simpl. lia.
      * unfold recover_callback.
        destruct (observers st !! v) as [[ | | id] | ]; simpl; try exact Hn.
        destruct (SetHas (observerSet st) v); [ | exact Hn].
        apply SetDelete_not_elem. exact Hn.
    + eapply IH; eauto.
Qed.

(** The walk over the part of the set that is still ahead: every observer
    there that has the method of the class is disconnected, in order. *)
Lemma SetForEach_disconnects (suf pre : list (option nat)) (st : ModuleState)
  (fuel : nat) :
  observerSet st = pre ++ suf ->
  length suf <= fuel ->
  NoDup (members suf) ->
  (forall v, v ∈ members suf -> observers st !! v = Some ClassMethod) ->
  exists st',
    SetForEach fuel recover_callback (length pre) st = Some st'
    /\ log st' = log st ++ map NativeDisconnect (members suf)
    /\ observers st' = observers st
    /\ options st' = options st.
Proof.
  revert pre st fuel.
  induction suf as [ | e suf IH]; intros pre st fuel Hset Hfuel Hnd Hcls.
  - exists st. rewrite app_nil_r in Hset.
    assert (Hnone : observerSet st !! length pre = None).
    { apply lookup_ge_None_2. rewrite Hset. lia. }
    destruct fuel; simpl; rewrite Hnone, ?app_nil_r; auto.
  - destruct fuel as [ | fuel]; [simpl in Hfuel; lia | ].
    simpl. rewrite Hset, list_lookup_middle by reflexivity.
    destruct e as [v | ].
    + assert (Hv : observers st !! v = Some ClassMethod).
      { apply Hcls. simpl. left. }
      simpl in Hnd. apply NoDup_cons in Hnd. destruct Hnd as [Hvn Hnd].
      unfold recover_callback at 2. rewrite Hv.
      assert (Hhas : SetHas (observerSet st) v = true).
      { unfold SetHas. apply bool_decide_eq_true_2. rewrite Hset.
        rewrite elem_of_app. right. left. }
      destruct (IH (SetDelete pre v ++ [None]) (disconnect v st) fuel)
        as [st' [Hrun [Hlog [Hobs Hopt]]]].
      * unfold disconnect; simpl. rewrite Hhas, Hset, SetDelete_app. simpl.
        rewrite bool_decide_eq_true_2 by reflexivity.
        rewrite (SetDelete_absent suf v).
        -- rewrite <- app_assoc. reflexivity.
        -- rewrite <- elem_of_members. exact Hvn.
      * simpl in Hfuel. lia.
      * exact Hnd.
      * intros w Hw. simpl. apply Hcls. simpl. right. exact Hw.
      * exists st'. rewrite length_app, SetDelete_length in Hrun. simpl in Hrun.
        replace (length pre + 1) with (S (length pre)) in Hrun by lia.
        split; [exact Hrun | ].
        split; [ | split; [exact Hobs | exact Hopt]].
        rewrite Hlog. simpl. rewrite <- app_assoc. reflexivity.
    + destruct (IH (pre ++ [None]) st fuel) as [st' [Hrun [Hlog [Hobs Hopt]]]].
      * rewrite Hset, <- app_assoc. reflexivity.
      * simpl in Hfuel. lia.
      * exact Hnd.
      * intros w Hw. apply Hcls. exact Hw.
      * exists st'. rewrite length_app in Hrun. simpl in Hrun.
        replace (length pre + 1) with (S (length pre)) in Hrun by lia.
        split; [exact Hrun | ]. split; [exact Hlog | split; [exact Hobs | exact Hopt]].
Qed.

(** After [n] constructions with collection enabled, the [n] observers
    are tracked in the order of their creation. *)
Lemma create_observers_state (n k : nat) (st : ModuleState) :
  default false (disableCollect (options st)) = false ->
  observers st = replicate k ClassMethod ->
  observerSet st = map Some (seq 0 k) ->
  observers (create_observers n st) = replicate (k + n) ClassMethod
  /\ observerSet (create_observers n st) = map Some (seq 0 (k + n))
  /\ log (create_observers n st) = log st
  /\ options (create_observers n st) = options st.
Proof.
  revert k st. induction n as [ | n IH]; intros k st Hopt Hobs Hset; simpl.
  - rewrite Nat.add_0_r. auto.
  - unfold ProxyMutationObserver. rewrite Hopt. simpl.
    assert (Hfresh : SetHas (observerSet st) (length (observers st)) = false).
    { unfold SetHas. apply bool_decide_eq_false_2.
      rewrite Hset, Hobs, length_replicate. intros Hin.
      apply list_elem_of_In, in_map_iff in Hin. destruct Hin as [x [Hx Hin]].
      injection Hx as ->. apply in_seq in Hin. lia. }
    unfold SetAdd. rewrite Hfresh.
    destruct (IH (S k)
                (mkModule (options st) (observers st ++ [ClassMethod])
                   (observerSet st ++ [Some (length (observers st))]) (log st)))
      as [H1 [H2 [H3 H4]]].
    + exact Hopt.
    + cbn [observers]. rewrite Hobs, replicate_S_end. reflexivity.
    + cbn [observerSet]. rewrite Hset, Hobs, length_replicate.
      rewrite seq_S, map_app. reflexivity.
    + cbn [log options] in H3, H4.
      replace (k + S n) with (S k + n) by lia. auto.
Qed.

Lemma native_disconnects_map (o : nat) (l : list nat) :
  native_disconnects o (map NativeDisconnect l) = length (filter (fun x => x = o) l).
Proof.
  unfold native_disconnects.
  induction l as [ | x l IH]; simpl; [reflexivity | ].
  destruct (decide (x = o)) as [-> | Hne].
  - rewrite !filter_cons_True by reflexivity. simpl. f_equal. exact IH.
  - rewrite !filter_cons_False by congruence. exact IH.
Qed.

Lemma count_once (o : nat) (l : list nat) :
  NoDup l -> o ∈ l -> length (filter (fun x => x = o) l) = 1.
Proof.
  induction 1 as [ | x l Hx Hnd IH]; intros Hin.
  - inversion Hin.
  - destruct (decide (x = o)) as [-> | Hne].
    + rewrite filter_cons_True by reflexivity. simpl. f_equal.
      clear IH Hin Hnd. induction l as [ | y l IHl]; [reflexivity | ].
      rewrite not_elem_of_cons in Hx. destruct Hx as [Hy Hx].
      rewrite filter_cons_False by congruence. apply IHl. exact Hx.
    + rewrite filter_cons_False by congruence. apply IH.
      apply elem_of_cons in Hin. destruct Hin as [-> | Hin]; [contradiction | exact Hin].
Qed.

Lemma count_none (o : nat) (l : list nat) :
  o ∉ l -> length (filter (fun x => x = o) l) = 0.
Proof.
  induction l as [ | y l IHl]; intros Hn; [reflexivity | ].
  rewrite not_elem_of_cons in Hn. destruct Hn as [Hy Hn].
  rewrite filter_cons_False by congruence. apply IHl. exact Hn.
Qed.

(** The set after one of the [n] tracked observers has been disconnected
    on its own. *)
Lemma SetDelete_seq (n i : nat) :
  i < n ->
  SetDelete (map Some (seq 0 n)) i
  = map Some (seq 0 i) ++ None :: map Some (seq (S i) (n - S i)).
Proof.
  intros Hi.
  replace n with (i + S (n - S i)) at 1 by lia.
  rewrite seq_app, map_app, SetDelete_app. simpl.
  rewrite bool_decide_eq_true_2 by reflexivity.
  rewrite !SetDelete_absent; [reflexivity | | ].
  - intros Hin. apply list_elem_of_In, in_map_iff in Hin.
    destruct Hin as [x [Hx Hin]]. injection Hx as ->. apply in_seq in Hin. lia.
  - intros Hin. apply list_elem_of_In, in_map_iff in Hin.
    destruct Hin as [x [Hx Hin]]. injection Hx as ->. apply in_seq in Hin. lia.
Qed.

Lemma SetClear_no_member (data : list (option nat)) (v : nat) : Some v ∉ SetClear data.
Proof.
  rewrite <- elem_of_members, members_SetClear. apply not_elem_of_nil.
Qed.

Lemma SetDelete_elem (data : list (option nat)) (v w : nat) :
  Some w ∈ SetDelete data v -> Some w ∈ data.
Proof.
  induction data as [ | e data IH]; simpl; intros Hin; [exact Hin | ].
  apply elem_of_cons in Hin. apply elem_of_cons. destruct Hin as [Hw | Hin].
  - left. destruct (bool_decide (e = Some v)); congruence.
  - right. apply IH. exact Hin.
Qed.

Lemma NoDup_members_SetDelete (data : list (option nat)) (v : nat) :
  NoDup (members data) -> NoDup (members (SetDelete data v)).
Proof.
  induction data as [ | e data IH]; simpl; intros Hnd; [exact Hnd | ].
  destruct e as [w | ]; simpl in *.
  - apply NoDup_cons in Hnd. destruct Hnd as [Hw Hnd].
    destruct (bool_decide (Some w = Some v)); simpl; [apply IH; exact Hnd | ].
    apply NoDup_cons. split; [ | apply IH; exact Hnd].
    rewrite elem_of_members. intros Hin. apply Hw.
    rewrite elem_of_members. eapply SetDelete_elem. exact Hin.
  - apply IH. exact Hnd.
Qed.

(** The walk of [recover] keeps what the invariant needs. *)
Lemma SetForEach_preserves (fuel index : nat) (st st' : ModuleState) :
  SetForEach fuel recover_callback index st = Some st' ->
  observers st' = observers st.
Proof.
  revert index st. induction fuel as [ | fuel IH]; intros index st Hrun; simpl in Hrun.
  - destruct (observerSet st !! index); [discriminate | ]. congruence.
  - destruct (observerSet st !! index) as [e | ]; [ | congruence].
    apply IH in Hrun. rewrite Hrun. destruct e as [v | ]; [ | reflexivity].
    unfold recover_callback. destruct (observers st !! v) as [[ | | id] | ]; reflexivity.
Qed.

(** In every state the module can be in, the tracked observers are
    observers the class has created, each tracked once. *)
Lemma Reachable_tracked (st : ModuleState) :
  Reachable st ->
  (forall v, Some v ∈ observerSet st -> v < length (observers st))
  /\ NoDup (members (observerSet st)).
Proof.
  induction 1 as [sandbox | st Hr [IHlt IHnd] | st this Hr [IHlt IHnd] Hthis
                 | st observer v Hr [IHlt IHnd] | st opts Hr [IHlt IHnd]
                 | st fuel st' Hr [IHlt IHnd] Hrec].
  - split; [intros v Hv; inversion Hv | constructor].
  - unfold ProxyMutationObserver.
    destruct (negb (default false (disableCollect (options st)))); simpl.
    + unfold SetAdd. destruct (SetHas (observerSet st) (length (observers st))) eqn:Hhas.
      * split; [ | exact IHnd].
        intros v Hv. rewrite length_app. simpl. specialize (IHlt v Hv). lia.
      * split.
        -- intros v Hv. rewrite length_app. simpl.
           apply elem_of_app in Hv. destruct Hv as [Hv | Hv].
           ++ specialize (IHlt v Hv). lia.
           ++ apply list_elem_of_singleton in Hv. injection Hv as ->. lia.
        -- rewrite members_app. simpl. apply NoDup_app.
           split; [exact IHnd | split; [ | apply NoDup_singleton]].
           intros x Hx Hx'. apply list_elem_of_singleton in Hx'. subst x.
           apply elem_of_members, IHlt in Hx. lia.
    + split; [ | exact IHnd].
      intros v Hv. rewrite length_app. simpl. specialize (IHlt v Hv). lia.
  - unfold disconnect; simpl.
    destruct (SetHas (observerSet st) this); [ | split; assumption].
    split; [ | apply NoDup_members_SetDelete; exact IHnd].
    intros v Hv. apply IHlt. eapply SetDelete_elem. exact Hv.
  - unfold shadow_disconnect; simpl. rewrite length_insert. split; assumption.
  - simpl. split; assumption.
  - unfold recover in Hrec.
    destruct (SetForEach fuel recover_callback 0 st) as [st1 | ]; [ | discriminate].
    injection Hrec as <-. simpl.
    split; [ | rewrite members_SetClear; constructor].
    intros v Hv. exfalso. exact (SetClear_no_member _ _ Hv).
Qed.

(** Whatever the state, the set is empty once [recover] has returned. *)
Lemma recover_empties (fuel : nat) (st st' : ModuleState) :
  recover fuel st = Some st' -> members (observerSet st') = [].
Proof.
  unfold recover. destruct (SetForEach fuel recover_callback 0 st); [ | discriminate].
  intros [= <-]. simpl. apply members_SetClear.
Qed.

(** [recover] on a set whose observers all have the method of the class. *)
Lemma recover_tracked (fuel : nat) (st : ModuleState) :
  length (observerSet st) <= fuel ->
  NoDup (members (observerSet st)) ->
  (forall v, v ∈ members (observerSet st) -> observers st !! v = Some ClassMethod) ->
  exists st',
    recover fuel st = Some st'
    /\ members (observerSet st') = []
    /\ log st' = log st ++ map NativeDisconnect (members (observerSet st)).
Proof.
  intros Hfuel Hnd Hcls.
  destruct (SetForEach_disconnects (observerSet st) [] st fuel eq_refl Hfuel Hnd Hcls)
    as [st1 [Hrun [Hlog _]]].
  simpl in Hrun. unfold recover. rewrite Hrun.
  eexists. split; [reflexivity | ]. simpl.
  split; [apply members_SetClear | exact Hlog].
Qed.

(** C8. After [recover()] has returned the tracked set is empty. With [N]
    tracked observers created, [recover()] runs the native disconnect
    exactly [N] times, once on each of them. When one of them was
    disconnected on its own before, it is no longer in the set (the class
    removes it before the native disconnect runs), [recover()] runs the
    native disconnect [N - 1] times, not on that one, and in the end the
    native disconnect has still run exactly once on each of the [N]. *)
Theorem recover_disconnects_each_tracked_once
  (sandbox : SandboxOptions) (N fuel : nat) :
  default false (disableCollect sandbox) = false ->
  N <= fuel ->
  (forall st0,
     length (observerSet st0) <= fuel ->
     exists st', recover fuel st0 = Some st' /\ members (observerSet st') = [])
  /\ (forall st0,
     length (observerSet st0) <= fuel ->
     NoDup (members (observerSet st0)) ->
     (forall v, v ∈ members (observerSet st0) -> observers st0 !! v = Some ClassMethod) ->
     exists st',
       recover fuel st0 = Some st'
       /\ log st' = log st0 ++ map NativeDisconnect (members (observerSet st0)))
  /\ (exists st1,
        recover fuel (create_observers N (observerModule sandbox)) = Some st1
        /\ members (observerSet st1) = []
        /\ log st1 = map NativeDisconnect (seq 0 N)
        /\ length (log st1) = N
        /\ forall o, o < N -> native_disconnects o (log st1) = 1)
  /\ (forall i, i < N ->
        (Some i ∉ observerSet (disconnect i (create_observers N (observerModule sandbox))))
        /\ log (disconnect i (create_observers N (observerModule sandbox)))
           = [NativeDisconnect i]
        /\ exists st2 during,
             recover fuel (disconnect i (create_observers N (observerModule sandbox)))
             = Some st2
             /\ members (observerSet st2) = []
             /\ log st2 = NativeDisconnect i :: during
             /\ length during = N - 1
             /\ native_disconnects i during = 0
             /\ forall o, o < N -> native_disconnects o (log st2) = 1).
Proof.
  intros Hopt Hfuel.
  destruct (create_observers_state N 0 (observerModule sandbox) Hopt eq_refl eq_refl)
    as [Hobs [Hset [Hlog Hopts]]].
  simpl in Hobs, Hset, Hlog.
  split; [ | split; [ | split]].
  - intros st0 Hlen.
    destruct (SetForEach_total fuel 0 st0) as [st1 Hrun]; [lia | ].
    unfold recover. rewrite Hrun. eexists. split; [reflexivity | ].
    simpl. apply members_SetClear.
  - intros st0 Hlen Hnd Hcls.
    destruct (recover_tracked fuel st0 Hlen Hnd Hcls) as [st' [Hrun [_ Hlog']]].
    exists st'. split; assumption.
  - destruct (recover_tracked fuel (create_observers N (observerModule sandbox)))
      as [st1 [Hrun [Hempty Hlog1]]].
    + rewrite Hset, length_map, length_seq. exact Hfuel.
    + rewrite Hset, members_Some. apply NoDup_seq.
    + intros v Hv. rewrite Hset, members_Some in Hv. apply elem_of_seq in Hv.
      rewrite Hobs. apply lookup_replicate_2. lia.
    + exists st1. rewrite Hlog, Hset, members_Some in Hlog1. simpl in Hlog1.
      split; [exact Hrun | split; [exact Hempty | split; [exact Hlog1 | split]]].
      * rewrite Hlog1, length_map, length_seq. reflexivity.
      * intros o Ho. rewrite Hlog1, native_disconnects_map.
        apply count_once; [apply NoDup_seq | apply elem_of_seq; lia].
  - intros i Hi.
    set (st := create_observers N (observerModule sandbox)) in *.
    assert (Hhas : SetHas (observerSet st) i = true).
    { unfold SetHas. apply bool_decide_eq_true_2. rewrite Hset.
      apply list_elem_of_In, in_map, in_seq. lia. }
    assert (Hset' : observerSet (disconnect i st)
                    = map Some (seq 0 i) ++ None :: map Some (seq (S i) (N - S i))).
    { unfold disconnect; simpl. rewrite Hhas, Hset. apply SetDelete_seq. exact Hi. }
    assert (Hmem : members (observerSet (disconnect i st))
                   = seq 0 i ++ seq (S i) (N - S i)).
    { rewrite Hset', members_app. simpl. rewrite !members_Some. reflexivity. }
    assert (Hnd : NoDup (seq 0 i ++ seq (S i) (N - S i))).
    { apply NoDup_app. split; [apply NoDup_seq | split; [ | apply NoDup_seq]].
      intros x Hx Hx'. apply elem_of_seq in Hx. apply elem_of_seq in Hx'. lia. }
    assert (Hni : i ∉ seq 0 i ++ seq (S i) (N - S i)).
    { rewrite elem_of_app, !elem_of_seq. lia. }
    split; [ | split].
    + rewrite <- elem_of_members, Hmem. exact Hni.
    + unfold disconnect; simpl. rewrite Hlog. reflexivity.
    + destruct (recover_tracked fuel (disconnect i st)) as [st2 [Hrun [Hempty Hlog2]]].
      * rewrite Hset', length_app. simpl. rewrite !length_map, !length_seq. lia.
      * rewrite Hmem. exact Hnd.
      * intros v Hv. rewrite Hmem in Hv. unfold disconnect; simpl. rewrite Hobs.
        apply lookup_replicate_2.
        rewrite elem_of_app, !elem_of_seq in Hv. lia.
      * exists st2, (map NativeDisconnect (seq 0 i ++ seq (S i) (N - S i))).
        rewrite Hmem in Hlog2. unfold disconnect in Hlog2 at 1; simpl in Hlog2.
        rewrite Hlog in Hlog2. simpl in Hlog2.
        split; [exact Hrun | split; [exact Hempty | split; [exact Hlog2 | split; [ | split]]]].
        -- rewrite length_map, length_app, !length_seq. lia.
        -- rewrite native_disconnects_map. apply count_none. exact Hni.
        -- intros o Ho. rewrite Hlog2.
           change (NativeDisconnect i :: map NativeDisconnect (seq 0 i ++ seq (S i) (N - S i)))
             with (map NativeDisconnect (i :: seq 0 i ++ seq (S i) (N - S i))).
           rewrite native_disconnects_map. apply count_once.
           ++ apply NoDup_cons. split; [exact Hni | exact Hnd].
           ++ rewrite elem_of_cons, elem_of_app, !elem_of_seq. lia.
Qed.

(** The claim for three observers, the second one disconnected on its
    own. *)
Lemma recover_disconnects_each_tracked_once_witness :
  exists st2 during,
    recover 3 (disconnect 1 (create_observers 3 (observerModule (mkOptions None))))
    = Some st2
    /\ members (observerSet st2) = []
    /\ log st2 = NativeDisconnect 1 :: during
    /\ length during = 2.
Proof.
  destruct (recover_disconnects_each_tracked_once (mkOptions None) 3 3 eq_refl
              (le_n 3)) as [_ [_ [_ H]]].
  destruct (H 1 (le_n_S 1 2 (le_n_S 0 1 (le_0_n 1)))) as [_ [_ [st2 [during H2]]]].
  exists st2, during.
  destruct H2 as [Hrun [Hempty [Hlog [Hlen _]]]].
  split; [exact Hrun | split; [exact Hempty | split; [exact Hlog | exact Hlen]]].
Defined.

(** C9. When [options.disableCollect] is true, constructing a
    [ProxyMutationObserver] creates the observer and leaves the tracked set
    as it was, and a later [recover()] does not run the native disconnect on
    that observer. *)
Theorem disabled_collection_tracks_nothing (st : ModuleState) (fuel : nat) :
  Reachable st ->
  disableCollect (options st) = Some true ->
  length (observerSet st) <= fuel ->
  observerSet (fst (ProxyMutationObserver st)) = observerSet st
  /\ observers (fst (ProxyMutationObserver st)) !! snd (ProxyMutationObserver st)
     = Some ClassMethod
  /\ (Some (snd (ProxyMutationObserver st)) ∉ observerSet (fst (ProxyMutationObserver st)))
  /\ exists st',
       recover fuel (fst (ProxyMutationObserver st)) = Some st'
       /\ native_disconnects (snd (ProxyMutationObserver st)) (log st')
          = native_disconnects (snd (ProxyMutationObserver st)) (log st).
Proof.
  intros Hreach Hopt Hfuel.
  destruct (Reachable_tracked st Hreach) as [Hwf _].
  unfold ProxyMutationObserver. rewrite Hopt. simpl.
  assert (Hfresh : Some (length (observers st)) ∉ observerSet st).
  { intros Hin. apply Hwf in Hin. lia. }
  split; [reflexivity | split; [ | split; [exact Hfresh | ]]].
  - rewrite lookup_app_r by lia. rewrite Nat.sub_diag. reflexivity.
  - set (st1 := mkModule (options st) (observers st ++ [ClassMethod])
                  (observerSet st) (log st)).
    destruct (SetForEach_total fuel 0 st1) as [st2 Hrun]; [simpl; lia | ].
    unfold recover. rewrite Hrun. eexists. split; [reflexivity | ]. simpl.
    apply (SetForEach_untracked _ _ _ _ _ Hrun). exact Hfresh.
Qed.

(** The claim in a module whose sandbox disables collection, after two
    observers were made: the third one is not tracked either. *)
Lemma disabled_collection_tracks_nothing_witness :
  observerSet (create_observers 3 (observerModule (mkOptions (Some true)))) = []
  /\ exists st',
       recover 0 (create_observers 3 (observerModule (mkOptions (Some true)))) = Some st'
       /\ native_disconnects 2 (log st') = 0.
Proof.
  destruct (disabled_collection_tracks_nothing
              (create_observers 2 (observerModule (mkOptions (Some true)))) 0
              (reach_new _ (reach_new _ (reach_module (mkOptions (Some true)))))
              eq_refl (le_n 0))
    as [Hset [_ [_ [st' [Hrun Hlog]]]]].
  split; [exact Hset | ].
  exists st'. split; [exact Hrun | exact Hlog].
Defined.

End ObserverFacts.

(** ** The object model *)

(** *** Property lists *)

Lemma own_property_put_eq ps k p : own_property (put_property ps k p) k = Some p.
Proof.
  induction ps as [ | [k' p'] ps IH]; simpl.
  - rewrite bool_decide_eq_true_2 by reflexivity. reflexivity.
  - destruct (bool_decide (k' = k)) eqn:Hk; simpl.
    + rewrite bool_decide_eq_true_2 by reflexivity. reflexivity.
    + rewrite Hk. exact IH.
Qed.

Lemma own_property_put_ne ps k p k' :
  k <> k' -> own_property (put_property ps k p) k' = own_property ps k'.
Proof.
  intros Hne. induction ps as [ | [k0 p0] ps IH]; simpl.
  - rewrite bool_decide_eq_false_2 by exact Hne. reflexivity.
  - destruct (bool_decide (k0 = k)) eqn:Hk; simpl.
    + apply bool_decide_eq_true_1 in Hk. subst k0.
      rewrite !bool_decide_eq_false_2 by exact Hne. reflexivity.
    + destruct (bool_decide (k0 = k')); [reflexivity | exact IH].
Qed.

Lemma own_property_In ps k p : own_property ps k = Some p -> In (k, p) ps.
Proof.
  induction ps as [ | [k' p'] ps IH]; simpl; [discriminate | ].
  destruct (bool_decide (k' = k)) eqn:Hk.
  - apply bool_decide_eq_true_1 in Hk. intros [= ->]. subst. left. reflexivity.
  - intros H. right. apply IH. exact H.
Qed.

Lemma own_property_keys ps k :
  In k (map fst ps) <-> exists p, own_property ps k = Some p.
Proof.
  induction ps as [ | [k' p'] ps IH]; simpl.
  - split; [contradiction | intros [p H]; discriminate].
  - destruct (bool_decide (k' = k)) eqn:Hk.
    + apply bool_decide_eq_true_1 in Hk. split; [eauto | auto].
    + apply bool_decide_eq_false_1 in Hk. rewrite <- IH. tauto.
Qed.

Lemma data_only_put ps k v w e c :
  data_only ps -> data_only (put_property ps k (DataProperty v w e c)).
Proof.
  intros H k' p'. destruct (decide (k = k')) as [<- | Hne].
  - rewrite own_property_put_eq. intros [= <-]. reflexivity.
  - rewrite own_property_put_ne by exact Hne. apply H.
Qed.

(** *** The keys [Reflect.ownKeys] lists *)

Lemma In_insert_index x y l : In x (insert_index y l) <-> x = y \/ In x l.
Proof.
  induction l as [ | z l IH]; simpl.
  - intuition congruence.
  - destruct (fst y <=? fst z)%N; simpl; [intuition congruence | ].
    rewrite IH. intuition congruence.
Qed.

Lemma In_sort_indices x l : In x (sort_indices l) <-> In x l.
Proof.
  unfold sort_indices. induction l as [ | y l IH]; simpl; [tauto | ].
  rewrite In_insert_index, IH. intuition congruence.
Qed.

Lemma In_index_keys n k ks :
  In (n, k) (index_keys ks) <-> In k ks /\ array_index k = Some n.
Proof.
  unfold index_keys. rewrite <- !list_elem_of_In, list_elem_of_omap. split.
  - intros [k' [Hin Hk]]. destruct (array_index k') as [m | ] eqn:Ha; [ | discriminate].
    injection Hk as -> ->. auto.
  - intros [Hin Ha]. exists k. rewrite Ha. auto.
Qed.

(** [Reflect.ownKeys] lists the keys of the own properties, all of them
    and nothing else. *)
Lemma OrdinaryOwnPropertyKeys_spec o k :
  In k (OrdinaryOwnPropertyKeys o) <-> In k (map fst (obj_props o)).
Proof.
  unfold OrdinaryOwnPropertyKeys.
  rewrite !in_app_iff, <- !list_elem_of_In, !list_elem_of_filter, !list_elem_of_In.
  rewrite in_map_iff. split.
  - intros [[[n k'] [Hk Hin]] | [[_ Hin] | [_ Hin]]]; try exact Hin.
    simpl in Hk. subst k'. apply In_sort_indices, In_index_keys in Hin. tauto.
  - intros Hin. destruct (array_index k) as [n | ] eqn:Ha.
    + left. exists (n, k). split; [reflexivity | ].
      apply In_sort_indices, In_index_keys. auto.
    + right. destruct k as [s | s].
      * left. split; [ | exact Hin]. unfold is_plain_string_key. rewrite Ha. reflexivity.
      * right. split; [reflexivity | exact Hin].
Qed.

(** *** Walks along the prototype chain *)

(** A walk that came to an answer keeps it when the budget grows and when
    objects are added to the store. *)
Lemma lookup_chain_stable fuel : forall h l k r fuel' h',
  lookup_chain fuel h l k = r ->
  r <> Broken ->
  fuel <= fuel' ->
  (forall l' o, h !! l' = Some o -> h' !! l' = Some o) ->
  lookup_chain fuel' h' l k = r.
Proof.
  induction fuel as [ | fuel IH]; intros h l k r fuel' h' Hr Hnb Hfuel Hext.
  - simpl in Hr. destruct (h !! l) as [o | ] eqn:Hl; [ | congruence].
    destruct fuel'; simpl; rewrite (Hext _ _ Hl);
      destruct (own_property (obj_props o) k); try exact Hr;
      destruct (obj_proto o); congruence.
  - destruct fuel' as [ | fuel']; [lia | ].
    simpl in Hr |- *. destruct (h !! l) as [o | ] eqn:Hl; [ | congruence].
    rewrite (Hext _ _ Hl).
    destruct (own_property (obj_props o) k); [exact Hr | ].
    destruct (obj_proto o); try exact Hr.
    eapply IH; eauto. lia.
Qed.

(** A store that is extended at its end keeps its objects. *)
Lemma heap_extends (h t : list JsObject) l o :
  h !! l = Some o -> (h ++ t) !! l = Some o.
Proof. apply lookup_app_l_Some. Qed.

Lemma lookup_new (h t : list JsObject) i : (h ++ t) !! (length h + i) = t !! i.
Proof. rewrite lookup_app_r by lia. f_equal. lia. Qed.

Lemma insert_new (h t : list JsObject) i o :
  <[length h + i := o]> (h ++ t) = h ++ <[i := o]> t.
Proof.
  rewrite insert_app_r_alt by lia. f_equal. f_equal. lia.
Qed.

(** *** The monad *)

Lemma bind_M_Normal {A B} (m : M A) (k : A -> M B) st st' a :
  m st = (st', Normal a) -> bind_M m k st = k a st'.
Proof. intros H. unfold bind_M. rewrite H. reflexivity. Qed.

Lemma bind_M_Throw {A B} (m : M A) (k : A -> M B) st st' e :
  m st = (st', Throw e) -> bind_M m k st = (st', Throw e).
Proof. intros H. unfold bind_M. rewrite H. reflexivity. Qed.

Lemma try_catch_Normal {A} (m : M A) handler st st' a :
  m st = (st', Normal a) -> try_catch m handler st = (st', Normal a).
Proof. intros H. unfold try_catch. rewrite H. reflexivity. Qed.

Lemma try_catch_Throw {A} (m : M A) handler st st' e :
  m st = (st', Throw e) -> try_catch m handler st = handler e st'.
Proof. intros H. unfold try_catch. rewrite H. reflexivity. Qed.

Lemma bind_M_ret {A} (m : M A) st : bind_M m ret st = m st.
Proof. unfold bind_M, ret. destruct (m st) as [st' [a | e | | ]]; reflexivity. Qed.

Lemma bind_M_cong {A B} (m m' : M A) (k : A -> M B) st :
  m st = m' st -> bind_M m k st = bind_M m' k st.
Proof. intros H. unfold bind_M. rewrite H. reflexivity. Qed.

Lemma bind_M_result {A B} (m : M A) (k : A -> M B) st r :
  m st = r ->
  bind_M m k st
  = match r with
    | (st', Normal a) => k a st'
    | (st', Throw e) => (st', Throw e)
    | (st', Stuck) => (st', Stuck)
    | (st', Diverge) => (st', Diverge)
    end.
Proof. intros <-. reflexivity. Qed.

(** A boolean that is wrapped into a value and read back by ToBoolean. *)
Lemma bind_M_ret_map (m : M bool) st :
  (r <- (b <- m ;; ret (VBool b)) ;; ret (ToBoolean r)) st = m st.
Proof.
  unfold bind_M, ret. destruct (m st) as [st' [[ | ] | e | | ]]; reflexivity.
Qed.

(** *** Reads and writes that run no accessor *)

Lemma state_eta st : mkState (heap st) (trace st) = st.
Proof. destruct st; reflexivity. Qed.

Lemma with_props_id o : with_props o (obj_props o) = o.
Proof. destruct o; reflexivity. Qed.

Lemma lookup_chain_own fuel h l o k p :
  h !! l = Some o -> own_property (obj_props o) k = Some p ->
  lookup_chain fuel h l k = Found l p.
Proof. intros Hl Hp. destruct fuel; simpl; rewrite Hl, Hp; reflexivity. Qed.

(** The chain of an object that owns nothing under [k] and inherits from
    [Function.prototype], in a store grown from [h]. *)
Lemma lookup_chain_inherited h hp l o k r :
  hp !! l = Some o ->
  own_property (obj_props o) k = None ->
  obj_proto o = VObject FunctionPrototype ->
  lookup_chain (length h) h FunctionPrototype k = r ->
  r <> Broken ->
  (forall l' o', h !! l' = Some o' -> hp !! l' = Some o') ->
  length h < length hp ->
  lookup_chain (length hp) hp l k = r.
Proof.
  intros Hl Hown Hproto Hr Hnb Hext Hlen.
  destruct (length hp) as [ | m] eqn:Hm; [lia | ].
  simpl. rewrite Hl, Hown, Hproto.
  eapply lookup_chain_stable; eauto. lia.
Qed.

Lemma data_lookup_stable h hp l k v :
  data_lookup h l k = Some v ->
  (forall l' o', h !! l' = Some o' -> hp !! l' = Some o') ->
  length h <= length hp ->
  data_lookup hp l k = Some v.
Proof.
  unfold data_lookup. intros Hd Hext Hlen.
  destruct (lookup_chain (length h) h l k) as [owner p | | ] eqn:Hc; try discriminate.
  - rewrite (lookup_chain_stable _ _ _ _ _ _ _ Hc ltac:(discriminate) Hlen Hext).
    exact Hd.
  - rewrite (lookup_chain_stable _ _ _ _ _ _ _ Hc ltac:(discriminate) Hlen Hext).
    exact Hd.
Qed.

Lemma GetV_data invoke st l k v :
  data_lookup (heap st) l k = Some v ->
  GetV invoke (VObject l) k st = (st, Normal v).
Proof.
  unfold data_lookup, GetV, OrdinaryGet, get_heap, bind_M, ret. intros Hd.
  destruct (lookup_chain (length (heap st)) (heap st) l k) as [owner [v' w e c | g s e c] | | ];
    try discriminate; congruence.
Qed.

Lemma Object_getOwnPropertyDescriptor_object st l o k :
  heap st !! l = Some o ->
  Object_getOwnPropertyDescriptor (VObject l) k st
  = (st, Normal (FromPropertyDescriptor <$> own_property (obj_props o) k)).
Proof.
  intros Hl. unfold Object_getOwnPropertyDescriptor, GetOwnProperty, deref, bind_M, ret.
  rewrite Hl. reflexivity.
Qed.

(** The assignment [o[k] = v] on a writable own data property. *)
Lemma PutValue_own_writable invoke st l o k v0 e c v :
  heap st !! l = Some o ->
  own_property (obj_props o) k = Some (DataProperty v0 true e c) ->
  PutValue invoke (VObject l) k v st
  = (mkState (<[l := with_props o (put_property (obj_props o) k (DataProperty v true e c))]>
                (heap st)) (trace st), Normal tt).
Proof.
  intros Hl Hown. unfold PutValue, get_heap, bind_M, ret.
  rewrite (lookup_chain_own _ _ _ _ _ _ Hl Hown).
  unfold deref. rewrite Hl, Hown. reflexivity.
Qed.

(** ... on a read-only own data property: a TypeError in strict code. *)
Lemma PutValue_own_readonly invoke st l o k v0 e c v :
  heap st !! l = Some o ->
  own_property (obj_props o) k = Some (DataProperty v0 false e c) ->
  PutValue invoke (VObject l) k v st = (st, Throw TypeError).
Proof.
  intros Hl Hown. unfold PutValue, get_heap, bind_M, ret.
  rewrite (lookup_chain_own _ _ _ _ _ _ Hl Hown). reflexivity.
Qed.

(** ... on an extensible object that owns nothing under [k]: what the
    chain holds decides. *)
Lemma PutValue_not_own invoke st l o k v :
  heap st !! l = Some o ->
  own_property (obj_props o) k = None ->
  obj_extensible o = true ->
  PutValue invoke (VObject l) k v st
  = match lookup_chain (length (heap st)) (heap st) l k with
    | Broken => (st, Stuck)
    | Found _ (AccessorProperty _ s _ _) =>
        if is_undefined s then (st, Throw TypeError)
        else bind_M (Call invoke s (VObject l) [v]) (fun _ => ret tt) st
    | Found _ (DataProperty _ false _ _) => (st, Throw TypeError)
    | Found _ (DataProperty _ true _ _) | Absent =>
        (mkState (<[l := with_props o (put_property (obj_props o) k
                                         (DataProperty v true true true))]>
                    (heap st)) (trace st), Normal tt)
    end.
Proof.
  intros Hl Hown Hext. unfold PutValue, get_heap, bind_M at 1, ret at 1.
  destruct (lookup_chain (length (heap st)) (heap st) l k)
    as [owner [v' [ | ] e c | g s e c] | | ]; try reflexivity.
  - unfold bind_M, deref. rewrite Hl, Hown, Hext. reflexivity.
  - destruct (is_undefined s); reflexivity.
  - unfold bind_M, deref. rewrite Hl, Hown, Hext. reflexivity.
Qed.

(** [Object.defineProperty] with a full data descriptor, on an extensible
    object where the property is absent or configurable. *)
Lemma Object_defineProperty_data st l o k v w e c :
  heap st !! l = Some o ->
  obj_extensible o = true ->
  (forall p0, own_property (obj_props o) k = Some p0 -> prop_configurable p0 = true) ->
  Object_defineProperty (VObject l) k
    (mkDesc (Some v) (Some w) None None (Some e) (Some c)) st
  = (mkState (<[l := with_props o (put_property (obj_props o) k (DataProperty v w e c))]>
                (heap st)) (trace st), Normal (VObject l)).
Proof.
  intros Hl Hext Hconf.
  unfold Object_defineProperty, DefineOwnProperty, ValidateAndApplyPropertyDescriptor,
    deref, store, bind_M, ret.
  simpl. rewrite Hl, Hext.
  destruct (own_property (obj_props o) k) as [p0 | ] eqn:Hown.
  - unfold change_allowed. rewrite (Hconf p0 eq_refl).
    destruct p0; reflexivity.
  - reflexivity.
Qed.

Lemma insert_middle (h t : list JsObject) x y :
  <[length h := y]> (h ++ x :: t) = h ++ y :: t.
Proof. rewrite insert_app_r_alt by lia. rewrite Nat.sub_diag. reflexivity. Qed.

(** The assignment [o[k] = v] that creates the property on a function
    object fresh in a store grown from [h]. *)
Lemma PutValue_fresh invoke h st l o k v :
  heap st !! l = Some o ->
  own_property (obj_props o) k = None ->
  obj_extensible o = true ->
  obj_proto o = VObject FunctionPrototype ->
  inherits_assignable h k = true ->
  (forall l' o', h !! l' = Some o' -> heap st !! l' = Some o') ->
  length h < length (heap st) ->
  PutValue invoke (VObject l) k v st
  = (mkState (<[l := with_props o (put_property (obj_props o) k
                                     (DataProperty v true true true))]>
                (heap st)) (trace st), Normal tt).
Proof.
  intros Hl Hown Hextb Hproto Hinh Hext Hlen.
  rewrite (PutValue_not_own invoke st l o k v Hl Hown Hextb).
  unfold inherits_assignable in Hinh.
  destruct (lookup_chain (length h) h FunctionPrototype k)
    as [owner [v0 [ | ] e0 c0 | g0 s0 e0 c0] | | ] eqn:Hc; try discriminate;
    rewrite (lookup_chain_inherited h (heap st) l o k _ Hl Hown Hproto Hc
               ltac:(discriminate) Hext Hlen);
    reflexivity.
Qed.

Lemma Reflect_ownKeys_object st l o :
  heap st !! l = Some o ->
  Reflect_ownKeys (VObject l) st = (st, Normal (OrdinaryOwnPropertyKeys o)).
Proof. intros Hl. unfold Reflect_ownKeys, deref, bind_M, ret. rewrite Hl. reflexivity. Qed.

(** The statics of a function that can be bound, key by key. *)
Lemma plain_statics_keys h fo k :
  forallb (plain_static h) (obj_props fo) = true ->
  In k (OrdinaryOwnPropertyKeys fo) ->
  buildInProps k = true
  \/ exists v w e c, own_property (obj_props fo) k = Some (DataProperty v w e c)
                     /\ inherits_no_setter h k = true.
Proof.
  intros Hall Hin.
  apply OrdinaryOwnPropertyKeys_spec, own_property_keys in Hin. destruct Hin as [p Hp].
  rewrite forallb_forall in Hall. specialize (Hall _ (own_property_In _ _ _ Hp)).
  unfold plain_static in Hall. simpl in Hall.
  destruct (buildInProps k); [left; reflexivity | right].
  simpl in Hall. apply andb_true_iff in Hall. destruct Hall as [Hd Hs].
  destruct p as [v w e c | ]; [ | discriminate]. eauto 10.
Qed.

(** [Object.defineProperty] that creates the property. *)
Lemma Object_defineProperty_new st l o k D :
  heap st !! l = Some o ->
  obj_extensible o = true ->
  own_property (obj_props o) k = None ->
  IsAccessorDescriptor D && IsDataDescriptor D = false ->
  Object_defineProperty (VObject l) k D st
  = (mkState (<[l := with_props o (put_property (obj_props o) k (new_property D))]>
                (heap st)) (trace st), Normal (VObject l)).
Proof.
  intros Hl Hext Hown HD.
  unfold Object_defineProperty, DefineOwnProperty, ValidateAndApplyPropertyDescriptor,
    deref, store, bind_M, ret.
  rewrite HD, Hl, Hext, Hown. reflexivity.
Qed.

Section InvokeFacts.

Variable E : Env.

(** [new fNOP()]: an empty object that inherits from [fNOP.prototype]. *)
Lemma construct_fNOP fuel st l o p w e c :
  heap st !! l = Some o ->
  obj_call o = Some CodeFNOP ->
  obj_construct o = true ->
  own_property (obj_props o) (KString "prototype") = Some (DataProperty p w e c) ->
  run E (S fuel) (VObject l) (AsConstruct (VObject l)) [] st
  = (mkState (heap st ++ [mkObject (instance_proto p) true [] None false]) (trace st),
     Normal (VObject (length (heap st)))).
Proof.
  intros Hl Hcall Hcons Hown.
  cbn [run]. unfold invoke_step, deref, bind_M at 1. rewrite Hl, Hcall, Hcons.
  cbn [negb]. unfold ordinary_construct, OrdinaryCreateFromConstructor.
  assert (Hget : GetV (run E fuel) (VObject l) (KString "prototype") st = (st, Normal p)).
  { apply GetV_data. unfold data_lookup.
    rewrite (lookup_chain_own _ _ _ _ _ _ Hl Hown). reflexivity. }
  unfold bind_M at 1. unfold bind_M at 1. rewrite Hget.
  unfold alloc, ret. destruct p; reflexivity.
Qed.

End InvokeFacts.

(** An object two steps up the prototype chain is found. *)
Lemma proto_chain_has_second fuel hp lx mid fp ox om :
  hp !! lx = Some ox ->
  obj_proto ox = VObject mid ->
  mid <> fp ->
  hp !! mid = Some om ->
  obj_proto om = VObject fp ->
  proto_chain_has (S fuel) hp lx fp = Some true.
Proof.
  intros Hx Hpx Hne Hm Hpm. simpl. rewrite Hx, Hpx.
  rewrite bool_decide_eq_false_2 by exact Hne.
  destruct fuel; simpl; rewrite Hm, Hpm, bool_decide_eq_true_2; reflexivity.
Qed.

(** ** [transferProps] *)

Section TransferFacts.

Variable E : Env.
Variable invoke : JsValue -> Mode -> list JsValue -> M JsValue.

(** A protected name is passed over. *)
Lemma transferProp_builtin source target k st :
  buildInProps k = true ->
  transferProp E invoke source target k st = (st, Normal tt).
Proof. intros Hb. unfold transferProp. rewrite Hb. reflexivity. Qed.

(** A name that the target already defines as a non-configurable property
    is passed over: nothing is read from the source, nothing is written. *)
Lemma transferProp_skip s so t to k p0 st :
  heap st !! s = Some so ->
  heap st !! t = Some to ->
  own_property (obj_props to) k = Some p0 ->
  prop_configurable p0 = false ->
  transferProp E invoke (VObject s) (VObject t) k st = (st, Normal tt).
Proof.
  intros Hs Ht Hown Hconf. unfold transferProp.
  destruct (buildInProps k); [reflexivity | ].
  rewrite (bind_M_Normal _ _ _ _ _ (Object_getOwnPropertyDescriptor_object st s so k Hs)).
  rewrite (bind_M_Normal _ _ _ _ _ (Object_getOwnPropertyDescriptor_object st t to k Ht)).
  rewrite Hown. simpl.
  destruct p0 as [v0 w0 e0 c0 | g0 s0 e0 c0]; simpl in Hconf; subst; reflexivity.
Qed.

Variable h : list JsObject.
Variable fn : loc.
Variable fo : JsObject.
Variable b : loc.
Hypothesis Hfn : h !! fn = Some fo.
Hypothesis Hb : length h <= b.

(** One turn of the loop on a plain static of [fo], with the fresh wrapper
    at [b] as target: the wrapper gets a data property with the value of
    the static, unless it already has a non-configurable one. *)
Lemma transferProp_data st bo k v w e c :
  (forall l' o', h !! l' = Some o' -> heap st !! l' = Some o') ->
  heap st !! b = Some bo ->
  obj_proto bo = VObject FunctionPrototype ->
  obj_extensible bo = true ->
  data_only (obj_props bo) ->
  buildInProps k = false ->
  own_property (obj_props fo) k = Some (DataProperty v w e c) ->
  inherits_no_setter h k = true ->
  exists ps',
    transferProp E invoke (VObject fn) (VObject b) k st
    = (mkState (<[b := with_props bo ps']> (heap st)) (trace st), Normal tt)
    /\ ((ps' = obj_props bo
         /\ exists p0, own_property (obj_props bo) k = Some p0
                       /\ prop_configurable p0 = false)
        \/ exists w' e' c', ps' = put_property (obj_props bo) k (DataProperty v w' e' c')).
Proof.
  intros Hext Hbo Hproto Hextb Hdata Hbuiltin Hown Hinh.
  pose proof (Hext _ _ Hfn) as Hfn'.
  assert (Hget : GetV invoke (VObject fn) k st = (st, Normal v)).
  { apply GetV_data. unfold data_lookup.
    rewrite (lookup_chain_own _ _ _ _ _ _ Hfn' Hown). reflexivity. }
  assert (Hdefine : forall p,
    (forall p0, own_property (obj_props bo) k = Some p0 -> prop_configurable p0 = true) ->
    try_catch
      (v1 <- GetV invoke (VObject fn) k ;;
       Object_defineProperty (VObject b) k
         (mkDesc (Some v1)
            (Some (ToBoolean (bool_field (desc_writable (FromPropertyDescriptor p)))))
            None None
            (Some (ToBoolean (bool_field (desc_enumerable (FromPropertyDescriptor p)))))
            (Some (ToBoolean (bool_field (desc_configurable (FromPropertyDescriptor p)))))) ;;;
       ret tt)
      (fun _ => if DEV E then emit (EvWarnTransfer k) else ret tt) st
    = (mkState
         (<[b := with_props bo
                   (put_property (obj_props bo) k
                      (DataProperty v
                         (ToBoolean (bool_field (desc_writable (FromPropertyDescriptor p))))
                         (ToBoolean (bool_field (desc_enumerable (FromPropertyDescriptor p))))
                         (ToBoolean (bool_field (desc_configurable (FromPropertyDescriptor p))))))]>
            (heap st)) (trace st), Normal tt)).
  { intros p Hconf. apply try_catch_Normal.
    rewrite (bind_M_Normal _ _ _ _ _ Hget).
    rewrite (bind_M_Normal _ _ _ _ _
               (Object_defineProperty_data st b bo k v _ _ _ Hbo Hextb Hconf)).
    reflexivity. }
  unfold transferProp. rewrite Hbuiltin.
  rewrite (bind_M_Normal _ _ _ _ _ (Object_getOwnPropertyDescriptor_object st fn fo k Hfn')).
  rewrite (bind_M_Normal _ _ _ _ _ (Object_getOwnPropertyDescriptor_object st b bo k Hbo)).
  rewrite Hown.
  destruct (own_property (obj_props bo) k) as [p0 | ] eqn:Hown_b.
  - pose proof (Hdata _ _ Hown_b) as Hd.
    destruct p0 as [v0 w0 e0 c0 | ]; [clear Hd | discriminate].
    destruct c0.
    + (* configurable on the wrapper *)
      cbn [fmap option_fmap option_map FromPropertyDescriptor desc_configurable
             bool_field ToBoolean negb].
      destruct w0.
      * exists (put_property (obj_props bo) k (DataProperty v true e0 true)).
        split; [ | right; eauto].
        apply try_catch_Normal.
        rewrite (bind_M_Normal _ _ _ _ _ Hget).
        apply (PutValue_own_writable invoke st b bo k v0 e0 true v Hbo Hown_b).
      * eexists. split; [ | right; eauto].
        erewrite try_catch_Throw.
        2:{ rewrite (bind_M_Normal _ _ _ _ _ Hget).
            apply (PutValue_own_readonly invoke st b bo k v0 e0 true v Hbo Hown_b). }
        apply (Hdefine (DataProperty v w e c)).
        intros p0 Hp0. injection Hp0 as <-. reflexivity.
    + (* not configurable: passed over *)
      exists (obj_props bo). simpl.
      rewrite with_props_id, (list_insert_id _ _ _ Hbo), state_eta.
      split; [reflexivity | left]. split; [reflexivity | eauto].
  - cbn [fmap option_fmap option_map].
    assert (Hlen : length h < length (heap st)).
    { apply lookup_lt_Some in Hbo. lia. }
    unfold inherits_no_setter in Hinh.
    destruct (lookup_chain (length h) h FunctionPrototype k) as [owner pr | | ] eqn:Hchain;
      [ | | discriminate].
    + pose proof (lookup_chain_inherited h (heap st) b bo k _ Hbo Hown_b Hproto Hchain
                    ltac:(discriminate) Hext Hlen) as Hc.
      destruct pr as [v0 [ | ] e0 c0 | g0 s0 e0 c0].
      * eexists. split; [ | right; eauto].
        apply try_catch_Normal.
        rewrite (bind_M_Normal _ _ _ _ _ Hget).
        rewrite (PutValue_not_own invoke st b bo k v Hbo Hown_b Hextb), Hc. reflexivity.
      * eexists. split; [ | right; eauto].
        erewrite try_catch_Throw.
        2:{ rewrite (bind_M_Normal _ _ _ _ _ Hget).
            rewrite (PutValue_not_own invoke st b bo k v Hbo Hown_b Hextb), Hc.
            reflexivity. }
        apply (Hdefine (DataProperty v w e c)).
        intros p0 Hp0. discriminate.
      * eexists. split; [ | right; eauto].
        erewrite try_catch_Throw.
        2:{ rewrite (bind_M_Normal _ _ _ _ _ Hget).
            rewrite (PutValue_not_own invoke st b bo k v Hbo Hown_b Hextb), Hc, Hinh.
            reflexivity. }
        apply (Hdefine (DataProperty v w e c)).
        intros p0 Hp0. discriminate.
    + pose proof (lookup_chain_inherited h (heap st) b bo k _ Hbo Hown_b Hproto Hchain
                    ltac:(discriminate) Hext Hlen) as Hc.
      eexists. split; [ | right; eauto].
      apply try_catch_Normal.
      rewrite (bind_M_Normal _ _ _ _ _ Hget).
      rewrite (PutValue_not_own invoke st b bo k v Hbo Hown_b Hextb), Hc. reflexivity.
Qed.

Lemma transferProps_loop_plain keys : forall st bo,
  (forall l' o', h !! l' = Some o' -> heap st !! l' = Some o') ->
  heap st !! b = Some bo ->
  obj_proto bo = VObject FunctionPrototype ->
  obj_extensible bo = true ->
  data_only (obj_props bo) ->
  (forall k, In k keys ->
     buildInProps k = true
     \/ exists v w e c, own_property (obj_props fo) k = Some (DataProperty v w e c)
                        /\ inherits_no_setter h k = true) ->
  exists ps',
    transferProps_loop E invoke keys (VObject fn) (VObject b) st
    = (mkState (<[b := with_props bo ps']> (heap st)) (trace st), Normal tt)
    /\ transferred fo (obj_props bo) ps' keys.
Proof.
  induction keys as [ | key keys IH]; intros st bo Hext Hbo Hproto Hextb Hdata Hkeys.
  - exists (obj_props bo). simpl.
    rewrite with_props_id, (list_insert_id _ _ _ Hbo), state_eta.
    split; [reflexivity | ]. split; [exact Hdata | split].
    + reflexivity.
    + intros k v w e c [].
  - simpl.
    destruct (Hkeys key (or_introl eq_refl)) as [Hbi | [v1 [w1 [e1 [c1 [Hown1 Hinh1]]]]]].
    + (* a protected name *)
      rewrite (bind_M_Normal _ _ _ _ _ (transferProp_builtin _ _ _ st Hbi)).
      destruct (IH st bo Hext Hbo Hproto Hextb Hdata) as [ps' [Hrun [Hd [Hframe Hcopy]]]].
      { intros k Hk. apply Hkeys. right. exact Hk. }
      exists ps'. split; [exact Hrun | ]. split; [exact Hd | split].
      * intros k [Hk | Hk]; apply Hframe; [left | right; exact Hk].
        intros Hin. apply Hk. right. exact Hin.
      * intros k v w e c [<- | Hin] Hnb Hown; [congruence | ].
        apply (Hcopy k v w e c Hin Hnb Hown).
    + (* a plain static *)
      destruct (buildInProps key) eqn:Hbi.
      { rewrite (bind_M_Normal _ _ _ _ _ (transferProp_builtin _ _ _ st Hbi)).
        destruct (IH st bo Hext Hbo Hproto Hextb Hdata) as [ps' [Hrun [Hd [Hframe Hcopy]]]].
        { intros k Hk. apply Hkeys. right. exact Hk. }
        exists ps'. split; [exact Hrun | ]. split; [exact Hd | split].
        * intros k [Hk | Hk]; apply Hframe; [left | right; exact Hk].
          intros Hin. apply Hk. right. exact Hin.
        * intros k v w e c [<- | Hin] Hnb Hown; [congruence | ].
          apply (Hcopy k v w e c Hin Hnb Hown). }
      destruct (transferProp_data st bo key v1 w1 e1 c1 Hext Hbo Hproto Hextb Hdata Hbi
                  Hown1 Hinh1) as [ps1 [Hstep Hps1]].
      rewrite (bind_M_Normal _ _ _ _ _ Hstep).
      assert (Hblt : b < length (heap st)) by (apply lookup_lt_Some in Hbo; exact Hbo).
      assert (Hd1 : data_only ps1).
      { destruct Hps1 as [[-> _] | [w' [e' [c' ->]]]];
          [exact Hdata | apply data_only_put; exact Hdata]. }
      assert (Hother : forall k, k <> key -> own_property ps1 k = own_property (obj_props bo) k).
      { intros k Hne. destruct Hps1 as [[-> _] | [w' [e' [c' ->]]]]; [reflexivity | ].
        apply own_property_put_ne. congruence. }
      destruct (IH (mkState (<[b := with_props bo ps1]> (heap st)) (trace st))
                  (with_props bo ps1))
        as [ps2 [Hrun [Hd2 [Hframe Hcopy]]]].
      { intros l' o' Hl'. simpl. rewrite list_lookup_insert_ne; [apply Hext; exact Hl' | ].
        apply lookup_lt_Some in Hl'. lia. }
      { simpl. apply list_lookup_insert_eq. exact Hblt. }
      { exact Hproto. }
      { exact Hextb. }
      { exact Hd1. }
      { intros k Hk. apply Hkeys. right. exact Hk. }
      exists ps2. split.
      { rewrite Hrun. simpl. rewrite list_insert_insert_eq. reflexivity. }
      split; [exact Hd2 | split].
      * intros k Hk. simpl in Hframe. rewrite Hframe.
        -- apply Hother. intros ->. destruct Hk as [Hk | Hk]; [ | congruence].
           apply Hk. left. reflexivity.
        -- destruct Hk as [Hk | Hk]; [left | right; exact Hk].
           intros Hin. apply Hk. right. exact Hin.
      * intros k v w e c Hin Hnb Hown. simpl in Hframe, Hcopy.
        destruct (in_dec PropertyKey_eq_dec k keys) as [Hin' | Hnin].
        -- destruct (Hcopy k v w e c Hin' Hnb Hown)
             as [Hleft | [p0 [Hp0 [Hc0 Hp2]]]]; [left; exact Hleft | ].
           destruct (decide (k = key)) as [-> | Hne].
           ++ destruct Hps1 as [[-> _] | [w' [e' [c' ->]]]].
              ** right. exists p0. auto.
              ** rewrite own_property_put_eq in Hp0. injection Hp0 as <-.
                 left. rewrite Hown1 in Hown. injection Hown as <- _ _ _. eauto.
           ++ right. exists p0. rewrite <- (Hother k Hne). auto.
        -- destruct Hin as [<- | Hin]; [ | contradiction].
           rewrite (Hframe key (or_introl Hnin)).
           rewrite Hown1 in Hown. injection Hown as <- _ _ _.
           destruct Hps1 as [[-> [p0 [Hp0 Hc0]]] | [w' [e' [c' ->]]]].
           ++ right. exists p0. auto.
           ++ left. rewrite own_property_put_eq. eauto.
Qed.

End TransferFacts.

(** ** [bind] *)

Section BindFacts.

Variable E : Env.

Lemma CreateFunction_spec code name len st :
  CreateFunction code name len st
  = (mkState
       (heap st
        ++ [ mkObject (VObject FunctionPrototype) true
               (function_props name len
                ++ [ (KString "prototype",
                      DataProperty (VObject (length (heap st) + 1)) true false false) ])
               (Some code) true;
             mkObject (VObject ObjectPrototype) true
               [ (KString "constructor",
                  DataProperty (VObject (length (heap st))) true false true) ]
               None false ])
       (trace st),
     Normal (length (heap st))).
Proof.
  unfold CreateFunction, get_heap, alloc, bind_M, ret. simpl.
  rewrite <- app_assoc. reflexivity.
Qed.

Lemma CreateMethod_spec code name len st :
  CreateMethod code name len st
  = (mkState
       (heap st
        ++ [ mkObject (VObject FunctionPrototype) true (function_props name len)
               (Some code) false ])
       (trace st),
     Normal (length (heap st))).
Proof. reflexivity. Qed.

(** On a function that can be bound, [bind] returns the wrapper and
    leaves the store [bound_heap] describes; no code of the page runs. *)
Lemma bind_plain fuel st fn fo context fnPrototype :
  Bindable (heap st) fn fo fnPrototype ->
  exists ps,
    bind E (run E (S fuel)) (VObject fn) context st
    = (mkState (bound_heap (heap st) (VObject fn) context fnPrototype ps) (trace st),
       Normal (VObject (length (heap st))))
    /\ transferred fo (bound_props (length (heap st)) (VObject fn)) ps
         (OrdinaryOwnPropertyKeys fo).
Proof.
  intros [Hfn Hstat Hnat Hproto Hvalid].
  destruct st as [h tr]. cbn [heap trace] in *.
  unfold bind.
  rewrite (bind_M_Normal _ _ _ _ _ (CreateFunction_spec _ _ _ _)). cbn [heap trace].
  rewrite (bind_M_Normal _ _ _ _ _ (CreateFunction_spec _ _ _ _)). cbn [heap trace].
  rewrite <- app_assoc, !length_app. cbn [length app].
  replace (length h + 2 + 1) with (length h + 3) by lia.
  match goal with
  | |- context [h ++ ?B0 :: ?rest] => set (B := B0); set (tail := rest)
  end.
  assert (Hext : forall t l' o', h !! l' = Some o' -> (h ++ t) !! l' = Some o').
  { intros t l' o'. apply heap_extends. }
  assert (Hlen : forall x t, length h < length (h ++ x :: t)).
  { intros x t. rewrite length_app. simpl. lia. }
  (* bound.$native = fn *)
  erewrite bind_M_Normal.
  2:{ apply (PutValue_fresh _ h (mkState (h ++ B :: tail) tr) (length h) B).
      - apply list_lookup_middle. reflexivity.
      - reflexivity.
      - reflexivity.
      - reflexivity.
      - exact Hnat.
      - apply Hext.
      - apply Hlen. }
  cbn [heap trace]. rewrite insert_middle.
  change (put_property (obj_props B) (KString "$native")
            (DataProperty (VObject fn) true true true))
    with (bound_props (length h) (VObject fn)).
  set (B1 := with_props B (bound_props (length h) (VObject fn))).
  (* transferProps(fn, bound) *)
  destruct (transferProps_loop_plain E (run E (S fuel)) h fn fo (length h) Hfn (le_n _)
              (OrdinaryOwnPropertyKeys fo) (mkState (h ++ B1 :: tail) tr) B1)
    as [ps [Hloop Htransferred]].
  { apply Hext. }
  { apply list_lookup_middle. reflexivity. }
  { reflexivity. }
  { reflexivity. }
  { intros k p Hk. unfold B1, bound_props in Hk. simpl in Hk.
    repeat match type of Hk with
           | (if ?c then _ else _) = _ => destruct c
           end; try discriminate; injection Hk as <-; reflexivity. }
  { intros k Hk. apply (plain_statics_keys h fo k Hstat Hk). }
  exists ps. split; [ | exact Htransferred].
  cbn [heap trace] in Hloop. rewrite insert_middle in Hloop.
  unfold transferProps.
  erewrite bind_M_Normal.
  2:{ erewrite bind_M_Normal.
      2:{ apply Reflect_ownKeys_object. cbn [heap]. apply Hext. exact Hfn. }
      exact Hloop. }
  set (B2 := with_props B1 ps).
  destruct Htransferred as [Hdata [Hframe Hcopy]].
  (* fn.prototype *)
  assert (Hget : forall x t,
             GetV (run E (S fuel)) (VObject fn) (KString "prototype")
               (mkState (h ++ x :: t) tr)
             = (mkState (h ++ x :: t) tr, Normal fnPrototype)).
  { intros x t. apply GetV_data. cbn [heap].
    apply (data_lookup_stable h); [exact Hproto | apply Hext | ].
    rewrite length_app. lia. }
  rewrite (bind_M_Normal _ _ _ _ _ (Hget _ _)).
  assert (Hassign :
    (if ToBoolean fnPrototype
     then fnPrototype' <- GetV (run E (S fuel)) (VObject fn) (KString "prototype") ;;
          PutValue (run E (S fuel)) (VObject (length h + 2)) (KString "prototype")
            fnPrototype'
     else ret tt) (mkState (h ++ B2 :: tail) tr)
    = (mkState
         (h ++ [ B2;
                 mkObject (VObject ObjectPrototype) true
                   [ (KString "constructor",
                      DataProperty (VObject (length h)) true false true) ]
                   None false;
                 mkObject (VObject FunctionPrototype) true
                   (function_props "fNOP" 0
                    ++ [ (KString "prototype",
                          DataProperty (fNOP_prototype (length h) fnPrototype)
                            true false false) ])
                   (Some CodeFNOP) true;
                 mkObject (VObject ObjectPrototype) true
                   [ (KString "constructor",
                      DataProperty (VObject (length h + 2)) true false true) ]
                   None false ]) tr, Normal tt)).
  { unfold fNOP_prototype. destruct (ToBoolean fnPrototype).
    - rewrite (bind_M_Normal _ _ _ _ _ (Hget _ _)).
      erewrite PutValue_own_writable.
      2:{ cbn [heap]. rewrite lookup_new. reflexivity. }
      2:{ reflexivity. }
      cbn [heap trace]. rewrite insert_new. reflexivity.
    - reflexivity. }
  rewrite (bind_M_Normal _ _ _ _ _ Hassign). clear Hassign.
  (* new fNOP() *)
  unfold Construct.
  erewrite bind_M_Normal.
  2:{ eapply construct_fNOP.
      - cbn [heap]. rewrite lookup_new. reflexivity.
      - reflexivity.
      - reflexivity.
      - reflexivity. }
  cbn [heap trace]. rewrite <- app_assoc, length_app. cbn [length app].
  (* bound.prototype = new fNOP() *)
  assert (Hown_proto : own_property ps (KString "prototype")
                       = Some (DataProperty (VObject (length h + 1)) true false false)).
  { rewrite (Hframe (KString "prototype") (or_intror eq_refl)). reflexivity. }
  erewrite bind_M_Normal.
  2:{ eapply (PutValue_own_writable _ _ (length h) B2).
      - cbn [heap]. apply list_lookup_middle. reflexivity.
      - exact Hown_proto. }
  cbn [heap trace]. rewrite insert_middle.
  (* Object.defineProperty(bound, Symbol.hasInstance, ...) *)
  cbn [ToBoolean].
  erewrite bind_M_Normal.
  2:{ erewrite bind_M_Normal.
      2:{ apply CreateMethod_spec. }
      cbn [heap trace]. rewrite <- app_assoc, length_app. cbn [length app].
      erewrite bind_M_Normal.
      2:{ eapply (Object_defineProperty_new _ (length h)).
          - cbn [heap]. apply list_lookup_middle. reflexivity.
          - reflexivity.
          - unfold B2. cbn [obj_props with_props].
            rewrite own_property_put_ne by discriminate.
            rewrite (Hframe (KSymbol SymHasInstance) (or_intror eq_refl)). reflexivity.
          - reflexivity. }
      reflexivity. }
  cbn [heap trace]. rewrite insert_middle.
  reflexivity.
Qed.

End BindFacts.

(** ** The wrapper at work *)

Section RunFacts.

Variable E : Env.

(** Entering the function objects of the model. *)
Lemma run_bound fuel st l o fn context this args :
  heap st !! l = Some o ->
  obj_call o = Some (CodeBound fn context) ->
  run E (S fuel) (VObject l) (AsCall this) args st
  = bound_body (run E fuel) l fn context this args st.
Proof.
  intros Hl Hcall. cbn [run]. unfold invoke_step, deref, bind_M at 1.
  rewrite Hl, Hcall. reflexivity.
Qed.

Lemma run_hasInstance_method fuel st l o fn this args :
  heap st !! l = Some o ->
  obj_call o = Some (CodeHasInstance fn) ->
  run E (S fuel) (VObject l) (AsCall this) args st
  = hasInstance_body (run E fuel) fn (nth 0 args VUndefined) st.
Proof.
  intros Hl Hcall. cbn [run]. unfold invoke_step, deref, bind_M at 1.
  rewrite Hl, Hcall. reflexivity.
Qed.

Lemma run_intrinsic_hasInstance fuel st l o this args :
  heap st !! l = Some o ->
  obj_call o = Some CodeFunctionPrototypeHasInstance ->
  run E (S fuel) (VObject l) (AsCall this) args st
  = (b <- OrdinaryHasInstance (run E fuel) this (nth 0 args VUndefined) ;;
     ret (VBool b)) st.
Proof.
  intros Hl Hcall. cbn [run]. unfold invoke_step, deref, bind_M at 1.
  rewrite Hl, Hcall. reflexivity.
Qed.

Lemma run_intrinsic_apply fuel st l o this args :
  heap st !! l = Some o ->
  obj_call o = Some CodeFunctionPrototypeApply ->
  run E (S fuel) (VObject l) (AsCall this) args st
  = (callable <- IsCallable this ;;
     if callable then Call (run E fuel) this (nth 0 args VUndefined) (tl args)
     else throw TypeError) st.
Proof.
  intros Hl Hcall. cbn [run]. unfold invoke_step, deref, bind_M at 1.
  rewrite Hl, Hcall. reflexivity.
Qed.

Lemma run_host_function fuel st l o id this args :
  heap st !! l = Some o ->
  obj_call o = Some (CodeHost id) ->
  run E (S fuel) (VObject l) (AsCall this) args st
  = (emit (EvCall l this args) ;;; run_host (host_call E id l this args)) st.
Proof.
  intros Hl Hcall. cbn [run]. unfold invoke_step, deref, bind_M at 1.
  rewrite Hl, Hcall. reflexivity.
Qed.

Lemma run_bound_construct fuel st l o fn context newTarget args :
  heap st !! l = Some o ->
  obj_call o = Some (CodeBound fn context) ->
  obj_construct o = true ->
  run E (S fuel) (VObject l) (AsConstruct newTarget) args st
  = ordinary_construct (run E fuel)
      (fun this => bound_body (run E fuel) l fn context this args) newTarget st.
Proof.
  intros Hl Hcall Hcons. cbn [run]. unfold invoke_step, deref, bind_M at 1.
  rewrite Hl, Hcall, Hcons. reflexivity.
Qed.

Lemma run_host_construct fuel st l o id newTarget args :
  heap st !! l = Some o ->
  obj_call o = Some (CodeHost id) ->
  obj_construct o = true ->
  run E (S fuel) (VObject l) (AsConstruct newTarget) args st
  = (emit (EvConstruct l args newTarget) ;;;
     run_host (host_construct E id l args newTarget)) st.
Proof.
  intros Hl Hcall Hcons. cbn [run]. unfold invoke_step, deref, bind_M at 1.
  rewrite Hl, Hcall, Hcons. reflexivity.
Qed.

End RunFacts.

Lemma IsCallable_object st l o :
  heap st !! l = Some o ->
  IsCallable (VObject l) st = (st, Normal (has_field (obj_call o))).
Proof. intros Hl. unfold IsCallable, deref, bind_M, ret. rewrite Hl. reflexivity. Qed.

Lemma GetMethod_function invoke st l k f o :
  data_lookup (heap st) l k = Some (VObject f) ->
  heap st !! f = Some o ->
  has_field (obj_call o) = true ->
  GetMethod invoke (VObject l) k st = (st, Normal (VObject f)).
Proof.
  intros Hd Hf Hcall. unfold GetMethod.
  rewrite (bind_M_Normal _ _ _ _ _ (GetV_data invoke st l k _ Hd)).
  rewrite (bind_M_Normal _ _ _ _ _ (IsCallable_object st f o Hf)).
  rewrite Hcall. reflexivity.
Qed.

(** The test [isObject(op) || typeof op === 'function'] holds for the
    objects, callable or not, and for nothing else. *)
Lemma object_or_function_test st v :
  valid_value (heap st) v = true ->
  exists isObj t,
    isObject v st = (st, Normal isObj)
    /\ typeof v st = (st, Normal t)
    /\ isObj || bool_decide (t = "function") = is_object v.
Proof.
  intros Hv. unfold isObject.
  destruct v as [ | | b | x | z | s | y | l]; simpl in Hv.
  8:{ unfold typeof, deref, bind_M, ret.
      destruct (heap st !! l) as [o | ]; [ | discriminate].
      destruct (obj_call o); eexists _, _; (split; [reflexivity | split; reflexivity]). }
  all: eexists _, _; (split; [reflexivity | split; [reflexivity | ]]).
  all: cbn; rewrite ?andb_false_r; reflexivity.
Qed.

(** The method [bind] installs under [Symbol.hasInstance]: when
    [fn.prototype] is an object it asks [instance instanceof fn], and it
    answers [false] otherwise. *)
Lemma hasInstance_body_spec invoke st fn v instance :
  data_lookup (heap st) fn (KString "prototype") = Some v ->
  valid_value (heap st) v = true ->
  hasInstance_body invoke (VObject fn) instance st
  = if is_object v
    then (r <- InstanceofOperator invoke instance (VObject fn) ;; ret (VBool r)) st
    else (st, Normal (VBool false)).
Proof.
  intros Hd Hv. unfold hasInstance_body.
  rewrite (bind_M_Normal _ _ _ _ _ (GetV_data invoke st fn _ _ Hd)).
  destruct (object_or_function_test st v Hv) as [isObj [t [HisObj [Htypeof Htest]]]].
  rewrite (bind_M_Normal _ _ _ _ _ HisObj), (bind_M_Normal _ _ _ _ _ Htypeof), Htest.
  destruct (is_object v); reflexivity.
Qed.

Lemma valid_value_stable h hp v :
  valid_value h v = true ->
  (forall l o, h !! l = Some o -> hp !! l = Some o) ->
  valid_value hp v = true.
Proof.
  intros Hv Hext. destruct v; try exact Hv. simpl in *.
  destruct (h !! l) as [o | ] eqn:Hl; [ | discriminate].
  rewrite (Hext _ _ Hl). reflexivity.
Qed.

Lemma resolves_to_spec h fn k code :
  resolves_to h fn k code = true ->
  exists l o, data_lookup h fn k = Some (VObject l)
              /\ h !! l = Some o /\ obj_call o = Some code.
Proof.
  unfold resolves_to. intros H.
  destruct (data_lookup h fn k) as [[ | | | | | | | l] | ]; try discriminate.
  destruct (h !! l) as [o | ] eqn:Hl; [ | discriminate].
  apply bool_decide_eq_true_1 in H. eauto.
Qed.

Section WrapperFacts.

Variable E : Env.
Variable h : list JsObject.
Variable fn : loc.
Variable fo : JsObject.
Variable context : JsValue.
Variable v : JsValue.
Variable ps : list (PropertyKey * Property).
Hypothesis Hfn : h !! fn = Some fo.
Hypothesis Hproto : data_lookup h fn (KString "prototype") = Some v.
Hypothesis Hvalid : valid_value h v = true.

(** The store after [bind], and what was added to it since. *)
Lemma bound_heap_old extra l o :
  h !! l = Some o ->
  (bound_heap h (VObject fn) context v ps ++ extra) !! l = Some o.
Proof.
  intros Hl. unfold bound_heap. rewrite <- app_assoc. apply heap_extends. exact Hl.
Qed.

Lemma bound_heap_new extra i :
  (bound_heap h (VObject fn) context v ps ++ extra) !! (length h + i)
  = (bound_objects (length h) (VObject fn) context v ps ++ extra) !! i.
Proof. unfold bound_heap. rewrite <- app_assoc. apply lookup_new. Qed.

Lemma bound_heap_wrapper extra :
  (bound_heap h (VObject fn) context v ps ++ extra) !! length h
  = Some (mkObject (VObject FunctionPrototype) true (wrapper_props (length h) ps)
            (Some (CodeBound (VObject fn) context)) true).
Proof.
  unfold bound_heap. rewrite <- app_assoc. apply list_lookup_middle. reflexivity.
Qed.

Lemma bound_heap_length extra :
  length h <= length (bound_heap h (VObject fn) context v ps ++ extra).
Proof. unfold bound_heap. rewrite !length_app. lia. Qed.

Lemma wrapper_props_hasInstance :
  own_property (wrapper_props (length h) ps) (KSymbol SymHasInstance)
  = Some (DataProperty (VObject (length h + 5)) false false true).
Proof. unfold wrapper_props. apply own_property_put_eq. Qed.

Lemma wrapper_props_prototype :
  own_property (wrapper_props (length h) ps) (KString "prototype")
  = Some (DataProperty (VObject (length h + 4)) true false false).
Proof.
  unfold wrapper_props. rewrite own_property_put_ne by discriminate.
  apply own_property_put_eq.
Qed.

Lemma wrapper_props_other k :
  k <> KString "prototype" -> k <> KSymbol SymHasInstance ->
  own_property (wrapper_props (length h) ps) k = own_property ps k.
Proof.
  intros H1 H2. unfold wrapper_props.
  rewrite !own_property_put_ne by congruence. reflexivity.
Qed.

(** [x instanceof bound] on the wrapper that [bind] made: the method under
    [Symbol.hasInstance] decides. *)
Lemma instanceof_wrapper extra tr fuel x :
  InstanceofOperator (run E (S fuel)) x (VObject (length h))
    (mkState (bound_heap h (VObject fn) context v ps ++ extra) tr)
  = if is_object v
    then InstanceofOperator (run E fuel) x (VObject fn)
           (mkState (bound_heap h (VObject fn) context v ps ++ extra) tr)
    else (mkState (bound_heap h (VObject fn) context v ps ++ extra) tr, Normal false).
Proof.
  set (st := mkState (bound_heap h (VObject fn) context v ps ++ extra) tr).
  unfold InstanceofOperator at 1.
  erewrite bind_M_Normal.
  2:{ eapply (GetMethod_function _ st (length h) _ (length h + 5)).
      - unfold data_lookup. cbn [heap st].
        erewrite lookup_chain_own;
          [ | apply bound_heap_wrapper | apply wrapper_props_hasInstance ].
        reflexivity.
      - cbn [heap st]. rewrite bound_heap_new. reflexivity.
      - reflexivity. }
  cbn [is_undefined negb]. unfold Call.
  erewrite bind_M_result.
  2:{ erewrite (run_hasInstance_method E fuel st (length h + 5)).
      2:{ cbn [heap st]. rewrite bound_heap_new. reflexivity. }
      2:{ reflexivity. }
      cbn [nth].
      apply (hasInstance_body_spec _ st fn v).
      - apply (data_lookup_stable h); [exact Hproto | apply bound_heap_old | ].
        apply bound_heap_length.
      - apply (valid_value_stable h); [exact Hvalid | apply bound_heap_old]. }
  destruct (is_object v); [ | reflexivity].
  unfold bind_M, ret.
  destruct (InstanceofOperator (run E fuel) x (VObject fn) st) as [st' [[ | ] | e | | ]];
    reflexivity.
Qed.

(** [x instanceof fn] for an everyday function whose [prototype] is the
    object [fp]: is [fp] on the prototype chain of [x]? *)
Lemma instanceof_everyday st fuel x fp :
  Everyday h fn fo ->
  v = VObject fp ->
  (forall l o, h !! l = Some o -> heap st !! l = Some o) ->
  length h <= length (heap st) ->
  InstanceofOperator (run E (S fuel)) x (VObject fn) st
  = match inherits_from (heap st) x fp with
    | Some b => (st, Normal b)
    | None => (st, Stuck)
    end.
Proof.
  intros [Hcallable HhasInstance _] Hv Hext Hlen.
  apply resolves_to_spec in HhasInstance. destruct HhasInstance as [hi [ho [Hd [Hhi Hcode]]]].
  unfold InstanceofOperator.
  erewrite bind_M_Normal.
  2:{ eapply (GetMethod_function _ st fn _ hi ho).
      - apply (data_lookup_stable h); eauto.
      - apply Hext. exact Hhi.
      - rewrite Hcode. reflexivity. }
  cbn [is_undefined negb]. unfold Call.
  erewrite bind_M_cong.
  2:{ apply (run_intrinsic_hasInstance E fuel st hi ho _ _ (Hext _ _ Hhi) Hcode). }
  cbn [nth]. rewrite bind_M_ret_map. unfold OrdinaryHasInstance.
  rewrite (bind_M_Normal _ _ _ _ _ (IsCallable_object st fn fo (Hext _ _ Hfn))).
  rewrite Hcallable. cbn [negb].
  destruct x as [ | | b | y | z | s | y | lx]; try reflexivity.
  rewrite (bind_M_Normal _ _ _ _ _
             (GetV_data _ st fn _ _ (data_lookup_stable h _ _ _ _ Hproto Hext Hlen))).
  rewrite Hv. unfold get_heap, bind_M, ret, inherits_from.
  destruct (proto_chain_has (length (heap st)) (heap st) lx fp) as [[ | ] | ]; reflexivity.
Qed.

End WrapperFacts.

(** *** Re-parenting an object *)

(** A chain that ends inside the store [h] does not reach an object that
    is new to it, however the store grows. *)
Lemma chain_reaches_fresh fuel : forall h p t fuel' h' t',
  chain_reaches fuel h p t = Some false ->
  length h <= t' ->
  fuel <= fuel' ->
  (forall l o, h !! l = Some o -> h' !! l = Some o) ->
  chain_reaches fuel' h' p t' = Some false.
Proof.
  induction fuel as [ | fuel IH]; intros h p t fuel' h' t' Hr Ht' Hfuel Hext.
  - destruct p as [ | | | | | | | lp]; simpl in Hr;
      try (destruct fuel'; reflexivity).
    destruct (bool_decide (lp = t)); [discriminate | ].
    destruct (h !! lp); discriminate.
  - destruct fuel' as [ | fuel']; [lia | ].
    destruct p as [ | | | | | | | lp]; try reflexivity.
    simpl in Hr |- *.
    destruct (bool_decide (lp = t)); [discriminate | ].
    destruct (h !! lp) as [o | ] eqn:Hl; [ | discriminate].
    rewrite bool_decide_eq_false_2.
    2:{ apply lookup_lt_Some in Hl. lia. }
    rewrite (Hext _ _ Hl). eapply IH; eauto. lia.
Qed.

(** [Object.setPrototypeOf(obj, proto)] on an extensible object, where the
    chain of [proto] does not come back to [obj]. *)
Lemma Object_setPrototypeOf_object st l o p :
  heap st !! l = Some o ->
  obj_extensible o = true ->
  chain_reaches (length (heap st)) (heap st) (VObject p) l = Some false ->
  Object_setPrototypeOf (VObject l) (VObject p) st
  = (mkState (<[l := with_proto o (VObject p)]> (heap st)) (trace st),
     Normal (VObject l)).
Proof.
  intros Hl Hext Hchain.
  unfold Object_setPrototypeOf, OrdinarySetPrototypeOf, deref, get_heap, store,
    bind_M, ret.
  rewrite Hl. destruct (SameValue (VObject p) (obj_proto o)) eqn:Hsame.
  - apply bool_decide_eq_true in Hsame.
    assert (Hid : with_proto o (VObject p) = o).
    { unfold with_proto. rewrite Hsame. destruct o; reflexivity. }
    rewrite Hid, list_insert_id by exact Hl. destruct st; reflexivity.
  - rewrite Hext. cbn [negb]. rewrite Hchain. reflexivity.
Qed.

(** [Object.setPrototypeOf(obj, proto)] on an object that cannot be
    extended and has another prototype: a TypeError. *)
Lemma Object_setPrototypeOf_refused st l o p :
  heap st !! l = Some o ->
  obj_extensible o = false ->
  obj_proto o <> VObject p ->
  Object_setPrototypeOf (VObject l) (VObject p) st = (st, Throw TypeError).
Proof.
  intros Hl Hext Hne.
  unfold Object_setPrototypeOf, OrdinarySetPrototypeOf, deref, bind_M, ret.
  rewrite Hl. destruct (SameValue (VObject p) (obj_proto o)) eqn:Hsame.
  - apply bool_decide_eq_true in Hsame. congruence.
  - rewrite Hext. reflexivity.
Qed.

(** ** The claims about [bind] *)

Lemma Object_defineProperty_frame O k D st st' r l :
  Object_defineProperty O k D st = (st', r) ->
  O <> VObject l ->
  heap st' !! l = heap st !! l.
Proof.
  unfold Object_defineProperty, DefineOwnProperty, deref, store, bind_M, ret, throw.
  intros H Hne.
  destruct O as [ | | | | | | | lo]; try (injection H as <- _; reflexivity).
  destruct (IsAccessorDescriptor D && IsDataDescriptor D);
    [injection H as <- _; reflexivity | ].
  destruct (heap st !! lo) as [o | ]; [ | injection H as <- _; reflexivity].
  destruct (ValidateAndApplyPropertyDescriptor _ _ _);
    injection H as <- _; [ | reflexivity].
  simpl. apply list_lookup_insert_ne. congruence.
Qed.

(** An assignment that meets no setter writes to its receiver only. *)
Lemma PutValue_frame invoke O k v st st' r l :
  PutValue invoke O k v st = (st', r) ->
  (forall lo owner g s e c,
     O = VObject lo ->
     lookup_chain (length (heap st)) (heap st) lo k
     = Found owner (AccessorProperty g s e c) ->
     s = VUndefined) ->
  O <> VObject l ->
  heap st' !! l = heap st !! l.
Proof.
  unfold PutValue, get_heap, deref, store, bind_M, ret, throw, stuck.
  intros H Hset Hne.
  destruct O as [ | | | | | | | lo]; try (injection H as <- _; reflexivity).
  destruct (lookup_chain (length (heap st)) (heap st) lo k)
    as [owner [v0 [ | ] e0 c0 | g0 s0 e0 c0] | | ] eqn:Hc;
    try (injection H as <- _; reflexivity).
  - destruct (heap st !! lo) as [o | ]; [ | injection H as <- _; reflexivity].
    destruct (own_property (obj_props o) k) as [[v1 [ | ] e1 c1 | g1 s1 e1 c1] | ];
      try (injection H as <- _; reflexivity).
    + injection H as <- _. simpl. apply list_lookup_insert_ne. congruence.
    + destruct (obj_extensible o); injection H as <- _; [ | reflexivity].
      simpl. apply list_lookup_insert_ne. congruence.
  - rewrite (Hset lo owner g0 s0 e0 c0 eq_refl Hc) in H.
    injection H as <- _. reflexivity.
  - destruct (heap st !! lo) as [o | ]; [ | injection H as <- _; reflexivity].
    destruct (own_property (obj_props o) k) as [[v1 [ | ] e1 c1 | g1 s1 e1 c1] | ];
      try (injection H as <- _; reflexivity).
    + injection H as <- _. simpl. apply list_lookup_insert_ne. congruence.
    + destruct (obj_extensible o); injection H as <- _; [ | reflexivity].
      simpl. apply list_lookup_insert_ne. congruence.
Qed.

(** The scenes of the examples. *)
Lemma page_state_bindable : Bindable (heap page_state) 6 Widget (VObject 7).
Proof. constructor; reflexivity. Defined.

Lemma arrow_state_bindable : Bindable (heap arrow_state) 6 arrow_function VUndefined.
Proof. constructor; reflexivity. Defined.

Lemma page_state_everyday : Everyday (heap page_state) 6 Widget.
Proof. constructor; reflexivity. Defined.

(** C5 (as amended). For the wrapper [bound = bind(fn, ctx)] the instance
    check is overridden so that, for every value [x], [x instanceof bound]
    delegates to [x instanceof fn] if [fn.prototype] is an object or a
    function (the test [isObject(op) || typeof op === 'function'] on
    [op = fn.prototype]), and is [false] otherwise. *)
Theorem bound_instanceof_delegates
  (E : Env) (fuel fuel' : nat) (st : State) (fn : loc) (fo : JsObject)
  (context fnPrototype x : JsValue) :
  Bindable (heap st) fn fo fnPrototype ->
  exists st' bound,
    bind E (run E (S fuel)) (VObject fn) context st = (st', Normal (VObject bound))
    /\ GetV (run E fuel') (VObject fn) (KString "prototype") st'
       = (st', Normal fnPrototype)
    /\ (exists isObj t,
          isObject fnPrototype st' = (st', Normal isObj)
          /\ typeof fnPrototype st' = (st', Normal t)
          /\ isObj || bool_decide (t = "function") = is_object fnPrototype)
    /\ InstanceofOperator (run E (S fuel')) x (VObject bound) st'
       = if is_object fnPrototype
         then InstanceofOperator (run E fuel') x (VObject fn) st'
         else (st', Normal false).
Proof.
  intros Hb. destruct (bind_plain E fuel st fn fo context fnPrototype Hb) as [ps [Hbind _]].
  destruct Hb as [Hfn _ _ Hproto Hvalid].
  eexists _, _. split; [exact Hbind | ].
  assert (Hext : forall l o, heap st !! l = Some o ->
                   bound_heap (heap st) (VObject fn) context fnPrototype ps !! l = Some o).
  { intros l o Hl. unfold bound_heap. apply heap_extends. exact Hl. }
  assert (Hvalid' : valid_value (bound_heap (heap st) (VObject fn) context fnPrototype ps)
                      fnPrototype = true).
  { apply (valid_value_stable (heap st)); assumption. }
  split; [ | split].
  - apply GetV_data. cbn [heap]. apply (data_lookup_stable (heap st)); try assumption.
    unfold bound_heap. rewrite length_app. lia.
  - apply object_or_function_test. exact Hvalid'.
  - pose proof (instanceof_wrapper E (heap st) fn context fnPrototype ps Hproto
                  Hvalid [] (trace st) fuel' x) as H.
    rewrite app_nil_r in H. exact H.
Qed.

(** The claim at [Widget], whose prototype is an object: the instance check
    of the wrapper is the one of [Widget]. *)
Lemma bound_instanceof_delegates_witness :
  exists st' bound,
    bind (quiet_host false) (run (quiet_host false) 1) (VObject 6) VUndefined page_state
    = (st', Normal (VObject bound))
    /\ InstanceofOperator (run (quiet_host false) 2) (VObject 7) (VObject bound) st'
       = InstanceofOperator (run (quiet_host false) 1) (VObject 7) (VObject 6) st'.
Proof.
  destruct (bound_instanceof_delegates (quiet_host false) 0 1 page_state 6 Widget
              VUndefined (VObject 7) (VObject 7) page_state_bindable)
    as [st' [bound [Hbind [_ [_ Hinst]]]]].
  exists st', bound. split; [exact Hbind | exact Hinst].
Defined.

(** C5 as the specification words it fails on an arrow function: [fn] is
    callable, so [x instanceof bound] would have to do what [x instanceof fn]
    does, which is to throw a TypeError ([fn.prototype] is not an object);
    the wrapper answers [false]. *)
Lemma bound_instanceof_callable_fn_counterexample :
  snd (bind (quiet_host false) (run (quiet_host false) 1) (VObject 6) VUndefined
         arrow_state)
  = Normal (VObject 7)
  /\ snd (IsCallable (VObject 6) arrow_bound_state) = Normal true
  /\ snd (InstanceofOperator (run (quiet_host false) 3) (VObject 0) (VObject 7)
            arrow_bound_state)
     = Normal false
  /\ snd (InstanceofOperator (run (quiet_host false) 3) (VObject 0) (VObject 6)
            arrow_bound_state)
     = Throw TypeError
  /\ snd (InstanceofOperator (run (quiet_host false) 3) (VObject 0) (VObject 7)
            arrow_bound_state)
     <> snd (InstanceofOperator (run (quiet_host false) 3) (VObject 0) (VObject 6)
               arrow_bound_state).
Proof.
  repeat split; try (vm_compute; reflexivity).
  vm_compute. discriminate.
Qed.

(** C6 (as amended). [bind(fn, ctx)] always sets the prototype property of
    the wrapper to a fresh empty object. Its prototype link is
    [fn.prototype] when that is an object; when [fn.prototype] is falsy,
    as for a function without a prototype property, only the link to
    [fn.prototype] is skipped, and the fresh object inherits from the
    prototype object [fNOP] was created with; when it is a truthy primitive
    the fresh object inherits from [Object.prototype]. The prototype object
    of the wrapper is never the object [fn.prototype]: it is new in the
    store, [bind] leaves the objects of the old store alone, and defining a
    property on it changes no other object. *)
Theorem bind_prototype_is_fresh
  (E : Env) (fuel : nat) (st : State) (fn : loc) (fo : JsObject)
  (context fnPrototype : JsValue) :
  Bindable (heap st) fn fo fnPrototype ->
  exists st' bo instance proto,
    bind E (run E (S fuel)) (VObject fn) context st
    = (st', Normal (VObject (length (heap st))))
    /\ heap st' !! length (heap st) = Some bo
    /\ own_property (obj_props bo) (KString "prototype")
       = Some (DataProperty (VObject instance) true false false)
    /\ length (heap st) <= instance
    /\ fnPrototype <> VObject instance
    /\ heap st' !! instance = Some (mkObject proto true [] None false)
    /\ (is_object fnPrototype = true -> proto = fnPrototype)
    /\ (ToBoolean fnPrototype = true -> is_object fnPrototype = false ->
        proto = VObject ObjectPrototype)
    /\ (ToBoolean fnPrototype = false ->
        exists fNOP fNOP_object created_with,
          proto = VObject created_with
          /\ length (heap st) <= created_with
          /\ heap st' !! fNOP = Some fNOP_object
          /\ obj_call fNOP_object = Some CodeFNOP
          /\ heap st' !! created_with
             = Some (mkObject (VObject ObjectPrototype) true
                       [ (KString "constructor",
                          DataProperty (VObject fNOP) true false true) ]
                       None false))
    /\ (forall l o, heap st !! l = Some o -> heap st' !! l = Some o)
    /\ (forall k D st'' r l,
        Object_defineProperty (VObject instance) k D st' = (st'', r) ->
        l <> instance ->
        heap st'' !! l = heap st' !! l)
    /\ (forall invoke k value st'' r l,
        PutValue invoke (VObject instance) k value st' = (st'', r) ->
        (forall owner g s e c,
           lookup_chain (length (heap st')) (heap st') instance k
           = Found owner (AccessorProperty g s e c) ->
           s = VUndefined) ->
        l <> instance ->
        heap st'' !! l = heap st' !! l).
Proof.
  intros Hb. destruct (bind_plain E fuel st fn fo context fnPrototype Hb) as [ps [Hbind _]].
  destruct Hb as [Hfn _ _ Hproto Hvalid].
  exists (mkState (bound_heap (heap st) (VObject fn) context fnPrototype ps) (trace st)).
  eexists _, (length (heap st) + 4), _.
  split; [exact Hbind | ]. cbn [heap].
  split.
  { pose proof (bound_heap_wrapper (heap st) fn context fnPrototype ps []) as H.
    rewrite app_nil_r in H. exact H. }
  split; [apply wrapper_props_prototype | ].
  split; [lia | ].
  split.
  { intros ->. simpl in Hvalid.
    destruct (heap st !! (length (heap st) + 4)) eqn:Hl; [ | discriminate].
    apply lookup_lt_Some in Hl. lia. }
  split.
  { unfold bound_heap. rewrite lookup_new. reflexivity. }
  split.
  { destruct fnPrototype; try discriminate. reflexivity. }
  split.
  { intros Ht Ho. unfold fNOP_prototype. rewrite Ht.
    destruct fnPrototype; try reflexivity; discriminate. }
  split.
  { intros Hf. exists (length (heap st) + 2). eexists _, (length (heap st) + 3).
    unfold fNOP_prototype. rewrite Hf. cbn [instance_proto].
    split; [reflexivity | ]. split; [lia | ].
    unfold bound_heap. rewrite !lookup_new.
    split; [reflexivity | split; reflexivity]. }
  split.
  { intros l o Hl. unfold bound_heap. apply heap_extends. exact Hl. }
  split.
  { intros k D st'' r l Hdef Hne.
    apply (Object_defineProperty_frame _ _ _ _ _ _ _ Hdef). congruence. }
  intros invoke k value st'' r l Hput Hset Hne.
  apply (PutValue_frame _ _ _ _ _ _ _ _ Hput); [ | congruence].
  intros lo owner g s e c [= <-] Hc. exact (Hset _ _ _ _ _ Hc).
Qed.

(** The claim at [Widget]: the prototype object of the wrapper is the new
    object at place 12, which inherits from [Widget.prototype] at place 7. *)
Lemma bind_prototype_is_fresh_witness :
  exists st' bo,
    bind (quiet_host false) (run (quiet_host false) 1) (VObject 6) VUndefined page_state
    = (st', Normal (VObject 8))
    /\ heap st' !! 8 = Some bo
    /\ own_property (obj_props bo) (KString "prototype")
       = Some (DataProperty (VObject 12) true false false)
    /\ heap st' !! 12 = Some (mkObject (VObject 7) true [] None false).
Proof.
  destruct (bind_prototype_is_fresh (quiet_host false) 0 page_state 6 Widget VUndefined
              (VObject 7) page_state_bindable)
    as [st' [bo [instance [proto [Hbind [Hbo [Hown [_ [_ [Hinst [Hproto _]]]]]]]]]]].
  exists st', bo. split; [exact Hbind | ]. split; [exact Hbo | ].
  assert (Hi : instance = 12).
  { unfold page_state in Hbind. vm_compute in Hbind. injection Hbind as <-.
    vm_compute in Hbo. injection Hbo as <-. vm_compute in Hown.
    injection Hown as <-. reflexivity. }
  subst instance. split; [exact Hown | ].
  rewrite Hinst, (Hproto eq_refl). reflexivity.
Defined.

(** C6 as the specification words it fails on a function without a
    prototype property: the setup is not skipped as a whole. The wrapper
    at place 7 no longer has the prototype object it was created with, but
    the instance of [fNOP] at place 11, an empty object that inherits from
    the prototype object of [fNOP] at place 10. *)
Lemma bind_prototype_setup_not_skipped_counterexample :
  own_property (obj_props arrow_function) (KString "prototype") = None
  /\ snd (bind (quiet_host false) (run (quiet_host false) 1) (VObject 6) VUndefined
            arrow_state)
     = Normal (VObject 7)
  /\ ~ prototype_setup_skipped arrow_bound_state 7
  /\ heap arrow_bound_state !! 11 = Some (mkObject (VObject 10) true [] None false).
Proof.
  split; [reflexivity | ]. split; [vm_compute; reflexivity | ].
  split; [ | vm_compute; reflexivity].
  intros [bo [Hbo Hown]]. vm_compute in Hbo. injection Hbo as <-.
  vm_compute in Hown. discriminate.
Qed.

(** The names [transferProps] passes over. *)
Lemma buildInProps_spec k :
  buildInProps k = true
  <-> k ∈ [ KString "length"; KString "caller"; KString "callee";
            KString "arguments"; KString "prototype"; KSymbol SymHasInstance ].
Proof. unfold buildInProps, makeMap. apply bool_decide_eq_true. Qed.

(** C7 (as amended). For every function [fn] whose statics are plain
    (data properties, with no setter under their names on the objects every
    function inherits from) and every own data property [k] of [fn],
    enumerable or not, the wrapper [bind(fn, ctx)] has an own data property
    [k] with the same value and [bound[k]] reads that value, unless [k] is
    one of the protected names [length], [caller], [callee], [arguments],
    [prototype], [Symbol.hasInstance]: under those the wrapper has what it
    would have whatever the statics of [fn] are. A turn of [transferProps]
    for a name that the target already defines as a non-configurable
    property writes nothing. *)
Theorem bind_transfers_statics
  (E : Env) (fuel : nat) (st : State) (fn : loc) (fo : JsObject)
  (context fnPrototype : JsValue) :
  Bindable (heap st) fn fo fnPrototype ->
  exists st' bo,
    bind E (run E (S fuel)) (VObject fn) context st
    = (st', Normal (VObject (length (heap st))))
    /\ heap st' !! length (heap st) = Some bo
    /\ (forall k value w e c,
        own_property (obj_props fo) k = Some (DataProperty value w e c) ->
        buildInProps k = false ->
        (exists w' e' c',
           own_property (obj_props bo) k = Some (DataProperty value w' e' c'))
        /\ forall invoke,
             GetV invoke (VObject (length (heap st))) k st' = (st', Normal value))
    /\ (forall k, buildInProps k = true ->
        own_property (obj_props bo) k
        = own_property
            (wrapper_props (length (heap st))
               (bound_props (length (heap st)) (VObject fn))) k)
    /\ (forall k,
        buildInProps k = true
        <-> k ∈ [ KString "length"; KString "caller"; KString "callee";
                  KString "arguments"; KString "prototype"; KSymbol SymHasInstance ])
    /\ (forall invoke s so t to k p0 stx,
        heap stx !! s = Some so ->
        heap stx !! t = Some to ->
        own_property (obj_props to) k = Some p0 ->
        prop_configurable p0 = false ->
        transferProp E invoke (VObject s) (VObject t) k stx = (stx, Normal tt)).
Proof.
  intros Hb.
  destruct (bind_plain E fuel st fn fo context fnPrototype Hb)
    as [ps [Hbind [Hdata [Hframe Hcopy]]]].
  destruct Hb as [Hfn _ _ Hproto Hvalid].
  pose proof (bound_heap_wrapper (heap st) fn context fnPrototype ps []) as Hw.
  rewrite app_nil_r in Hw.
  eexists _, _. split; [exact Hbind | ]. cbn [heap].
  split; [exact Hw | ]. cbn [obj_props].
  split; [ | split; [ | split; [exact buildInProps_spec | ]]].
  - intros k value w e c Hown Hnb.
    assert (Hk1 : k <> KString "prototype") by (intros ->; discriminate).
    assert (Hk2 : k <> KSymbol SymHasInstance) by (intros ->; discriminate).
    assert (Hps : exists w' e' c', own_property ps k = Some (DataProperty value w' e' c')).
    { destruct (Hcopy k value w e c) as [Hleft | [p0 [Hp0 [Hc0 _]]]]; try assumption.
      - apply OrdinaryOwnPropertyKeys_spec, own_property_keys. eauto.
      - exfalso. unfold bound_props in Hp0. simpl in Hp0.
        repeat match type of Hp0 with
               | (if bool_decide (?a = ?b) then _ else _) = _ =>
                   destruct (bool_decide_reflect (a = b))
               end; try discriminate;
          injection Hp0 as <-; try discriminate.
        subst k. discriminate. }
    destruct Hps as [w' [e' [c' Hps]]].
    rewrite (wrapper_props_other (heap st) ps k Hk1 Hk2).
    split; [eauto | ].
    intros invoke. apply GetV_data. unfold data_lookup. cbn [heap].
    erewrite lookup_chain_own; [ | exact Hw | ].
    2:{ cbn [obj_props]. rewrite (wrapper_props_other (heap st) ps k Hk1 Hk2). exact Hps. }
    reflexivity.
  - intros k Hk.
    destruct (decide (k = KString "prototype")) as [-> | Hk1].
    { rewrite !wrapper_props_prototype. reflexivity. }
    destruct (decide (k = KSymbol SymHasInstance)) as [-> | Hk2].
    { rewrite !wrapper_props_hasInstance. reflexivity. }
    rewrite !wrapper_props_other by assumption.
    apply Hframe. right. exact Hk.
  - intros invoke s so t to k p0 stx. apply transferProp_skip.
Qed.

(** The claim at [Widget]: the wrapper has the static [version]. *)
Lemma bind_transfers_statics_witness :
  exists st',
    bind (quiet_host false) (run (quiet_host false) 1) (VObject 6) VUndefined page_state
    = (st', Normal (VObject 8))
    /\ GetV (run (quiet_host false) 1) (VObject 8) (KString "version") st'
       = (st', Normal (VString "1.0")).
Proof.
  destruct (bind_transfers_statics (quiet_host false) 0 page_state 6 Widget VUndefined
              (VObject 7) page_state_bindable)
    as [st' [bo [Hbind [_ [Hcopy _]]]]].
  exists st'. split; [exact Hbind | ].
  exact (proj2 (Hcopy (KString "version") (VString "1.0") true true true eq_refl eq_refl)
           (run (quiet_host false) 1)).
Defined.

(** C7 as the specification words it fails on a function with an own
    enumerable property named [__proto__]: the name is not protected, yet
    the assignment [bound["__proto__"] = 5] reaches the setter that every
    object inherits from [Object.prototype], which ignores a number. The
    wrapper gets no such property, and [bound.__proto__] reads
    [Function.prototype]. *)
Lemma bind_transfers_statics_counterexample :
  own_property (obj_props Odd) (KString "__proto__")
  = Some (DataProperty (VNumber (number_of_nat 5)) true true true)
  /\ buildInProps (KString "__proto__") = false
  /\ snd (bind (quiet_host false) (run (quiet_host false) 1) (VObject 6) VUndefined
            odd_state)
     = Normal (VObject 8)
  /\ (exists bo, heap odd_bound_state !! 8 = Some bo
                 /\ own_property (obj_props bo) (KString "__proto__") = None)
  /\ snd (GetV (run (quiet_host false) 1) (VObject 8) (KString "__proto__")
            odd_bound_state)
     = Normal (VObject FunctionPrototype)
  /\ snd (GetV (run (quiet_host false) 1) (VObject 8) (KString "__proto__")
            odd_bound_state)
     <> Normal (VNumber (number_of_nat 5)).
Proof.
  split; [reflexivity | ]. split; [reflexivity | ].
  split; [vm_compute; reflexivity | ].
  split.
  { eexists. split; [vm_compute; reflexivity | reflexivity]. }
  split; [vm_compute; reflexivity | ].
  vm_compute. discriminate.
Qed.

(** C4 (as amended). Let [fn] be an everyday function that can be bound
    and whose [prototype] is an object. The wrapper [bound] that
    [bind(fn, ctx)] returns has as its [prototype] a new empty object that
    inherits from [fn.prototype] and is not [fn.prototype] itself.
    Invoked as a constructor, [new bound(...args)] does this, for a function
    [fn] of the page.
    - [fn] is a constructor, the chain of [fn.prototype] ends, and the
      construction of [fn] from the arguments only adds objects to the store
      and returns an object that was not in the store before and can be
      extended: [fn] is constructed once, from the arguments and with itself
      as [new.target]; the object it returned gets the prototype object of
      the wrapper as its prototype, nothing else changes; that object is
      returned, and it is an instance of [fn] and of the wrapper.
    - [fn] is no constructor: a TypeError, and [fn] is not run.
    - The construction only adds objects to the store and returns an object
      that cannot be extended and has another prototype than the prototype
      object of the wrapper: [fn] is constructed once and the re-parenting
      throws a TypeError.
    - The construction throws: [new bound(...args)] throws the same.
    Whatever the construction does, [new bound(...args)] takes the
    construction branch on its new receiver.
    Invoked as a plain call with a receiver that is no instance of [fn], as
    in [bound(...args)] where the receiver is no object, it calls [fn] with
    the context [ctx] and the same arguments and returns what [fn]
    returns. *)
Theorem bound_constructs_or_forwards
  (E : Env) (fuel fuel' : nat) (st : State) (fn fp : loc) (fo : JsObject)
  (context : JsValue) (args : list JsValue) :
  Bindable (heap st) fn fo (VObject fp) ->
  Everyday (heap st) fn fo ->
  exists st' bound instance,
    bind E (run E (S fuel)) (VObject fn) context st = (st', Normal (VObject bound))
    /\ GetV (run E fuel') (VObject bound) (KString "prototype") st'
       = (st', Normal (VObject instance))
    /\ heap st' !! instance = Some (mkObject (VObject fp) true [] None false)
    /\ instance <> fp
    /\ (forall id news obj made,
        obj_call fo = Some (CodeHost id) ->
        obj_construct fo = true ->
        chain_reaches (length (heap st)) (heap st) (VObject fp) (length (heap st))
        = Some false ->
        host_construct E id fn args (VObject fn)
          (heap st' ++ [mkObject (VObject instance) true [] None false])
        = (heap st' ++ mkObject (VObject instance) true [] None false :: news,
           Normal (VObject obj)) ->
        length (heap st') <= obj ->
        (heap st' ++ mkObject (VObject instance) true [] None false :: news) !! obj
        = Some made ->
        obj_extensible made = true ->
        exists st2,
          run E (3 + fuel') (VObject bound) (AsConstruct (VObject bound)) args st'
          = (st2, Normal (VObject obj))
          /\ heap st2
             = <[obj := with_proto made (VObject instance)]>
                 (heap st' ++ mkObject (VObject instance) true [] None false :: news)
          /\ trace st2 = trace st' ++ [EvConstruct fn args (VObject fn)]
          /\ InstanceofOperator (run E (1 + fuel')) (VObject obj) (VObject fn) st2
             = (st2, Normal true)
          /\ InstanceofOperator (run E (2 + fuel')) (VObject obj) (VObject bound) st2
             = (st2, Normal true))
    /\ (obj_construct fo = false ->
        run E (3 + fuel') (VObject bound) (AsConstruct (VObject bound)) args st'
        = (mkState (heap st' ++ [mkObject (VObject instance) true [] None false])
             (trace st'), Throw TypeError))
    /\ (forall id news obj made,
        obj_call fo = Some (CodeHost id) ->
        obj_construct fo = true ->
        host_construct E id fn args (VObject fn)
          (heap st' ++ [mkObject (VObject instance) true [] None false])
        = (heap st' ++ mkObject (VObject instance) true [] None false :: news,
           Normal (VObject obj)) ->
        (heap st' ++ mkObject (VObject instance) true [] None false :: news) !! obj
        = Some made ->
        obj_extensible made = false ->
        obj_proto made <> VObject instance ->
        run E (3 + fuel') (VObject bound) (AsConstruct (VObject bound)) args st'
        = (mkState (heap st' ++ mkObject (VObject instance) true [] None false :: news)
             (trace st' ++ [EvConstruct fn args (VObject fn)]), Throw TypeError))
    /\ (forall id h2 x,
        obj_call fo = Some (CodeHost id) ->
        obj_construct fo = true ->
        host_construct E id fn args (VObject fn)
          (heap st' ++ [mkObject (VObject instance) true [] None false])
        = (h2, Throw x) ->
        run E (3 + fuel') (VObject bound) (AsConstruct (VObject bound)) args st'
        = (mkState h2 (trace st' ++ [EvConstruct fn args (VObject fn)]), Throw x))
    /\ (forall this,
        inherits_from (heap st') this fp = Some false ->
        run E (3 + fuel') (VObject bound) (AsCall this) args st'
        = run E (1 + fuel') (VObject fn) (AsCall context) args st')
    /\ (forall this, is_object this = false ->
        inherits_from (heap st') this fp = Some false)
    /\ (forall id,
        obj_call fo = Some (CodeHost id) ->
        run E (1 + fuel') (VObject fn) (AsCall context) args st'
        = (emit (EvCall fn context args) ;;;
           run_host (host_call E id fn context args)) st')
    /\ run E (3 + fuel') (VObject bound) (AsConstruct (VObject bound)) args st'
       = (this <- alloc (mkObject (VObject instance) true [] None false) ;;
          result <- construct_and_reparent (run E (2 + fuel')) bound (VObject fn) args ;;
          match result with
          | VObject _ => ret result
          | _ => ret (VObject this)
          end) st'
    /\ (forall id st2,
        obj_call fo = Some (CodeHost id) ->
        obj_construct fo = true ->
        heap st2 !! fn = Some fo ->
        Construct (run E (2 + fuel')) (VObject fn) args (VObject fn) st2
        = (emit (EvConstruct fn args (VObject fn)) ;;;
           run_host (host_construct E id fn args (VObject fn))) st2).
Proof.
  intros Hb Hev.
  destruct (bind_plain E fuel st fn fo context (VObject fp) Hb) as [ps [Hbind _]].
  destruct Hb as [Hfn _ _ Hproto Hvalid].
  set (h := heap st) in *.
  set (hb := bound_heap h (VObject fn) context (VObject fp) ps) in *.
  set (st' := mkState hb (trace st)) in *.
  set (W := mkObject (VObject FunctionPrototype) true (wrapper_props (length h) ps)
              (Some (CodeBound (VObject fn) context)) true).
  set (T := mkObject (VObject (length h + 4)) true [] None false).
  set (tr2 := trace st ++ [EvConstruct fn args (VObject fn)]).
  assert (Hfp : fp < length h).
  { simpl in Hvalid. destruct (h !! fp) eqn:Hl; [ | discriminate].
    apply lookup_lt_Some in Hl. exact Hl. }
  assert (Hold : forall extra l o, h !! l = Some o -> (hb ++ extra) !! l = Some o).
  { intros extra l o. apply bound_heap_old. }
  assert (Hold0 : forall l o, h !! l = Some o -> hb !! l = Some o).
  { intros l o Hl. apply heap_extends. exact Hl. }
  assert (HW : forall extra, (hb ++ extra) !! length h = Some W).
  { intros extra. apply bound_heap_wrapper. }
  assert (HW0 : hb !! length h = Some W).
  { rewrite <- (app_nil_r hb). apply HW. }
  assert (HI : forall extra,
             (hb ++ extra) !! (length h + 4)
             = Some (mkObject (VObject fp) true [] None false)).
  { intros extra. unfold hb, bound_heap. rewrite <- app_assoc, lookup_new. reflexivity. }
  assert (Hlen : length hb = length h + 6).
  { unfold hb, bound_heap. rewrite length_app. reflexivity. }
  assert (Hget : forall invoke extra tr,
             GetV invoke (VObject (length h)) (KString "prototype")
               (mkState (hb ++ extra) tr)
             = (mkState (hb ++ extra) tr, Normal (VObject (length h + 4)))).
  { intros invoke extra tr. apply GetV_data. unfold data_lookup. cbn [heap].
    erewrite lookup_chain_own; [ | apply HW | apply wrapper_props_prototype ].
    reflexivity. }
  assert (Hst' : st' = mkState (hb ++ []) (trace st)).
  { unfold st'. rewrite app_nil_r. reflexivity. }
  assert (Hinst : forall extra tr f x ox,
             (hb ++ extra) !! x = Some ox ->
             obj_proto ox = VObject (length h + 4) ->
             InstanceofOperator (run E (S (S f))) (VObject x) (VObject (length h))
               (mkState (hb ++ extra) tr)
             = (mkState (hb ++ extra) tr, Normal true)
             /\ InstanceofOperator (run E (S f)) (VObject x) (VObject fn)
                  (mkState (hb ++ extra) tr)
                = (mkState (hb ++ extra) tr, Normal true)).
  { intros extra tr f x ox Hx Hpx.
    assert (Hfn_check :
              InstanceofOperator (run E (S f)) (VObject x) (VObject fn)
                (mkState (hb ++ extra) tr)
              = (mkState (hb ++ extra) tr, Normal true)).
    { rewrite (instanceof_everyday E h fn fo (VObject fp) Hfn Hproto
                 (mkState (hb ++ extra) tr) f (VObject x) fp Hev eq_refl).
      - unfold inherits_from. cbn [heap].
        assert (Hpos : exists m, length (hb ++ extra) = S m).
        { rewrite length_app, Hlen. exists (length h + 5 + length extra). lia. }
        destruct Hpos as [m ->].
        erewrite (proto_chain_has_second m (hb ++ extra) x (length h + 4) fp ox).
        + reflexivity.
        + exact Hx.
        + exact Hpx.
        + lia.
        + apply HI.
        + reflexivity.
      - cbn [heap]. apply Hold.
      - cbn [heap]. rewrite length_app. lia. }
    split; [ | exact Hfn_check].
    pose proof (instanceof_wrapper E h fn context (VObject fp) ps Hproto Hvalid extra
                  tr (S f) (VObject x)) as Hiw.
    fold hb in Hiw. cbn [is_object] in Hiw. rewrite Hiw. exact Hfn_check. }
  assert (HT : (hb ++ [T]) !! length hb = Some T).
  { apply list_lookup_middle. reflexivity. }
  (* new bound(...args) comes to the construction branch *)
  assert (Hnew :
    run E (S (S (S fuel'))) (VObject (length h)) (AsConstruct (VObject (length h))) args st'
    = (result <- construct_and_reparent (run E (S (S fuel'))) (length h) (VObject fn) args ;;
       match result with
       | VObject _ => ret result
       | _ => ret (VObject (length hb))
       end) (mkState (hb ++ [T]) (trace st))).
  { rewrite (run_bound_construct E (S (S fuel')) st' (length h) W _ _ _ _ HW0 eq_refl eq_refl).
    unfold ordinary_construct, OrdinaryCreateFromConstructor.
    assert (Hcreate :
      (proto <- GetV (run E (S (S fuel'))) (VObject (length h)) (KString "prototype") ;;
       alloc (mkObject (match proto with
                        | VObject _ => proto
                        | _ => VObject ObjectPrototype
                        end) true [] None false)) st'
      = (mkState (hb ++ [T]) (trace st), Normal (length hb))).
    { rewrite Hst' at 1. rewrite (bind_M_Normal _ _ _ _ _ (Hget _ [] _)).
      unfold alloc. cbn [heap trace]. rewrite app_nil_r. reflexivity. }
    rewrite (bind_M_Normal _ _ _ _ _ Hcreate).
    apply bind_M_cong.
    unfold bound_body, handlerParams.
    rewrite (bind_M_Normal _ _ _ _ _
               (proj1 (Hinst [T] (trace st) fuel' (length hb) T HT eq_refl))).
    reflexivity. }
  (* new fn(...args) reaches the host *)
  assert (Hcons : forall id,
    obj_call fo = Some (CodeHost id) -> obj_construct fo = true ->
    Construct (run E (S (S fuel'))) (VObject fn) args (VObject fn)
      (mkState (hb ++ [T]) (trace st))
    = (let (h2, r) := host_construct E id fn args (VObject fn) (hb ++ [T]) in
       (mkState h2 tr2, r))).
  { intros id Hid Hc. unfold Construct.
    rewrite (run_host_construct E (S fuel') (mkState (hb ++ [T]) (trace st))
               fn fo id (VObject fn) args (Hold [T] _ _ Hfn) Hid Hc).
    unfold emit, run_host, bind_M. cbn [heap trace]. reflexivity. }
  exists st', (length h), (length h + 4).
  change (3 + fuel') with (S (S (S fuel'))).
  change (2 + fuel') with (S (S fuel')).
  change (1 + fuel') with (S fuel').
  cbn [heap trace st']. fold T.
  split; [exact Hbind | ].
  split; [rewrite Hst'; apply Hget | ].
  split; [rewrite <- (app_nil_r hb); apply HI | ].
  split; [lia | ].
  split; [ | split; [ | split; [ | split; [ | split; [ | split; [ | split; [ | split]]]]]]].
  - (* constructed, re-parented, returned *)
    intros id news obj made Hid Hc Hends Hhost Hobj Hmade Hext.
    set (h2 := hb ++ T :: news) in *.
    set (M' := with_proto made (VObject (length h + 4))).
    assert (Hi : obj = length hb + (obj - length hb)) by lia.
    assert (Hh2 : <[obj := M']> h2 = hb ++ <[obj - length hb := M']> (T :: news)).
    { rewrite Hi at 1. apply insert_new. }
    assert (HM : (<[obj := M']> h2) !! obj = Some M').
    { apply list_lookup_insert_eq. apply lookup_lt_Some in Hmade. exact Hmade. }
    exists (mkState (<[obj := M']> h2) tr2). cbn [heap trace].
    split; [ | split; [reflexivity | split; [reflexivity | ]]].
    + rewrite Hnew.
      erewrite bind_M_Normal.
      2:{ unfold construct_and_reparent.
          erewrite bind_M_Normal.
          2:{ rewrite (Hcons id Hid Hc), Hhost. reflexivity. }
          rewrite (bind_M_Normal _ _ _ _ _ (Hget _ (T :: news) tr2)).
          erewrite bind_M_Normal.
          2:{ apply (Object_setPrototypeOf_object (mkState h2 tr2) obj made);
                [exact Hmade | exact Hext | ].
              cbn [heap].
              assert (Hl2 : length h2 = S (length h + 6 + length news)).
              { unfold h2. rewrite length_app, Hlen. cbn [length]. lia. }
              rewrite Hl2. cbn [chain_reaches].
              rewrite bool_decide_eq_false_2 by lia.
              unfold h2. rewrite HI. cbn [obj_proto].
              eapply (chain_reaches_fresh (length h) h); [exact Hends | lia | lia | ].
              intros l o. apply Hold. }
          reflexivity. }
      reflexivity.
    + rewrite Hh2 in HM |- *.
      destruct (Hinst (<[obj - length hb := M']> (T :: news)) tr2 fuel' obj M' HM eq_refl)
        as [H1 H2].
      split; [exact H2 | exact H1].
  - (* fn is no constructor *)
    intros Hc. rewrite Hnew. unfold construct_and_reparent, Construct.
    erewrite bind_M_Throw; [reflexivity | ].
    erewrite bind_M_Throw; [reflexivity | ].
    cbn [run]. unfold invoke_step, deref, bind_M at 1. cbn [heap].
    rewrite (Hold [T] _ _ Hfn).
    destruct Hev as [Hcallable _ _].
    destruct (obj_call fo) as [code | ]; [ | discriminate].
    rewrite Hc. reflexivity.
  - (* the instance cannot be re-parented *)
    intros id news obj made Hid Hc Hhost Hmade Hext Hne.
    rewrite Hnew. unfold construct_and_reparent.
    erewrite bind_M_Throw; [reflexivity | ].
    erewrite bind_M_Normal.
    2:{ rewrite (Hcons id Hid Hc), Hhost. reflexivity. }
    rewrite (bind_M_Normal _ _ _ _ _ (Hget _ (T :: news) tr2)).
    erewrite bind_M_Throw; [reflexivity | ].
    apply (Object_setPrototypeOf_refused (mkState (hb ++ T :: news) tr2) obj made);
      assumption.
  - (* the construction throws *)
    intros id h2 x Hid Hc Hhost.
    rewrite Hnew. unfold construct_and_reparent.
    erewrite bind_M_Throw; [reflexivity | ].
    erewrite bind_M_Throw; [reflexivity | ].
    rewrite (Hcons id Hid Hc), Hhost. reflexivity.
  - (* bound(...args) with a receiver that is no instance *)
    intros this Hthis.
    rewrite (run_bound E (S (S fuel')) st' (length h) W _ _ _ _ HW0 eq_refl).
    unfold bound_body, handlerParams.
    erewrite bind_M_Normal.
    2:{ rewrite Hst'.
        pose proof (instanceof_wrapper E h fn context (VObject fp) ps Hproto Hvalid []
                      (trace st) (S fuel') this) as Hiw.
        fold hb in Hiw. cbn [is_object] in Hiw. rewrite Hiw. clear Hiw.
        rewrite (instanceof_everyday E h fn fo (VObject fp) Hfn Hproto
                   (mkState (hb ++ []) (trace st)) fuel' this fp Hev eq_refl).
        - cbn [heap]. rewrite app_nil_r. rewrite Hthis. reflexivity.
        - cbn [heap]. apply Hold.
        - cbn [heap]. rewrite length_app. lia. }
    change (mkState hb (trace st)) with st'.
    destruct Hev as [Hcallable _ Happly].
    apply resolves_to_spec in Happly. destruct Happly as [ap [ao [Hd [Hap Hcode]]]].
    erewrite bind_M_Normal.
    2:{ apply GetV_data. cbn [heap st'].
        apply (data_lookup_stable h); [exact Hd | exact Hold0 | lia]. }
    unfold Call.
    rewrite (run_intrinsic_apply E (S fuel') st' ap ao _ _ (Hold0 _ _ Hap) Hcode).
    rewrite (bind_M_Normal _ _ _ _ _ (IsCallable_object st' fn fo (Hold0 _ _ Hfn))).
    rewrite Hcallable. reflexivity.
  - intros this Hthis. destruct this; try discriminate; reflexivity.
  - intros id Hid.
    apply (run_host_function E fuel' st' fn fo id context args (Hold0 _ _ Hfn) Hid).
  - (* the construction branch, whatever the constructor does *)
    rewrite Hnew.
    rewrite (bind_M_Normal (alloc T) _ st' (mkState (hb ++ [T]) (trace st)) (length hb)
               eq_refl).
    reflexivity.
  - intros id st2 Hid Hc Hfn2. unfold Construct.
    apply (run_host_construct E (S fuel') st2 fn fo id (VObject fn) args Hfn2 Hid Hc).
Qed.

(** The claim at [Widget]: the prototype object of the wrapper inherits
    from [Widget.prototype] at place 7; [new bound(true)] constructs
    [Widget] once and returns the object at place 15, an instance of
    [Widget]; the plain call [bound(true)] reaches the host as a call of
    [Widget] with the context [undefined]. *)
Lemma bound_constructs_or_forwards_witness :
  exists st' st2,
    bind (quiet_host false) (run (quiet_host false) 1) (VObject 6) VUndefined page_state
    = (st', Normal (VObject 8))
    /\ heap st' !! 12 = Some (mkObject (VObject 7) true [] None false)
    /\ run (quiet_host false) 3 (VObject 8) (AsConstruct (VObject 8)) [VBool true] st'
       = (st2, Normal (VObject 15))
    /\ heap st2 !! 15 = Some (mkObject (VObject 12) true [] None false)
    /\ trace st2 = [EvConstruct 6 [VBool true] (VObject 6)]
    /\ InstanceofOperator (run (quiet_host false) 1) (VObject 15) (VObject 6) st2
       = (st2, Normal true)
    /\ run (quiet_host false) 3 (VObject 8) (AsCall VUndefined) [VBool true] st'
       = (emit (EvCall 6 VUndefined [VBool true]) ;;;
          run_host (host_call (quiet_host false) 0 6 VUndefined [VBool true])) st'.
Proof.
  destruct (bound_constructs_or_forwards (quiet_host false) 0 0 page_state 6 7 Widget
              VUndefined [VBool true] page_state_bindable page_state_everyday)
    as [st' [bound [instance [Hbind [Hget [Hinst [_ [Hnew [_ [_ [_ [Hcall [Hno [Hhost _]]]]]]]]]]]]]].
  assert (Hst : st' = page_bound_state).
  { unfold page_bound_state. rewrite Hbind. reflexivity. }
  assert (Hbound : bound = 8).
  { assert (H : snd (bind (quiet_host false) (run (quiet_host false) 1) (VObject 6)
                       VUndefined page_state) = Normal (VObject 8)) by reflexivity.
    rewrite Hbind in H. injection H as H. exact H. }
  subst st' bound.
  assert (Hinstance : instance = 12).
  { assert (H : snd (GetV (run (quiet_host false) 0) (VObject 8) (KString "prototype")
                       page_bound_state) = Normal (VObject 12)) by reflexivity.
    rewrite Hget in H. injection H as H. exact H. }
  subst instance.
  destruct (Hnew 0 [mkObject (VObject ObjectPrototype) true [] None false] 15
              (mkObject (VObject ObjectPrototype) true [] None false)
              eq_refl eq_refl eq_refl eq_refl)
    as [st2 [Hrun [Hheap [Htrace [Hfn _]]]]].
  { vm_compute. lia. }
  { reflexivity. }
  { reflexivity. }
  exists page_bound_state, st2.
  split; [exact Hbind | ]. split; [exact Hinst | ]. split; [exact Hrun | ].
  split; [rewrite Hheap; reflexivity | ].
  split; [exact Htrace | ]. split; [exact Hfn | ].
  exact (eq_trans (Hcall VUndefined (Hno VUndefined eq_refl)) (Hhost 0 eq_refl)).
Defined.

(** C4 as the specification words it fails twice. On an arrow function,
    which has no prototype property, [new bound(true)] constructs nothing:
    it calls [fn] with the context and returns the fresh receiver, where
    constructing [fn] would throw a TypeError. And a plain call whose
    receiver is an instance of the wrapper, here the object at place 15
    that [new bound()] returned, constructs [Widget] instead of calling it
    with the context. *)
Lemma bound_constructs_or_forwards_counterexample :
  (snd (run (quiet_host false) 3 (VObject 7) (AsConstruct (VObject 7)) [VBool true]
          arrow_bound_state)
   = Normal (VObject 13)
   /\ trace (fst (run (quiet_host false) 3 (VObject 7) (AsConstruct (VObject 7))
                    [VBool true] arrow_bound_state))
      = [EvCall 6 VUndefined [VBool true]]
   /\ snd (construct_and_reparent (run (quiet_host false) 3) 7 (VObject 6) [VBool true]
             arrow_bound_state)
      = Throw TypeError)
  /\ (snd (run (quiet_host false) 3 (VObject 8) (AsConstruct (VObject 8)) []
             page_bound_state)
      = Normal (VObject 15)
      /\ trace (fst (run (quiet_host false) 3 (VObject 8) (AsCall (VObject 15))
                       [VBool true]
                       (fst (run (quiet_host false) 3 (VObject 8)
                               (AsConstruct (VObject 8)) [] page_bound_state))))
         = [EvConstruct 6 [] (VObject 6); EvConstruct 6 [VBool true] (VObject 6)]).
Proof.
  repeat split; vm_compute; reflexivity.
Qed.



(* ===================================================================== *)
(** ** More on the descriptor checks *)
(* ===================================================================== *)

(** What the descriptor checks do to the state: nothing, apart from the
    one warning of a development build. *)
Lemma verifySetterDescriptor_state DEV target p newValue st :
  fst (verifySetterDescriptor DEV target p newValue st)
  = match snd (verifySetterDescriptor DEV target p newValue st) with
    | Normal n =>
        if DEV && (n =? 1)%Z
        then mkState (heap st) (trace st ++ [EvWarnNonConfigurable p])
        else st
    | _ => st
    end.
Proof.
  unfold verifySetterDescriptor, Object_getOwnPropertyDescriptor, GetOwnProperty,
    deref, bind_M, ret, throw, warn, emit.
  destruct target as [ | | b | n | z | s | s | l]; simpl;
    rewrite ?andb_false_r; try reflexivity.
  - destruct (string_own_property s p) as [[v w e c | g s' e c] | ]; simpl;
      rewrite ?andb_false_r; try reflexivity.
    + destruct c, w; simpl; rewrite ?andb_false_r; try reflexivity.
      destruct (Object_is newValue v); simpl; rewrite ?andb_false_r; try reflexivity.
      destruct DEV; reflexivity.
    + destruct c; simpl; rewrite ?andb_false_r; try reflexivity.
      destruct s'; simpl; rewrite ?andb_false_r; reflexivity.
  - destruct (heap st !! l) as [o | ]; simpl; rewrite ?andb_false_r; try reflexivity.
    destruct (own_property (obj_props o) p) as [[v w e c | g s' e c] | ]; simpl;
      rewrite ?andb_false_r; try reflexivity.
    + destruct c, w; simpl; rewrite ?andb_false_r; try reflexivity.
      destruct (Object_is newValue v); simpl; rewrite ?andb_false_r; try reflexivity.
      destruct DEV; reflexivity.
    + destruct c; simpl; rewrite ?andb_false_r; try reflexivity.
      destruct s'; simpl; rewrite ?andb_false_r; reflexivity.
Qed.

Lemma verifyGetterDescriptor_state DEV target p newValue st :
  fst (verifyGetterDescriptor DEV target p newValue st)
  = match snd (verifyGetterDescriptor DEV target p newValue st) with
    | Normal n =>
        if DEV && (n =? 1)%Z
        then mkState (heap st) (trace st ++ [EvWarnNonConfigurable p])
        else st
    | _ => st
    end.
Proof.
  unfold verifyGetterDescriptor, Object_getOwnPropertyDescriptor, GetOwnProperty,
    deref, bind_M, ret, throw, warn, emit.
  destruct target as [ | | b | n | z | s | s | l]; simpl;
    rewrite ?andb_false_r; try reflexivity.
  - destruct (string_own_property s p) as [[v w e c | g s' e c] | ]; simpl;
      rewrite ?andb_false_r; try reflexivity.
    + destruct c, w; simpl; rewrite ?andb_false_r; try reflexivity.
      destruct (Object_is newValue v); simpl; rewrite ?andb_false_r; try reflexivity.
      destruct DEV; reflexivity.
    + destruct c; simpl; rewrite ?andb_false_r; try reflexivity.
      destruct g; simpl; rewrite ?andb_false_r; reflexivity.
  - destruct (heap st !! l) as [o | ]; simpl; rewrite ?andb_false_r; try reflexivity.
    destruct (own_property (obj_props o) p) as [[v w e c | g s' e c] | ]; simpl;
      rewrite ?andb_false_r; try reflexivity.
    + destruct c, w; simpl; rewrite ?andb_false_r; try reflexivity.
      destruct (Object_is newValue v); simpl; rewrite ?andb_false_r; try reflexivity.
      destruct DEV; reflexivity.
    + destruct c; simpl; rewrite ?andb_false_r; try reflexivity.
      destruct g; simpl; rewrite ?andb_false_r; reflexivity.
Qed.

(** The verdict of a check on any value: the one of the own property that
    [Object.getOwnPropertyDescriptor] finds, a TypeError on [undefined] and
    [null]. *)
Lemma verifySetterDescriptor_value DEV target p newValue st :
  snd (verifySetterDescriptor DEV target p newValue st)
  = match GetOwnProperty target p st with
    | (_, Normal own) => Normal (verdict_code (classifyForSet own newValue))
    | (_, Throw e) => Throw e
    | (_, Stuck) => Stuck
    | (_, Diverge) => Diverge
    end.
Proof.
  unfold verifySetterDescriptor, Object_getOwnPropertyDescriptor, bind_M at 1 2.
  destruct (GetOwnProperty target p st) as [st' [own | e | | ]]; try reflexivity.
  unfold ret at 1. cbn [fmap option_fmap option_map].
  unfold classifyForSet, bind_M, ret, warn, emit.
  destruct own as [[v w e c | g s e c] | ]; simpl;
    [ destruct c, w; simpl; try reflexivity;
      destruct (Object_is newValue v); simpl; try reflexivity;
      destruct DEV; reflexivity
    | destruct c; simpl; try reflexivity; destruct s; reflexivity
    | reflexivity ].
Qed.

Lemma verifyGetterDescriptor_value DEV target p newValue st :
  snd (verifyGetterDescriptor DEV target p newValue st)
  = match GetOwnProperty target p st with
    | (_, Normal own) => Normal (verdict_code (classifyForGet own newValue))
    | (_, Throw e) => Throw e
    | (_, Stuck) => Stuck
    | (_, Diverge) => Diverge
    end.
Proof.
  unfold verifyGetterDescriptor, Object_getOwnPropertyDescriptor, bind_M at 1 2.
  destruct (GetOwnProperty target p st) as [st' [own | e | | ]]; try reflexivity.
  unfold ret at 1. cbn [fmap option_fmap option_map].
  unfold classifyForGet, bind_M, ret, warn, emit.
  destruct own as [[v w e c | g s e c] | ]; simpl;
    [ destruct c, w; simpl; try reflexivity;
      destruct (Object_is newValue v); simpl; try reflexivity;
      destruct DEV; reflexivity
    | destruct c; simpl; try reflexivity; destruct g; reflexivity
    | reflexivity ].
Qed.

(** X8. The two predicates on the descriptors [Object.getOwnPropertyDescriptor]
    hands out: exactly one of them holds of the descriptor of a property that
    exists, and it has all four fields of its kind; none holds of [undefined].
    On descriptors written by hand they are not exclusive: both fail on the
    empty descriptor, both hold of one that has [value] and [get]. *)
Theorem descriptor_kinds_partition
  (O : JsValue) (P : PropertyKey) (st st' : State) (desc : option PropertyDescriptor) :
  Object_getOwnPropertyDescriptor O P st = (st', Normal desc) ->
  st' = st
  /\ match desc with
     | None => isDataDescriptor desc = false /\ isAccessorDescriptor desc = false
     | Some d =>
         isDataDescriptor desc = negb (isAccessorDescriptor desc)
         /\ has_field (desc_enumerable d) = true
         /\ has_field (desc_configurable d) = true
         /\ (isDataDescriptor desc = true ->
             has_field (desc_value d) = true /\ has_field (desc_writable d) = true)
         /\ (isAccessorDescriptor desc = true ->
             has_field (desc_get d) = true /\ has_field (desc_set d) = true)
     end
  /\ isDataDescriptor (Some (mkDesc None None None None None None))
     || isAccessorDescriptor (Some (mkDesc None None None None None None)) = false
  /\ (forall v g,
      isDataDescriptor (Some (mkDesc (Some v) None (Some g) None None None))
      && isAccessorDescriptor (Some (mkDesc (Some v) None (Some g) None None None))
      = true).
Proof.
  intros Hd.
  assert (H : st' = st /\ exists own, desc = FromPropertyDescriptor <$> own).
  { unfold Object_getOwnPropertyDescriptor, GetOwnProperty, bind_M, deref, ret, throw
      in Hd.
    destruct O as [ | | b | n | z | s | s | l]; simpl in Hd; try discriminate;
      try (injection Hd as <- <-; split; [reflexivity | ];
           first [exists None; reflexivity | eexists; reflexivity]).
    destruct (heap st !! l) as [o | ]; simpl in Hd; [ | discriminate].
    injection Hd as <- <-. split; [reflexivity | eexists; reflexivity]. }
  destruct H as [-> [own ->]].
  split; [reflexivity | ]. split; [ | split; [reflexivity | reflexivity]].
  destruct own as [[v w e c | g s e c] | ]; simpl; repeat split; try discriminate.
Qed.

(** The property at the read-only [nan] of [fixed_object]. *)
Lemma descriptor_kinds_partition_witness :
  isDataDescriptor (Some (FromPropertyDescriptor (DataProperty NaN false true false)))
  = negb (isAccessorDescriptor
            (Some (FromPropertyDescriptor (DataProperty NaN false true false)))).
Proof.
  exact (proj1 (proj1 (proj2
    (descriptor_kinds_partition (VObject 6) (KString "nan") fixed_state fixed_state
       (Some (FromPropertyDescriptor (DataProperty NaN false true false)))
       eq_refl)))).
Defined.

(** X1. The checks throw a TypeError on [undefined] and [null], where
    [Object.getOwnPropertyDescriptor] throws, and on nothing else; the state is
    as it was. [verifySetter] throws when the alternate target and the receiver
    are falsy and the target is [undefined] or [null], and never when one of the
    first two is truthy. *)
Theorem checks_throw_without_target
  (DEV : bool) (target : JsValue) (p : PropertyKey) (v : JsValue) (st : State) :
  (target = VUndefined \/ target = VNull ->
   verifyGetterDescriptor DEV target p v st = (st, Throw TypeError)
   /\ verifySetterDescriptor DEV target p v st = (st, Throw TypeError)
   /\ forall proxyTarget receiver,
        ToBoolean proxyTarget = false -> ToBoolean receiver = false ->
        verifySetter DEV proxyTarget target p v receiver st = (st, Throw TypeError))
  /\ (forall e,
      snd (verifyGetterDescriptor DEV target p v st) = Throw e
      \/ snd (verifySetterDescriptor DEV target p v st) = Throw e ->
      e = TypeError /\ (target = VUndefined \/ target = VNull))
  /\ (forall proxyTarget receiver e,
      snd (verifySetter DEV proxyTarget target p v receiver st) = Throw e ->
      e = TypeError
      /\ ToBoolean proxyTarget = false /\ ToBoolean receiver = false
      /\ (target = VUndefined \/ target = VNull)).
Proof.
  assert (Hthrow : forall t e,
            snd (GetOwnProperty t p st) = Throw e ->
            e = TypeError /\ (t = VUndefined \/ t = VNull)).
  { intros t e. unfold GetOwnProperty, bind_M, deref, ret, throw.
    destruct t as [ | | b | n | z | s | s | l]; simpl; try discriminate;
      try (intros [= <-]; split; [reflexivity | tauto]).
    destruct (heap st !! l); discriminate. }
  assert (Hset : forall t e,
            snd (verifySetterDescriptor DEV t p v st) = Throw e ->
            e = TypeError /\ (t = VUndefined \/ t = VNull)).
  { intros t e. rewrite verifySetterDescriptor_value.
    pose proof (Hthrow t e) as Ht.
    destruct (GetOwnProperty t p st) as [st' [own | e' | | ]]; try discriminate.
    intros [= ->]. apply Ht. reflexivity. }
  split; [ | split].
  - intros [-> | ->]; (split; [reflexivity | split; [reflexivity | ]]);
      intros proxyTarget receiver Hp Hr; unfold verifySetter; rewrite Hp, Hr;
      reflexivity.
  - intros e [He | He]; [ | exact (Hset target e He)].
    rewrite verifyGetterDescriptor_value in He.
    pose proof (Hthrow target e) as Ht.
    destruct (GetOwnProperty target p st) as [st' [own | e' | | ]]; try discriminate.
    injection He as ->. apply Ht. reflexivity.
  - intros proxyTarget receiver e He.
    unfold verifySetter, bind_M in He.
    destruct (verifySetterDescriptor DEV _ p v st) as [st' [n | e' | | ]] eqn:Hv;
      try discriminate.
    simpl in He. injection He as ->.
    pose proof (Hset _ e ltac:(rewrite Hv; reflexivity)) as [-> Ht].
    split; [reflexivity | ].
    destruct (ToBoolean proxyTarget) eqn:Hp.
    { destruct Ht as [-> | ->]; discriminate. }
    destruct (ToBoolean receiver) eqn:Hr.
    { destruct Ht as [-> | ->]; discriminate. }
    tauto.
Qed.

(** The set trap on [undefined] with no alternate target and no receiver. *)
Lemma checks_throw_without_target_witness :
  verifySetter true VUndefined VUndefined (KString "plain") (VBool true) VNull fixed_state
  = (fixed_state, Throw TypeError).
Proof.
  exact (proj2 (proj2 (proj1
    (checks_throw_without_target true VUndefined (KString "plain") (VBool true)
       fixed_state) (or_introl eq_refl))) VUndefined VNull eq_refl eq_refl).
Defined.

(** X2. On a primitive value that is not a string the checks find no own
    property and return 0. On a primitive string the characters and [length] are
    non-configurable and read-only, as on its wrapper object: writing the length
    it has over [length] is a write that changes nothing (3), any other value is
    refused (1); names the string does not have give 0. *)
Theorem checks_on_primitive_targets
  (DEV : bool) (p : PropertyKey) (v : JsValue) (st : State) :
  (forall target,
     match target with
     | VBool _ | VNumber _ | VBigInt _ | VSymbol _ => True
     | _ => False
     end ->
     verifyGetterDescriptor DEV target p v st = (st, Normal 0%Z)
     /\ verifySetterDescriptor DEV target p v st = (st, Normal 0%Z))
  /\ (forall s,
     snd (verifySetterDescriptor DEV (VString s) (KString "length") v st)
     = Normal (if Object_is v (VNumber (number_of_nat (String.length s)))
               then 3%Z else 1%Z)
     /\ snd (verifyGetterDescriptor DEV (VString s) (KString "length") v st)
        = Normal (if Object_is v (VNumber (number_of_nat (String.length s)))
                  then 0%Z else 1%Z))
  /\ (forall s index i,
     canonical_index index = Some i ->
     (i < N.of_nat (String.length s))%N ->
     snd (verifySetterDescriptor DEV (VString s) (KString index) v st)
     = Normal (if Object_is v (VString (substring (N.to_nat i) 1 s))
               then 3%Z else 1%Z))
  /\ (forall s,
     string_own_property s p = None ->
     verifyGetterDescriptor DEV (VString s) p v st = (st, Normal 0%Z)
     /\ verifySetterDescriptor DEV (VString s) p v st = (st, Normal 0%Z)).
Proof.
  split; [ | split; [ | split]].
  - intros target Ht.
    destruct target; try contradiction; split; reflexivity.
  - intros s. rewrite verifySetterDescriptor_value, verifyGetterDescriptor_value.
    simpl. destruct (Object_is v _); split; reflexivity.
  - intros s index i Hi Hlt. rewrite verifySetterDescriptor_value. simpl.
    destruct (bool_decide (index = "length")) eqn:Hlen.
    { apply bool_decide_eq_true in Hlen. subst index. discriminate. }
    rewrite Hi. apply N.ltb_lt in Hlt. rewrite Hlt. simpl.
    destruct (Object_is v _); reflexivity.
  - intros s Hnone.
    pose proof (verifyGetterDescriptor_state DEV (VString s) p v st) as Hg.
    pose proof (verifySetterDescriptor_state DEV (VString s) p v st) as Hs.
    pose proof (verifyGetterDescriptor_value DEV (VString s) p v st) as Hgv.
    pose proof (verifySetterDescriptor_value DEV (VString s) p v st) as Hsv.
    simpl in Hgv, Hsv. rewrite Hnone in Hgv, Hsv. simpl in Hgv, Hsv.
    rewrite Hgv in Hg. rewrite Hsv in Hs. simpl in Hg, Hs.
    rewrite andb_false_r in Hg, Hs.
    destruct (verifyGetterDescriptor DEV (VString s) p v st) as [s1 r1].
    destruct (verifySetterDescriptor DEV (VString s) p v st) as [s2 r2].
    simpl in *. subst. split; reflexivity.
Qed.

(** The set check on the string ["abc"]: its length is 3. *)
Lemma checks_on_primitive_targets_witness :
  snd (verifySetterDescriptor false (VString "abc") (KString "1") (VString "b")
         fixed_state)
  = Normal 3%Z
  /\ verifySetterDescriptor false (VNumber (number_of_nat 7)) (KString "length")
       (VBool true) fixed_state
     = (fixed_state, Normal 0%Z).
Proof.
  split.
  - exact (proj1 (proj2 (proj2
      (checks_on_primitive_targets false (KString "1") (VString "b") fixed_state)))
      "abc" "1" 1%N eq_refl eq_refl).
  - exact (proj2 (proj1
      (checks_on_primitive_targets false (KString "length") (VBool true) fixed_state)
      (VNumber (number_of_nat 7)) I)).
Defined.

(** X3. The checks never write to the store, and log nothing but the one
    warning: a development build warns exactly when a check returns 1, a
    production build never. [verifySetter] does what its set check does. *)
Theorem checks_leave_store_alone
  (DEV : bool) (target : JsValue) (p : PropertyKey) (v : JsValue) (st : State) :
  heap (fst (verifyGetterDescriptor DEV target p v st)) = heap st
  /\ heap (fst (verifySetterDescriptor DEV target p v st)) = heap st
  /\ trace (fst (verifyGetterDescriptor DEV target p v st))
     = trace st
       ++ match snd (verifyGetterDescriptor DEV target p v st) with
          | Normal n => if DEV && (n =? 1)%Z then [EvWarnNonConfigurable p] else []
          | _ => []
          end
  /\ trace (fst (verifySetterDescriptor DEV target p v st))
     = trace st
       ++ match snd (verifySetterDescriptor DEV target p v st) with
          | Normal n => if DEV && (n =? 1)%Z then [EvWarnNonConfigurable p] else []
          | _ => []
          end
  /\ (forall proxyTarget receiver,
      fst (verifySetter DEV proxyTarget target p v receiver st)
      = fst (verifySetterDescriptor DEV
               (if ToBoolean proxyTarget then proxyTarget
                else if ToBoolean receiver then receiver else target) p v st)).
Proof.
  pose proof (verifyGetterDescriptor_state DEV target p v st) as Hg.
  pose proof (verifySetterDescriptor_state DEV target p v st) as Hs.
  destruct (verifyGetterDescriptor DEV target p v st) as [s1 [n1 | e1 | | ]];
    destruct (verifySetterDescriptor DEV target p v st) as [s2 [n2 | e2 | | ]];
    simpl in Hg, Hs |- *; subst;
    repeat match goal with
           | |- context [if ?b then _ else _] => destruct b
           end; simpl; rewrite ?app_nil_r;
    (repeat split; try reflexivity);
    intros proxyTarget receiver; unfold verifySetter, bind_M;
    destruct (verifySetterDescriptor DEV _ p v st) as [s3 [n3 | e3 | | ]]; reflexivity.
Qed.

(** X4. The two checks agree on the verdict 1 and on the warning that comes with
    it: the get check refuses a value for a property exactly when the set check
    refuses to write it; where the set check reports a write that changes
    nothing (3) the get check lets the value pass (0); they throw together. They
    differ only on accessors, where one looks at the getter and the other at the
    setter. *)
Theorem getter_and_setter_checks_agree
  (DEV : bool) (target : JsValue) (p : PropertyKey) (v : JsValue) (st : State) :
  (snd (verifyGetterDescriptor DEV target p v st) = Normal 1%Z
   <-> snd (verifySetterDescriptor DEV target p v st) = Normal 1%Z)
  /\ (snd (verifySetterDescriptor DEV target p v st) = Normal 3%Z ->
      snd (verifyGetterDescriptor DEV target p v st) = Normal 0%Z)
  /\ fst (verifyGetterDescriptor DEV target p v st)
     = fst (verifySetterDescriptor DEV target p v st)
  /\ (forall e,
      snd (verifyGetterDescriptor DEV target p v st) = Throw e
      <-> snd (verifySetterDescriptor DEV target p v st) = Throw e)
  /\ (forall n m,
      snd (verifyGetterDescriptor DEV target p v st) = Normal n ->
      snd (verifySetterDescriptor DEV target p v st) = Normal m ->
      n <> 2%Z -> m <> 2%Z ->
      n = (if (m =? 3)%Z then 0%Z else m)).
Proof.
  assert (H1 : snd (verifyGetterDescriptor DEV target p v st) = Normal 1%Z
               <-> snd (verifySetterDescriptor DEV target p v st) = Normal 1%Z).
  { rewrite verifyGetterDescriptor_value, verifySetterDescriptor_value.
    destruct (GetOwnProperty target p st) as [st' [own | e | | ]]; try tauto.
    unfold classifyForGet, classifyForSet.
    destruct own as [[x w e c | g s e c] | ]; simpl; try tauto.
    - destruct c; simpl; try tauto. destruct w; simpl; try tauto.
      destruct (Object_is v x); simpl; try tauto. split; discriminate.
    - destruct c; simpl; try tauto.
      destruct (is_undefined g), (is_undefined s); simpl; split; discriminate. }
  split; [exact H1 | ]. split; [ | split; [ | split]].
  - rewrite verifyGetterDescriptor_value, verifySetterDescriptor_value.
    destruct (GetOwnProperty target p st) as [st' [own | e | | ]]; try discriminate.
    unfold classifyForGet, classifyForSet.
    destruct own as [[x w e c | g s e c] | ]; simpl; try discriminate.
    + destruct c; simpl; try discriminate. destruct w; simpl; try discriminate.
      destruct (Object_is v x); simpl; [reflexivity | discriminate].
    + destruct c; simpl; try discriminate.
      destruct (is_undefined s); discriminate.
  - clear H1. rewrite verifyGetterDescriptor_state, verifySetterDescriptor_state.
    rewrite verifyGetterDescriptor_value, verifySetterDescriptor_value.
    destruct (GetOwnProperty target p st) as [st' [own | e | | ]]; try reflexivity.
    unfold classifyForGet, classifyForSet.
    destruct own as [[x w e c | g s e c] | ]; simpl; rewrite ?andb_false_r;
      try reflexivity.
    + destruct c; simpl; rewrite ?andb_false_r; try reflexivity.
      destruct w; simpl; rewrite ?andb_false_r; try reflexivity.
      destruct (Object_is v x); simpl; rewrite ?andb_false_r; reflexivity.
    + destruct c; simpl; rewrite ?andb_false_r; try reflexivity.
      destruct (is_undefined g), (is_undefined s); simpl; rewrite ?andb_false_r;
        reflexivity.
  - intros e. rewrite verifyGetterDescriptor_value, verifySetterDescriptor_value.
    destruct (GetOwnProperty target p st) as [st' [own | e' | | ]]; try tauto.
    split; discriminate.
  - intros n m. rewrite verifyGetterDescriptor_value, verifySetterDescriptor_value.
    destruct (GetOwnProperty target p st) as [st' [own | e' | | ]]; try discriminate.
    unfold classifyForGet, classifyForSet.
    destruct own as [[x w e c | g s e c] | ]; simpl.
    + destruct c; simpl; [intros [= <-] [= <-] _ _; reflexivity | ].
      destruct w; simpl; [intros [= <-] [= <-] _ _; reflexivity | ].
      destruct (Object_is v x); simpl; intros [= <-] [= <-] _ _; reflexivity.
    + destruct c; simpl; [intros [= <-] [= <-] _ _; reflexivity | ].
      destruct (is_undefined g), (is_undefined s); simpl; intros [= <-] [= <-] Hn Hm;
        try reflexivity; contradiction.
    + intros [= <-] [= <-] _ _; reflexivity.
Qed.

(** The two checks at the read-only [negzero] of [fixed_object], asked
    about [+0]: both refuse. *)
Lemma getter_and_setter_checks_agree_witness :
  snd (verifyGetterDescriptor true (VObject 6) (KString "negzero") pos_zero fixed_state)
  = Normal 1%Z.
Proof.
  exact (proj2 (proj1
    (getter_and_setter_checks_agree true (VObject 6) (KString "negzero") pos_zero
       fixed_state)) eq_refl).
Defined.

(** X5. A verdict of the set check other than 0 is only given where the object
    itself refuses the write: under each of the verdicts 1, 2 and 3 the strict
    assignment [target[p] = v] throws a TypeError and changes nothing. Under the
    verdict 3 the read [target[p]] already gives [v], so reporting success for
    the write that was not done is sound. 0 is no promise: an assignment to a
    read-only property that is still configurable throws although the check lets
    it pass. *)
Theorem set_verdict_means_assignment_fails
  (DEV : bool) (invoke : JsValue -> Mode -> list JsValue -> M JsValue)
  (st : State) (l : loc) (o : JsObject) (p : PropertyKey) (v : JsValue) (n : Z) :
  heap st !! l = Some o ->
  snd (verifySetterDescriptor DEV (VObject l) p v st) = Normal n ->
  n <> 0%Z ->
  PutValue invoke (VObject l) p v st = (st, Throw TypeError)
  /\ (n = 3%Z -> GetV invoke (VObject l) p st = (st, Normal v))
  /\ (forall target receiver,
      exists b, snd (verifySetter DEV (VObject l) target p v receiver st)
                = Normal (VBool b))
  /\ (forall x e st0 l0 o0,
      heap st0 !! l0 = Some o0 ->
      own_property (obj_props o0) p = Some (DataProperty x false e true) ->
      snd (verifySetterDescriptor DEV (VObject l0) p v st0) = Normal 0%Z
      /\ PutValue invoke (VObject l0) p v st0 = (st0, Throw TypeError)).
Proof.
  intros Hl Hv Hn.
  rewrite (verifySetterDescriptor_object DEV st l o p v Hl) in Hv.
  injection Hv as <-.
  split; [ | split; [ | split]].
  - unfold PutValue, get_heap, bind_M, ret. unfold classifyForSet in Hn.
    destruct (own_property (obj_props o) p) as [[x w e c | g s e c] | ] eqn:Hown;
      [ | | contradiction].
    + rewrite (lookup_chain_own _ _ _ _ _ _ Hl Hown).
      destruct w; [ | reflexivity]. destruct c; contradiction.
    + rewrite (lookup_chain_own _ _ _ _ _ _ Hl Hown).
      destruct (is_undefined s); [reflexivity | ]. destruct c; contradiction.
  - unfold classifyForSet. intros H3.
    destruct (own_property (obj_props o) p) as [[x w e c | g s e c] | ] eqn:Hown;
      [ | | discriminate].
    + destruct c; [discriminate | ]. destruct w; [discriminate | ]. simpl in H3.
      destruct (Object_is v x) eqn:His; [ | discriminate].
      apply bool_decide_eq_true in His. subst x.
      apply GetV_data. unfold data_lookup.
      rewrite (lookup_chain_own _ _ _ _ _ _ Hl Hown). reflexivity.
    + destruct c; [discriminate | ]. simpl in H3.
      destruct (is_undefined s); discriminate.
  - intros target receiver. unfold verifySetter. cbn [ToBoolean].
    pose proof (verifySetterDescriptor_object DEV st l o p v Hl) as Hd.
    unfold bind_M.
    destruct (verifySetterDescriptor DEV (VObject l) p v st) as [st' r].
    simpl in Hd. subst r. simpl.
    destruct (classifyForSet (own_property (obj_props o) p) v); simpl;
      try (eexists; reflexivity). contradiction.
  - intros x e st0 l0 o0 Hl0 Hown. split.
    + rewrite (verifySetterDescriptor_object DEV st0 l0 o0 p v Hl0), Hown. reflexivity.
    + apply (PutValue_own_readonly invoke st0 l0 o0 p x e true v Hl0 Hown).
Qed.

(** The property at the read-only [nan] of [fixed_object]: writing [NaN]
    over it is reported as done, and the assignment itself would throw. *)
Lemma set_verdict_means_assignment_fails_witness :
  PutValue (run (quiet_host false) 1) (VObject 6) (KString "nan") NaN fixed_state
  = (fixed_state, Throw TypeError)
  /\ GetV (run (quiet_host false) 1) (VObject 6) (KString "nan") fixed_state
     = (fixed_state, Normal NaN).
Proof.
  pose proof (set_verdict_means_assignment_fails false (run (quiet_host false) 1)
                fixed_state 6 fixed_object (KString "nan") NaN 3%Z eq_refl eq_refl
                ltac:(discriminate)) as H.
  split; [exact (proj1 H) | exact (proj1 (proj2 H) eq_refl)].
Defined.

(** X6. A verdict of the get check other than 0 is only given where the value
    differs from what the object reads: under the verdict 1 the read [target[p]]
    gives, without running code, a value that [Object.is] tells from the
    reported one; under the verdict 2 it gives [undefined]. The verdict 2 does
    not look at the value: it is given to [undefined] too, the one value such a
    property can read as. *)
Theorem get_verdict_means_read_differs
  (DEV : bool) (invoke : JsValue -> Mode -> list JsValue -> M JsValue)
  (st : State) (l : loc) (o : JsObject) (p : PropertyKey) (v : JsValue) (n : Z) :
  heap st !! l = Some o ->
  snd (verifyGetterDescriptor DEV (VObject l) p v st) = Normal n ->
  n <> 0%Z ->
  exists actual,
    GetV invoke (VObject l) p st = (st, Normal actual)
    /\ (n = 1%Z \/ n = 2%Z)
    /\ (n = 1%Z -> Object_is v actual = false)
    /\ (n = 2%Z ->
        actual = VUndefined
        /\ snd (verifyGetterDescriptor DEV (VObject l) p VUndefined st) = Normal 2%Z).
Proof.
  intros Hl Hv Hn.
  rewrite (verifyGetterDescriptor_object DEV st l o p v Hl) in Hv.
  injection Hv as <-. unfold classifyForGet in Hn |- *.
  destruct (own_property (obj_props o) p) as [[x w e c | g s e c] | ] eqn:Hown;
    [ | | contradiction].
  - destruct c; [contradiction | ]. destruct w; [contradiction | ]. simpl in Hn |- *.
    destruct (Object_is v x) eqn:His; [contradiction | ].
    exists x. split; [ | split; [left; reflexivity | split; [intros _; exact His | discriminate]]].
    apply GetV_data. unfold data_lookup.
    rewrite (lookup_chain_own _ _ _ _ _ _ Hl Hown). reflexivity.
  - destruct c; [contradiction | ]. simpl in Hn |- *.
    destruct (is_undefined g) eqn:Hg; [ | contradiction].
    exists VUndefined. split; [ | split; [right; reflexivity | split; [discriminate | ]]].
    + unfold GetV, OrdinaryGet, get_heap, bind_M, ret.
      rewrite (lookup_chain_own _ _ _ _ _ _ Hl Hown), Hg. reflexivity.
    + intros _. split; [reflexivity | ].
      rewrite (verifyGetterDescriptor_object DEV st l o p VUndefined Hl), Hown.
      unfold classifyForGet. simpl. rewrite Hg. reflexivity.
Qed.

(** The property at the accessor [hidden] of [fixed_object], which has no
    getter: the read gives [undefined], and the check refuses [undefined]. *)
Lemma get_verdict_means_read_differs_witness :
  exists actual,
    GetV (run (quiet_host false) 1) (VObject 6) (KString "hidden") fixed_state
    = (fixed_state, Normal actual)
    /\ actual = VUndefined.
Proof.
  destruct (get_verdict_means_read_differs false (run (quiet_host false) 1)
              fixed_state 6 fixed_object (KString "hidden") VUndefined 2%Z eq_refl eq_refl
              ltac:(discriminate)) as [actual [Hget [_ [_ H2]]]].
  exists actual. split; [exact Hget | exact (proj1 (H2 eq_refl))].
Defined.

(** X7. The value an own data property holds always passes: reporting
    [target[p]] for [p] is let through by the get check, and writing it back is
    never denied by the set trap, which answers [true] when the property is
    fixed and gives no verdict otherwise. This holds for [NaN] too, which [===]
    would tell from itself. *)
Theorem own_value_passes_the_checks
  (DEV : bool) (invoke : JsValue -> Mode -> list JsValue -> M JsValue)
  (st : State) (l : loc) (o : JsObject) (p : PropertyKey) (v : JsValue)
  (w e c : bool) :
  heap st !! l = Some o ->
  own_property (obj_props o) p = Some (DataProperty v w e c) ->
  GetV invoke (VObject l) p st = (st, Normal v)
  /\ verifyGetterDescriptor DEV (VObject l) p v st = (st, Normal 0%Z)
  /\ verifySetterDescriptor DEV (VObject l) p v st
     = (st, Normal (if negb w && negb c then 3%Z else 0%Z))
  /\ (forall target receiver,
      verifySetter DEV (VObject l) target p v receiver st
      = (st, Normal (if negb w && negb c then VBool true else VUndefined)))
  /\ IsStrictlyEqual NaN NaN = false.
Proof.
  intros Hl Hown.
  assert (His : Object_is v v = true) by (apply bool_decide_eq_true; reflexivity).
  assert (Hs : verifySetterDescriptor DEV (VObject l) p v st
               = (st, Normal (if negb w && negb c then 3%Z else 0%Z))).
  { unfold verifySetterDescriptor.
    rewrite (bind_M_Normal _ _ _ _ _ (Object_getOwnPropertyDescriptor_object st l o p Hl)).
    rewrite Hown. simpl. destruct c, w; simpl; try reflexivity.
    rewrite His. reflexivity. }
  split; [ | split; [ | split; [exact Hs | split; [ | reflexivity]]]].
  - apply GetV_data. unfold data_lookup.
    rewrite (lookup_chain_own _ _ _ _ _ _ Hl Hown). reflexivity.
  - unfold verifyGetterDescriptor.
    rewrite (bind_M_Normal _ _ _ _ _ (Object_getOwnPropertyDescriptor_object st l o p Hl)).
    rewrite Hown. simpl. destruct c, w; simpl; try reflexivity.
    rewrite His. reflexivity.
  - intros target receiver. unfold verifySetter. cbn [ToBoolean].
    rewrite (bind_M_Normal _ _ _ _ _ Hs). destruct w, c; reflexivity.
Qed.

(** The property at the read-only [nan] of [fixed_object]. *)
Lemma own_value_passes_the_checks_witness :
  verifySetter true (VObject 6) VUndefined (KString "nan") NaN VUndefined fixed_state
  = (fixed_state, Normal (VBool true)).
Proof.
  exact (proj1 (proj2 (proj2 (proj2
    (own_value_passes_the_checks true (run (quiet_host false) 1) fixed_state 6
       fixed_object (KString "nan") NaN false true false eq_refl eq_refl))))
    VUndefined VUndefined).
Defined.

(* ===================================================================== *)
(** ** More on the observer module *)
(* ===================================================================== *)

Module ObserverLaws.
Import Observer.
Import ObserverFacts.

(** The walk over a set whose entries are all deleted calls nothing. *)
Lemma SetForEach_cleared (fuel index : nat) (st : ModuleState) :
  members (observerSet st) = [] ->
  length (observerSet st) <= fuel + index ->
  SetForEach fuel recover_callback index st = Some st.
Proof.
  intros Hempty. revert index.
  induction fuel as [ | fuel IH]; intros index Hlen; simpl.
  - rewrite lookup_ge_None_2 by lia. reflexivity.
  - destruct (observerSet st !! index) as [e | ] eqn:He; [ | reflexivity].
    destruct e as [v | ].
    + exfalso. apply list_elem_of_lookup_2 in He. apply elem_of_members in He.
      rewrite Hempty in He. inversion He.
    + apply IH. lia.
Qed.

Lemma SetClear_cleared (data : list (option nat)) :
  members data = [] -> SetClear data = data.
Proof.
  induction data as [ | e data IH]; simpl; [reflexivity | ].
  destruct e as [v | ]; simpl; [discriminate | ].
  intros H. f_equal. apply IH. exact H.
Qed.

Lemma SetClear_length (data : list (option nat)) :
  length (SetClear data) = length data.
Proof. unfold SetClear. apply length_map. Qed.

(** The walk of [recover] leaves the options alone. *)
Lemma SetForEach_options (fuel index : nat) (st st' : ModuleState) :
  SetForEach fuel recover_callback index st = Some st' ->
  options st' = options st.
Proof.
  revert index st. induction fuel as [ | fuel IH]; intros index st Hrun; simpl in Hrun.
  - destruct (observerSet st !! index); [discriminate | ]. congruence.
  - destruct (observerSet st !! index) as [e | ]; [ | congruence].
    apply IH in Hrun. rewrite Hrun. destruct e as [v | ]; [ | reflexivity].
    unfold recover_callback. destruct (observers st !! v) as [[ | | id] | ]; reflexivity.
Qed.

(** An observer whose [disconnect] is not a function is passed over by the
    walk. *)
Lemma SetForEach_not_a_function (o : nat) (fuel index : nat) (st st' : ModuleState) :
  SetForEach fuel recover_callback index st = Some st' ->
  observers st !! o = Some NotAFunction ->
  native_disconnects o (log st') = native_disconnects o (log st).
Proof.
  revert index st. induction fuel as [ | fuel IH]; intros index st Hrun Ho; simpl in Hrun.
  - destruct (observerSet st !! index); [discriminate | ]. congruence.
  - destruct (observerSet st !! index) as [e | ] eqn:He; [ | congruence].
    destruct e as [v | ]; [ | eapply IH; eauto].
    apply IH in Hrun.
    + rewrite Hrun. unfold recover_callback.
      destruct (observers st !! v) as [[ | | id] | ] eqn:Hv; simpl; try reflexivity.
      * assert (Hvo : v <> o) by (intros ->; congruence).
        unfold native_disconnects.
        rewrite filter_app, length_app, filter_cons_False by congruence.
        simpl. lia.
      * unfold native_disconnects.
        rewrite filter_app, length_app, filter_cons_False by congruence.
        simpl. lia.
    + unfold recover_callback.
      destruct (observers st !! v) as [[ | | id] | ]; simpl; exact Ho.
Qed.

Lemma members_SetDelete (data : list (option nat)) (v : nat) :
  members (SetDelete data v) = filter (fun w => w <> v) (members data).
Proof.
  induction data as [ | e data IH]; [reflexivity | ].
  unfold SetDelete. cbn [map]. fold (SetDelete data v).
  destruct e as [w | ].
  - destruct (decide (w = v)) as [-> | Hne].
    + rewrite bool_decide_eq_true_2 by reflexivity.
      change (members (None :: SetDelete data v)) with (members (SetDelete data v)).
      change (members (Some v :: data)) with (v :: members data).
      rewrite filter_cons_False by tauto. exact IH.
    + rewrite bool_decide_eq_false_2 by congruence.
      change (members (Some w :: SetDelete data v))
        with (w :: members (SetDelete data v)).
      change (members (Some w :: data)) with (w :: members data).
      rewrite filter_cons_True by exact Hne. f_equal. exact IH.
  - rewrite bool_decide_eq_false_2 by discriminate. exact IH.
Qed.

(** X23. [recover] is idempotent: a second [recover()] right after the first
    finds the set empty, disconnects nothing and leaves the module as it is. *)
Theorem recover_again_does_nothing (fuel fuel' : nat) (st st' : ModuleState) :
  recover fuel st = Some st' ->
  length (observerSet st) <= fuel' ->
  recover fuel' st' = Some st'
  /\ members (observerSet st') = [].
Proof.
  intros Hrec Hlen.
  pose proof (recover_empties fuel st st' Hrec) as Hempty.
 split; [ | exact Hempty].
  assert (Hlen' : length (observerSet st') <= fuel' + 0).
  { unfold recover in Hrec.
    destruct (SetForEach fuel recover_callback 0 st) as [st1 | ] eqn:Hrun;
      [ | discriminate].
    injection Hrec as <-. simpl. rewrite SetClear_length.
    assert (Hsame : forall f i s s', SetForEach f recover_callback i s = Some s' ->
                      length (observerSet s') = length (observerSet s)).
    { induction f as [ | f IH]; intros i s s' Hr; simpl in Hr.
      - destruct (observerSet s !! i); [discriminate | ]. congruence.
      - destruct (observerSet s !! i) as [e | ]; [ | congruence].
        apply IH in Hr. rewrite Hr.
        destruct e as [v | ]; [apply recover_callback_length | reflexivity]. }
    rewrite (Hsame _ _ _ _ Hrun). lia. }
  unfold recover. rewrite (SetForEach_cleared fuel' 0 st' Hempty Hlen').
  rewrite (SetClear_cleared _ Hempty). destruct st'; reflexivity.
Qed.

(** Three observers, [recover()], and [recover()] again. *)
Lemma recover_again_does_nothing_witness :
  exists st',
    recover 3 (create_observers 3 (observerModule (mkOptions None))) = Some st'
    /\ recover 3 st' = Some st'.
Proof.
  eexists. split; [reflexivity | ].
  exact (proj1 (recover_again_does_nothing 3 3
                  (create_observers 3 (observerModule (mkOptions None))) _
                  eq_refl (le_n 3))).
Defined.

(** X24. The module can be used again after [recover()]: an observer made
    afterwards, with collection enabled, is the one tracked observer, and the
    next [recover()] disconnects it and nothing else. *)
Theorem recover_then_track_again (fuel fuel' : nat) (st st1 : ModuleState) :
  recover fuel st = Some st1 ->
  default false (disableCollect (options st)) = false ->
  length (observerSet st) < fuel' ->
  members (observerSet (fst (ProxyMutationObserver st1)))
  = [snd (ProxyMutationObserver st1)]
  /\ snd (ProxyMutationObserver st1) = length (observers st)
  /\ exists st3,
       recover fuel' (fst (ProxyMutationObserver st1)) = Some st3
       /\ log st3 = log st1 ++ [NativeDisconnect (snd (ProxyMutationObserver st1))]
       /\ members (observerSet st3) = [].
Proof.
  intros Hrec Hopt Hlen.
  pose proof (recover_empties fuel st st1 Hrec) as Hempty.
  unfold recover in Hrec.
  destruct (SetForEach fuel recover_callback 0 st) as [st0 | ] eqn:Hrun; [ | discriminate].
  pose proof (SetForEach_options _ _ _ _ Hrun) as Hopts.
  pose proof (SetForEach_preserves _ _ _ _ Hrun) as Hobs.
  assert (Hsame : forall f i s s', SetForEach f recover_callback i s = Some s' ->
                    length (observerSet s') = length (observerSet s)).
  { induction f as [ | f IH]; intros i s s' Hr; simpl in Hr.
    - destruct (observerSet s !! i); [discriminate | ]. congruence.
    - destruct (observerSet s !! i) as [e | ]; [ | congruence].
      apply IH in Hr. rewrite Hr.
      destruct e as [v | ]; [apply recover_callback_length | reflexivity]. }
  pose proof (Hsame _ _ _ _ Hrun) as Hlen0.
  injection Hrec as <-. cbn [observerSet] in Hempty.
  unfold ProxyMutationObserver. cbn [options observers observerSet log].
  rewrite Hopts, Hopt. cbn [negb fst snd observerSet].
  assert (Hnot : SetHas (SetClear (observerSet st0)) (length (observers st0)) = false).
  { unfold SetHas. apply bool_decide_eq_false_2. apply SetClear_no_member. }
  unfold SetAdd. rewrite Hnot.
  split; [rewrite members_app, Hempty; reflexivity | ].
  split; [exact (f_equal _ Hobs) | ].
  set (o := length (observers st0)).
  set (st2 := mkModule (options st) (observers st0 ++ [ClassMethod])
                (SetClear (observerSet st0) ++ [Some o]) (log st0)).
  destruct (recover_tracked fuel' st2) as [st3 [Hrec3 [Hempty3 Hlog3]]].
  - unfold st2. cbn [observerSet]. rewrite length_app, SetClear_length, Hlen0. simpl. lia.
  - unfold st2. cbn [observerSet]. rewrite members_app, Hempty. simpl.
    apply NoDup_singleton.
  - unfold st2. cbn [observerSet observers]. rewrite members_app, Hempty. simpl.
    intros v Hv. apply list_elem_of_singleton in Hv. subst v.
    unfold o. rewrite lookup_app_r by lia. rewrite Nat.sub_diag. reflexivity.
  - exists st3. split; [exact Hrec3 | ].
    split; [ | exact Hempty3].
    rewrite Hlog3. unfold st2. cbn [log observerSet].
    rewrite members_app, Hempty. reflexivity.
Qed.

(** Two observers, [recover()], a third observer, [recover()] again. *)
Lemma recover_then_track_again_witness :
  exists st1 st3,
    recover 2 (create_observers 2 (observerModule (mkOptions None))) = Some st1
    /\ recover 3 (fst (ProxyMutationObserver st1)) = Some st3
    /\ log st3 = log st1 ++ [NativeDisconnect 2].
Proof.
  destruct (recover_then_track_again 2 3
              (create_observers 2 (observerModule (mkOptions None))) _
              eq_refl eq_refl (le_n 3)) as [_ [_ [st3 [Hrec [Hlog _]]]]].
  eexists _, st3. split; [reflexivity | ]. split; [exact Hrec | exact Hlog].
Defined.

(** X25. [disconnect()] of the class always runs the native disconnect, on an
    observer that is not tracked too, and as often as it is called. It takes
    this observer, and no other, out of the tracked set. *)
Theorem disconnect_forgets_only_this_observer (this : nat) (st : ModuleState) :
  log (disconnect this st) = log st ++ [NativeDisconnect this]
  /\ log (disconnect this (disconnect this st))
     = log st ++ [NativeDisconnect this; NativeDisconnect this]
  /\ (Some this ∉ observerSet (disconnect this st))
  /\ members (observerSet (disconnect this st))
     = filter (fun v => v <> this) (members (observerSet st))
  /\ (forall other, other <> this ->
      (Some other ∈ observerSet (disconnect this st) <-> Some other ∈ observerSet st))
  /\ (Some this ∉ observerSet st ->
      observerSet (disconnect this st) = observerSet st)
  /\ observers (disconnect this st) = observers st.
Proof.
  assert (Hm : members (observerSet (disconnect this st))
               = filter (fun v => v <> this) (members (observerSet st))).
  { unfold disconnect. cbn [observerSet].
    destruct (SetHas (observerSet st) this) eqn:Hhas; [apply members_SetDelete | ].
    unfold SetHas in Hhas. apply bool_decide_eq_false in Hhas.
    rewrite <- (SetDelete_absent _ _ Hhas) at 1. apply members_SetDelete. }
  split; [reflexivity | ].
  split; [unfold disconnect; cbn [log]; rewrite <- app_assoc; reflexivity | ].
  split; [ | split; [exact Hm | split; [ | split; [ | reflexivity]]]].
  - rewrite <- elem_of_members, Hm, list_elem_of_filter. tauto.
  - intros other Hne.
    rewrite <- !elem_of_members, Hm, list_elem_of_filter. tauto.
  - intros Hn. unfold disconnect. cbn [observerSet].
    unfold SetHas. rewrite bool_decide_eq_false_2 by exact Hn. reflexivity.
Qed.

(** X26. An observer on which [disconnect] is not a function any more is passed
    over by [recover()]: the native disconnect does not run on it, and yet it is
    no longer tracked afterwards. *)
Theorem recover_skips_observer_without_method
  (fuel : nat) (st : ModuleState) (observer : nat) :
  observers st !! observer = Some NotAFunction ->
  length (observerSet st) <= fuel ->
  exists st',
    recover fuel st = Some st'
    /\ native_disconnects observer (log st') = native_disconnects observer (log st)
    /\ (Some observer ∉ observerSet st')
    /\ members (observerSet st') = [].
Proof.
  intros Hobs Hlen.
  destruct (SetForEach_total fuel 0 st) as [st1 Hrun]; [lia | ].
  unfold recover. rewrite Hrun. eexists. split; [reflexivity | ].
  cbn [log observerSet].
  split; [exact (SetForEach_not_a_function _ _ _ _ _ Hrun Hobs) | ].
  split; [apply SetClear_no_member | apply members_SetClear].
Qed.

(** Two tracked observers; the page overwrites [disconnect] of the first
    with a value that is no function. [recover()] disconnects the second
    only. *)
Lemma recover_skips_observer_without_method_witness :
  exists st',
    recover 2 (shadow_disconnect 0 NotAFunction
                 (create_observers 2 (observerModule (mkOptions None)))) = Some st'
    /\ native_disconnects 0 (log st') = 0
    /\ log st' = [NativeDisconnect 1].
Proof.
  destruct (recover_skips_observer_without_method 2
              (shadow_disconnect 0 NotAFunction
                 (create_observers 2 (observerModule (mkOptions None))))
              0 eq_refl (le_n 2)) as [st' [Hrec [Hn _]]].
  exists st'. split; [exact Hrec | ]. split; [exact Hn | ].
  vm_compute in Hrec. injection Hrec as <-. reflexivity.
Defined.

(** X27. In every state the module can come to, the tracked set holds only
    observers that its class has created, and each of them once: there are never
    more tracked observers than created ones. *)
Theorem tracked_observers_are_created_once (st : ModuleState) :
  Reachable st ->
  (forall v, Some v ∈ observerSet st -> v < length (observers st))
  /\ NoDup (members (observerSet st))
  /\ length (members (observerSet st)) <= length (observers st).
Proof.
  intros Hreach. destruct (Reachable_tracked st Hreach) as [Hlt Hnd].
  split; [exact Hlt | split; [exact Hnd | ]].
  assert (Hsub : members (observerSet st) ⊆ seq 0 (length (observers st))).
  { intros v Hv. apply elem_of_members, Hlt in Hv.
    apply list_elem_of_In, in_seq. lia. }
  pose proof (submseteq_length _ _ (NoDup_submseteq _ _ Hnd Hsub)) as Hle.
  rewrite length_seq in Hle. exact Hle.
Qed.

(** The invariant after three observers of which the second was
    disconnected. *)
Lemma tracked_observers_are_created_once_witness :
  length (members (observerSet
            (disconnect 1 (create_observers 3 (observerModule (mkOptions None))))))
  <= 3.
Proof.
  exact (proj2 (proj2
    (tracked_observers_are_created_once
       (disconnect 1 (create_observers 3 (observerModule (mkOptions None))))
       (reach_disconnect _ 1
          (reach_new _ (reach_new _ (reach_new _ (reach_module (mkOptions None)))))
          (le_S 2 2 (le_n 2)))))).
Defined.

(** X30. With collection enabled, constructing a [ProxyMutationObserver]
    in any state the module can come to tracks it: the new observer is
    added to the tracked set behind the observers that are there, which
    stay. When, besides, no tracked observer has lost its [disconnect], the
    next [recover()] runs the native disconnect on each of them in that
    order, on the new one exactly once, and leaves the set empty. *)
Theorem enabled_collection_tracks_the_observer (st : ModuleState) :
  Reachable st ->
  default false (disableCollect (options st)) = false ->
  snd (ProxyMutationObserver st) = length (observers st)
  /\ (Some (snd (ProxyMutationObserver st)) ∉ observerSet st)
  /\ observerSet (fst (ProxyMutationObserver st))
     = observerSet st ++ [Some (snd (ProxyMutationObserver st))]
  /\ members (observerSet (fst (ProxyMutationObserver st)))
     = members (observerSet st) ++ [snd (ProxyMutationObserver st)]
  /\ observers (fst (ProxyMutationObserver st)) !! snd (ProxyMutationObserver st)
     = Some ClassMethod
  /\ ((forall v, v ∈ members (observerSet st) -> observers st !! v = Some ClassMethod) ->
      forall fuel,
        length (observerSet st) < fuel ->
        exists st',
          recover fuel (fst (ProxyMutationObserver st)) = Some st'
          /\ log st'
             = log st
               ++ map NativeDisconnect
                    (members (observerSet st) ++ [snd (ProxyMutationObserver st)])
          /\ native_disconnects (snd (ProxyMutationObserver st)) (log st')
             = native_disconnects (snd (ProxyMutationObserver st)) (log st) + 1
          /\ members (observerSet st') = []).
Proof.
  intros Hreach Hopt.
  destruct (Reachable_tracked st Hreach) as [Hwf Hnd].
  assert (Hfresh : Some (length (observers st)) ∉ observerSet st).
  { intros Hin. apply Hwf in Hin. lia. }
  unfold ProxyMutationObserver. rewrite Hopt. cbn [negb fst snd observerSet observers].
  unfold SetAdd, SetHas. rewrite bool_decide_eq_false_2 by exact Hfresh.
  split; [reflexivity | ].
  split; [exact Hfresh | ].
  split; [reflexivity | ].
  split; [rewrite members_app; reflexivity | ].
  split; [rewrite lookup_app_r by lia; rewrite Nat.sub_diag; reflexivity | ].
  intros Hcls fuel Hfuel.
  set (this := length (observers st)).
  set (st2 := mkModule (options st) (observers st ++ [ClassMethod])
                (observerSet st ++ [Some this]) (log st)).
  assert (Hmem : members (observerSet st2) = members (observerSet st) ++ [this]).
  { unfold st2. cbn [observerSet]. rewrite members_app. reflexivity. }
  assert (Hnew : this ∉ members (observerSet st)).
  { rewrite elem_of_members. exact Hfresh. }
  destruct (recover_tracked fuel st2) as [st' [Hrec [Hempty Hlog]]].
  - unfold st2. cbn [observerSet]. rewrite length_app. simpl. lia.
  - rewrite Hmem. apply NoDup_app.
    split; [exact Hnd | split; [ | apply NoDup_singleton]].
    intros x Hx Hx'. apply list_elem_of_singleton in Hx'. subst x. contradiction.
  - rewrite Hmem. intros v Hv. unfold st2. cbn [observers].
    apply elem_of_app in Hv. destruct Hv as [Hv | Hv].
    + rewrite lookup_app_l by (apply Hwf, elem_of_members; exact Hv).
      apply Hcls. exact Hv.
    + apply list_elem_of_singleton in Hv. subst v.
      rewrite lookup_app_r by (unfold this; lia).
      unfold this. rewrite Nat.sub_diag. reflexivity.
  - exists st'. split; [exact Hrec | ].
    rewrite Hmem in Hlog. cbn [log st2] in Hlog.
    split; [exact Hlog | split; [ | exact Hempty]].
    rewrite Hlog. unfold native_disconnects at 1.
    rewrite filter_app, length_app.
    fold (native_disconnects this (log st)).
    fold (native_disconnects this
            (map NativeDisconnect (members (observerSet st) ++ [this]))).
    rewrite native_disconnects_map, filter_app, length_app.
    rewrite (count_none this _ Hnew).
    rewrite filter_cons_True by reflexivity. reflexivity.
Qed.

(** The third observer of a module with collection enabled, made after the
    page has overwritten [disconnect] of the first: it is tracked behind
    the two others. *)
Lemma enabled_collection_tracks_the_observer_witness :
  members (observerSet
             (fst (ProxyMutationObserver
                     (shadow_disconnect 0 NotAFunction
                        (create_observers 2 (observerModule (mkOptions None)))))))
  = [0; 1; 2].
Proof.
  exact (proj1 (proj2 (proj2 (proj2
    (enabled_collection_tracks_the_observer
       (shadow_disconnect 0 NotAFunction
          (create_observers 2 (observerModule (mkOptions None))))
       (reach_shadow _ 0 NotAFunction
          (reach_new _ (reach_new _ (reach_module (mkOptions None)))))
       eq_refl))))).
Defined.

End ObserverLaws.

(* ===================================================================== *)
(** ** More on [transferProps] and [bind] *)
(* ===================================================================== *)

(** A [try] whose handler does not throw does not throw. *)
Lemma try_catch_no_throw {A} (m : M A) (handler : Exception -> M A) st :
  (forall e st' e', snd (handler e st') <> Throw e') ->
  forall e', snd (try_catch m handler st) <> Throw e'.
Proof.
  intros Hh e'. unfold try_catch.
  destruct (m st) as [st' [a | e | | ]]; simpl; try discriminate. apply Hh.
Qed.

(** One turn of the loop between two objects does not throw, whatever the
    accessors of the page do. *)
Lemma transferProp_no_throw E invoke (source target : loc) key st e :
  snd (transferProp E invoke (VObject source) (VObject target) key st) <> Throw e.
Proof.
  unfold transferProp. destruct (buildInProps key); [discriminate | ].
  destruct (heap st !! source) as [so | ] eqn:Hs.
  2:{ unfold Object_getOwnPropertyDescriptor, GetOwnProperty, deref, bind_M.
      rewrite Hs. discriminate. }
  rewrite (bind_M_Normal _ _ _ _ _ (Object_getOwnPropertyDescriptor_object st _ so key Hs)).
  destruct (heap st !! target) as [to | ] eqn:Ht.
  2:{ unfold Object_getOwnPropertyDescriptor, GetOwnProperty, deref, bind_M.
      rewrite Ht. discriminate. }
  rewrite (bind_M_Normal _ _ _ _ _ (Object_getOwnPropertyDescriptor_object st _ to key Ht)).
  destruct (match FromPropertyDescriptor <$> own_property (obj_props to) key with
            | Some d => negb (ToBoolean (bool_field (desc_configurable d)))
            | None => false
            end); [discriminate | ].
  destruct (FromPropertyDescriptor <$> own_property (obj_props so) key) as [sd | ];
    [ | discriminate].
  apply try_catch_no_throw. intros e1 st1 e2.
  apply try_catch_no_throw. intros e3 st3 e4.
  destruct (DEV E); discriminate.
Qed.

Lemma transferProps_loop_no_throw E invoke (source target : loc) keys : forall st e,
  snd (transferProps_loop E invoke keys (VObject source) (VObject target) st) <> Throw e.
Proof.
  induction keys as [ | key keys IH]; intros st e; [discriminate | ].
  cbn [transferProps_loop]. unfold bind_M.
  pose proof (transferProp_no_throw E invoke source target key st) as Hk.
  destruct (transferProp E invoke (VObject source) (VObject target) key st)
    as [st' [[] | e' | | ]]; simpl in *; try discriminate.
  - apply IH.
  - exfalso. exact (Hk e' eq_refl).
Qed.

(** X9. [transferProps] between two objects never throws: whatever the getters
    and setters of the page do and whatever the target refuses, the loop comes
    to its end or the page does not return. What throws is a source that is no
    object, at [Reflect.ownKeys]. *)
Theorem transferProps_never_throws
  (E : Env) (invoke : JsValue -> Mode -> list JsValue -> M JsValue)
  (source target : loc) (st : State) :
  match snd (transferProps E invoke (VObject source) (VObject target) st) with
  | Throw _ => False
  | _ => True
  end
  /\ (forall key,
      match snd (transferProp E invoke (VObject source) (VObject target) key st) with
      | Throw _ => False
      | _ => True
      end)
  /\ (forall v, is_object v = false ->
      transferProps E invoke v (VObject target) st = (st, Throw TypeError)).
Proof.
  split; [ | split].
  - unfold transferProps, Reflect_ownKeys, deref, bind_M at 1 2.
    destruct (heap st !! source) as [so | ]; [ | exact I]. cbn [ret].
    pose proof (transferProps_loop_no_throw E invoke source target
                  (OrdinaryOwnPropertyKeys so) st) as H.
    destruct (transferProps_loop E invoke (OrdinaryOwnPropertyKeys so) (VObject source)
                (VObject target) st) as [st' [[] | e | | ]]; simpl in *; try exact I.
    exact (H e eq_refl).
  - intros key.
    pose proof (transferProp_no_throw E invoke source target key st) as H.
    destruct (transferProp E invoke (VObject source) (VObject target) key st)
      as [st' [[] | e | | ]]; simpl in *; try exact I.
    exact (H e eq_refl).
  - intros v Hv. destruct v; try reflexivity. discriminate.
Qed.

(** X12. [bind] does not ask whether [fn] is a function. What is no object at
    all is refused with the TypeError of [Reflect.ownKeys], after the wrapper
    and [fNOP] were made: four new objects are left in the store, the old ones
    are as they were. *)
Theorem bind_refuses_what_is_no_object
  (E : Env) (invoke : JsValue -> Mode -> list JsValue -> M JsValue)
  (fn context : JsValue) (st : State) :
  is_object fn = false ->
  inherits_assignable (heap st) (KString "$native") = true ->
  exists st',
    bind E invoke fn context st = (st', Throw TypeError)
    /\ (forall l o, heap st !! l = Some o -> heap st' !! l = Some o)
    /\ length (heap st') = length (heap st) + 4
    /\ trace st' = trace st.
Proof.
  intros Hfn Hnat. destruct st as [h tr]. cbn [heap trace] in *.
  unfold bind.
  rewrite (bind_M_Normal _ _ _ _ _ (CreateFunction_spec _ _ _ _)). cbn [heap trace].
  rewrite (bind_M_Normal _ _ _ _ _ (CreateFunction_spec _ _ _ _)). cbn [heap trace].
  rewrite <- app_assoc, !length_app. cbn [length app].
  match goal with
  | |- context [h ++ ?B0 :: ?rest] => set (B := B0); set (tail := rest)
  end.
  erewrite bind_M_Normal.
  2:{ apply (PutValue_fresh _ h (mkState (h ++ B :: tail) tr) (length h) B).
      - apply list_lookup_middle. reflexivity.
      - reflexivity.
      - reflexivity.
      - reflexivity.
      - exact Hnat.
      - intros l' o'. apply heap_extends.
      - cbn [heap]. rewrite length_app. simpl. lia. }
  cbn [heap trace]. rewrite insert_middle.
  erewrite bind_M_Throw.
  2:{ unfold transferProps. erewrite bind_M_Throw; [reflexivity | ].
      destruct fn; try reflexivity. discriminate. }
  eexists. split; [reflexivity | ]. cbn [heap trace].
  split; [intros l o; apply heap_extends | ].
  split; [rewrite length_app; reflexivity | reflexivity].
Qed.

(** [bind(undefined, undefined)] in the realm of [Widget]. *)
Lemma bind_refuses_what_is_no_object_witness :
  snd (bind (quiet_host false) (run (quiet_host false) 1) VUndefined VUndefined page_state)
  = Throw TypeError.
Proof.
  destruct (bind_refuses_what_is_no_object (quiet_host false) (run (quiet_host false) 1)
              VUndefined VUndefined page_state eq_refl eq_refl) as [st' [H _]].
  rewrite H. reflexivity.
Defined.

(** X13. [bound.$native] records the function that was bound, unless that
    function has a static [$native] of its own, which [transferProps] then
    copies over the record: the wrapper of a wrapper records the innermost
    function. *)
Theorem bind_records_the_native_function
  (E : Env) (fuel : nat) (st : State) (fn : loc) (fo : JsObject)
  (context fnPrototype : JsValue) :
  Bindable (heap st) fn fo fnPrototype ->
  exists st' bound bo,
    bind E (run E (S fuel)) (VObject fn) context st = (st', Normal (VObject bound))
    /\ heap st' !! bound = Some bo
    /\ (own_property (obj_props fo) (KString "$native") = None ->
        own_property (obj_props bo) (KString "$native")
        = Some (DataProperty (VObject fn) true true true)
        /\ forall invoke,
             GetV invoke (VObject bound) (KString "$native") st'
             = (st', Normal (VObject fn)))
    /\ (forall inner w e c,
        own_property (obj_props fo) (KString "$native")
        = Some (DataProperty inner w e c) ->
        (exists w' e' c',
           own_property (obj_props bo) (KString "$native")
           = Some (DataProperty inner w' e' c'))
        /\ forall invoke,
             GetV invoke (VObject bound) (KString "$native") st'
             = (st', Normal inner)).
Proof.
  intros Hb.
  destruct (bind_plain E fuel st fn fo context fnPrototype Hb)
    as [ps [Hbind [Hdata [Hframe Hcopy]]]].
  destruct Hb as [Hfn _ _ Hproto Hvalid].
  pose proof (bound_heap_wrapper (heap st) fn context fnPrototype ps []) as Hw.
  rewrite app_nil_r in Hw.
  eexists _, _, _. split; [exact Hbind | ]. cbn [heap].
  split; [exact Hw | ]. cbn [obj_props].
  assert (Hother : own_property (wrapper_props (length (heap st)) ps) (KString "$native")
                   = own_property ps (KString "$native")).
  { apply wrapper_props_other; discriminate. }
  assert (Hread : forall invoke v w e c,
            own_property ps (KString "$native") = Some (DataProperty v w e c) ->
            GetV invoke (VObject (length (heap st))) (KString "$native")
              (mkState (bound_heap (heap st) (VObject fn) context fnPrototype ps)
                 (trace st))
            = (mkState (bound_heap (heap st) (VObject fn) context fnPrototype ps)
                 (trace st), Normal v)).
  { intros invoke v w e c Hown. apply GetV_data. unfold data_lookup. cbn [heap].
    erewrite lookup_chain_own;
      [ | exact Hw | cbn [obj_props]; rewrite Hother; exact Hown].
    reflexivity. }
  split.
  - intros Hnone.
    assert (Hps : own_property ps (KString "$native")
                  = Some (DataProperty (VObject fn) true true true)).
    { rewrite Hframe; [reflexivity | ]. left. intros Hin.
      apply OrdinaryOwnPropertyKeys_spec, own_property_keys in Hin.
      destruct Hin as [p Hp]. congruence. }
    split; [rewrite Hother; exact Hps | ].
    intros invoke. eapply Hread. exact Hps.
  - intros inner w e c Hown.
    assert (Hin : In (KString "$native") (OrdinaryOwnPropertyKeys fo)).
    { apply OrdinaryOwnPropertyKeys_spec, own_property_keys. eauto. }
    destruct (Hcopy _ _ _ _ _ Hin eq_refl Hown)
      as [[w' [e' [c' Hps]]] | [p0 [Hp0 [Hconf _]]]].
    + split; [exists w', e', c'; rewrite Hother; exact Hps | ].
      intros invoke. eapply Hread. exact Hps.
    + exfalso. injection Hp0 as <-. discriminate.
Qed.

(** The wrapper of [Widget], at place 8 of the store, bound once more. *)
Lemma bind_records_the_native_function_witness :
  exists st' bound,
    bind (quiet_host false) (run (quiet_host false) 1) (VObject 8) VUndefined
      page_bound_state
    = (st', Normal (VObject bound))
    /\ GetV (run (quiet_host false) 1) (VObject bound) (KString "$native") st'
       = (st', Normal (VObject 6)).
Proof.
  destruct (bind_records_the_native_function (quiet_host false) 0 page_bound_state 8
              (nth 8 (heap page_bound_state) Widget) VUndefined (VObject 12))
    as [st' [bound [bo [Hbind [_ [_ Hinner]]]]]].
  { constructor; vm_compute; reflexivity. }
  exists st', bound. split; [exact Hbind | ].
  exact (proj2 (Hinner (VObject 6) true true true eq_refl) (run (quiet_host false) 1)).
Defined.

(** ** One turn of [transferProps], by what the target holds *)

Section TransferTurn.

Variable E : Env.
Variable invoke : JsValue -> Mode -> list JsValue -> M JsValue.
Variable h : list JsObject.
Variables source target : loc.
Variables so to : JsObject.
Variable k : PropertyKey.
Variable p : Property.
Variable v : JsValue.
Variable evs : list Event.

Hypothesis Hs : h !! source = Some so.
Hypothesis Ht : h !! target = Some to.
Hypothesis Hown : own_property (obj_props so) k = Some p.
Hypothesis Hnb : buildInProps k = false.

(** The read [source[k]] gives [v], logs [evs] and leaves the store. *)
Hypothesis Hget : forall tr,
  GetV invoke (VObject source) k (mkState h tr) = (mkState h (tr ++ evs), Normal v).

(** The turn comes to the [try] when the target holds nothing under [k]
    that is not configurable. *)
Lemma transferProp_try tr :
  match own_property (obj_props to) k with
  | Some q => prop_configurable q
  | None => true
  end = true ->
  transferProp E invoke (VObject source) (VObject target) k (mkState h tr)
  = try_catch
      (x <- GetV invoke (VObject source) k ;; PutValue invoke (VObject target) k x)
      (fun _ =>
         try_catch
           (x <- GetV invoke (VObject source) k ;;
            Object_defineProperty (VObject target) k
              (mkDesc (Some x) (Some (source_writable p)) None None
                 (Some (prop_enumerable p)) (Some (prop_configurable p))) ;;;
            ret tt)
           (fun _ => if DEV E then emit (EvWarnTransfer k) else ret tt))
      (mkState h tr).
Proof.
  intros Hconf. unfold transferProp. rewrite Hnb.
  rewrite (bind_M_Normal _ _ _ _ _
             (Object_getOwnPropertyDescriptor_object (mkState h tr) _ so k Hs)).
  rewrite (bind_M_Normal _ _ _ _ _
             (Object_getOwnPropertyDescriptor_object (mkState h tr) _ to k Ht)).
  rewrite Hown.
  destruct (own_property (obj_props to) k) as [[x y z u | g s' z u] | ];
    simpl in Hconf; subst;
    cbn [fmap option_fmap option_map FromPropertyDescriptor desc_configurable
         bool_field ToBoolean negb];
    destruct p; reflexivity.
Qed.

(** The turn passes over a name the target holds non-configurably. *)
Lemma transferProp_skipped tr q :
  own_property (obj_props to) k = Some q ->
  prop_configurable q = false ->
  transferProp E invoke (VObject source) (VObject target) k (mkState h tr)
  = (mkState h tr, Normal tt).
Proof.
  intros Hq Hconf. unfold transferProp. rewrite Hnb.
  rewrite (bind_M_Normal _ _ _ _ _
             (Object_getOwnPropertyDescriptor_object (mkState h tr) _ so k Hs)).
  rewrite (bind_M_Normal _ _ _ _ _
             (Object_getOwnPropertyDescriptor_object (mkState h tr) _ to k Ht)).
  rewrite Hq. destruct q; simpl in Hconf; subst; reflexivity.
Qed.

(** The assignment creates the property. *)
Lemma transferProp_created tr :
  own_property (obj_props to) k = None ->
  obj_extensible to = true ->
  admits_assignment (lookup_chain (length h) h target k) = true ->
  transferProp E invoke (VObject source) (VObject target) k (mkState h tr)
  = (mkState (<[target := with_props to
                  (put_property (obj_props to) k (DataProperty v true true true))]> h)
       (tr ++ evs), Normal tt).
Proof.
  intros Hnone Hext Hchain. rewrite transferProp_try by (rewrite Hnone; reflexivity).
  apply try_catch_Normal. rewrite (bind_M_Normal _ _ _ _ _ (Hget tr)).
  rewrite (PutValue_not_own invoke (mkState h (tr ++ evs)) target to k v Ht Hnone Hext).
  cbn [heap trace].
  destruct (lookup_chain (length h) h target k) as [owner [v0 [ | ] e0 c0 | g s e0 c0] | | ];
    try discriminate; reflexivity.
Qed.

(** The assignment writes into a writable own property. *)
Lemma transferProp_written tr v0 e0 :
  own_property (obj_props to) k = Some (DataProperty v0 true e0 true) ->
  transferProp E invoke (VObject source) (VObject target) k (mkState h tr)
  = (mkState (<[target := with_props to
                  (put_property (obj_props to) k (DataProperty v true e0 true))]> h)
       (tr ++ evs), Normal tt).
Proof.
  intros Hto. rewrite transferProp_try by (rewrite Hto; reflexivity).
  apply try_catch_Normal. rewrite (bind_M_Normal _ _ _ _ _ (Hget tr)).
  apply (PutValue_own_writable invoke (mkState h (tr ++ evs)) target to k v0 e0 true v Ht Hto).
Qed.

(** The assignment on what refuses it. *)
Lemma PutValue_refused tr owner q :
  lookup_chain (length h) h target k = Found owner q ->
  refuses_assignment q = true ->
  PutValue invoke (VObject target) k v (mkState h tr) = (mkState h tr, Throw TypeError).
Proof.
  intros Hchain Hq. unfold PutValue, get_heap, bind_M at 1, ret at 1. cbn [heap].
  rewrite Hchain. destruct q as [v0 [ | ] e0 c0 | g s e0 c0]; simpl in Hq;
    try discriminate; [reflexivity | rewrite Hq; reflexivity].
Qed.

(** The assignment on an object that cannot be extended and owns nothing
    under the name. *)
Lemma PutValue_not_extensible tr :
  own_property (obj_props to) k = None ->
  obj_extensible to = false ->
  holds_no_setter (lookup_chain (length h) h target k) = true ->
  PutValue invoke (VObject target) k v (mkState h tr) = (mkState h tr, Throw TypeError).
Proof.
  intros Hnone Hext Hchain. unfold PutValue, get_heap, bind_M at 1, ret at 1. cbn [heap].
  destruct (lookup_chain (length h) h target k) as [owner [v0 [ | ] e0 c0 | g s e0 c0] | | ];
    simpl in Hchain; try discriminate; try reflexivity.
  - unfold bind_M, deref. cbn [heap]. rewrite Ht, Hnone, Hext. reflexivity.
  - rewrite Hchain. reflexivity.
  - unfold bind_M, deref. cbn [heap]. rewrite Ht, Hnone, Hext. reflexivity.
Qed.

(** [Object.defineProperty] with a full data descriptor where the object
    has a configurable property under the name, or has none and can be
    extended. *)
Lemma Object_defineProperty_allowed tr x w e c :
  match own_property (obj_props to) k with
  | Some q => prop_configurable q
  | None => obj_extensible to
  end = true ->
  Object_defineProperty (VObject target) k
    (mkDesc (Some x) (Some w) None None (Some e) (Some c)) (mkState h tr)
  = (mkState (<[target := with_props to (put_property (obj_props to) k (DataProperty x w e c))]> h)
       tr, Normal (VObject target)).
Proof.
  intros Hok.
  unfold Object_defineProperty, DefineOwnProperty, ValidateAndApplyPropertyDescriptor,
    deref, store, bind_M, ret.
  simpl. rewrite Ht.
  destruct (own_property (obj_props to) k) as [q | ].
  - unfold change_allowed. rewrite Hok. destruct q; reflexivity.
  - rewrite Hok. reflexivity.
Qed.

(** The assignment throws and [Object.defineProperty] makes the copy. *)
Lemma transferProp_defined tr :
  match own_property (obj_props to) k with
  | Some q => prop_configurable q
  | None => obj_extensible to
  end = true ->
  PutValue invoke (VObject target) k v (mkState h (tr ++ evs))
  = (mkState h (tr ++ evs), Throw TypeError) ->
  transferProp E invoke (VObject source) (VObject target) k (mkState h tr)
  = (mkState (<[target := with_props to
                  (put_property (obj_props to) k
                     (DataProperty v (source_writable p) (prop_enumerable p)
                        (prop_configurable p)))]> h)
       (tr ++ evs ++ evs), Normal tt).
Proof.
  intros Hok Hput.
  rewrite transferProp_try
    by (destruct (own_property (obj_props to) k); [exact Hok | reflexivity]).
  erewrite try_catch_Throw.
  2:{ rewrite (bind_M_Normal _ _ _ _ _ (Hget tr)). exact Hput. }
  apply try_catch_Normal.
  rewrite (bind_M_Normal _ _ _ _ _ (Hget (tr ++ evs))).
  erewrite bind_M_Normal; [ | apply Object_defineProperty_allowed; exact Hok].
  rewrite <- app_assoc. reflexivity.
Qed.

(** Both ways fail on a target that cannot be extended and owns nothing
    under the name. *)
Lemma transferProp_failed tr :
  own_property (obj_props to) k = None ->
  obj_extensible to = false ->
  holds_no_setter (lookup_chain (length h) h target k) = true ->
  transferProp E invoke (VObject source) (VObject target) k (mkState h tr)
  = (mkState h (tr ++ evs ++ evs ++ if DEV E then [EvWarnTransfer k] else []), Normal tt).
Proof.
  intros Hnone Hext Hchain.
  rewrite transferProp_try by (rewrite Hnone; reflexivity).
  erewrite try_catch_Throw.
  2:{ rewrite (bind_M_Normal _ _ _ _ _ (Hget tr)).
      apply PutValue_not_extensible; assumption. }
  erewrite try_catch_Throw.
  2:{ rewrite (bind_M_Normal _ _ _ _ _ (Hget (tr ++ evs))).
      erewrite bind_M_Throw; [reflexivity | ].
      unfold Object_defineProperty, DefineOwnProperty, ValidateAndApplyPropertyDescriptor,
        deref, bind_M, ret, throw.
      cbn [IsAccessorDescriptor IsDataDescriptor desc_get desc_set desc_value
           desc_writable has_field orb andb heap].
      rewrite Ht, Hnone, Hext. reflexivity. }
  destruct (DEV E); unfold emit, ret; cbn [heap trace];
    rewrite <- ?app_assoc, ?app_nil_r; reflexivity.
Qed.

End TransferTurn.

(** X10. One turn of [transferProps] on a data static [k] of the source, [k]
    outside the protected names, by what the target holds under [k]. No
    getter or setter runs in any of these cases, and the value always is the
    one of the source; the attributes are those of the source only where
    [Object.defineProperty] makes the copy.
    - The target has no own [k], can be extended, and the objects it
      inherits from hold no [k] or a writable data property: the assignment
      creates the copy, which is writable, enumerable and configurable
      whatever the static was on the source.
    - The target has a configurable writable data property [k] of its own:
      the assignment writes the value into it, and it keeps the attributes it
      had on the target.
    - The target has a configurable own [k] that refuses the assignment, a
      read-only data property or an accessor without a setter, whether the
      target can be extended or not: the assignment throws and
      [Object.defineProperty] replaces the property by a data property with
      the attributes of the source.
    - The target has no own [k], can be extended, and inherits a read-only
      data property or an accessor without a setter: the assignment throws
      and [Object.defineProperty] creates the copy with the attributes of
      the source.
    - The target has no own [k], cannot be extended, and inherits no setter
      under [k]: both ways fail, the store is as it was, and a development
      build logs the failure.
    - The target has a non-configurable own [k]: the turn is skipped, nothing
      changes and nothing is logged. *)
Theorem transfer_copies_value_not_attributes
  (E : Env) (invoke : JsValue -> Mode -> list JsValue -> M JsValue)
  (st : State) (source target : loc) (so to : JsObject) (k : PropertyKey)
  (v : JsValue) (w e c : bool) :
  heap st !! source = Some so ->
  heap st !! target = Some to ->
  own_property (obj_props so) k = Some (DataProperty v w e c) ->
  buildInProps k = false ->
  (own_property (obj_props to) k = None -> obj_extensible to = true ->
   admits_assignment (lookup_chain (length (heap st)) (heap st) target k) = true ->
   transferProp E invoke (VObject source) (VObject target) k st
   = (mkState (<[target := with_props to
                   (put_property (obj_props to) k (DataProperty v true true true))]>
                 (heap st)) (trace st), Normal tt))
  /\ (forall v0 e0,
      own_property (obj_props to) k = Some (DataProperty v0 true e0 true) ->
      transferProp E invoke (VObject source) (VObject target) k st
      = (mkState (<[target := with_props to
                      (put_property (obj_props to) k (DataProperty v true e0 true))]>
                    (heap st)) (trace st), Normal tt))
  /\ (forall q,
      own_property (obj_props to) k = Some q ->
      prop_configurable q = true ->
      refuses_assignment q = true ->
      transferProp E invoke (VObject source) (VObject target) k st
      = (mkState (<[target := with_props to
                      (put_property (obj_props to) k (DataProperty v w e c))]>
                    (heap st)) (trace st), Normal tt))
  /\ (forall owner q,
      own_property (obj_props to) k = None -> obj_extensible to = true ->
      lookup_chain (length (heap st)) (heap st) target k = Found owner q ->
      refuses_assignment q = true ->
      transferProp E invoke (VObject source) (VObject target) k st
      = (mkState (<[target := with_props to
                      (put_property (obj_props to) k (DataProperty v w e c))]>
                    (heap st)) (trace st), Normal tt))
  /\ (own_property (obj_props to) k = None -> obj_extensible to = false ->
      holds_no_setter (lookup_chain (length (heap st)) (heap st) target k) = true ->
      transferProp E invoke (VObject source) (VObject target) k st
      = (mkState (heap st)
           (trace st ++ if DEV E then [EvWarnTransfer k] else []), Normal tt))
  /\ (forall q,
      own_property (obj_props to) k = Some q ->
      prop_configurable q = false ->
      transferProp E invoke (VObject source) (VObject target) k st = (st, Normal tt)).
Proof.
  intros Hs Ht Hown Hnb. destruct st as [h tr0]. cbn [heap trace] in *.
  assert (Hget : forall tr,
            GetV invoke (VObject source) k (mkState h tr)
            = (mkState h (tr ++ []), Normal v)).
  { intros tr. rewrite app_nil_r. apply GetV_data. unfold data_lookup. cbn [heap].
    rewrite (lookup_chain_own _ _ _ _ _ _ Hs Hown). reflexivity. }
  split; [ | split; [ | split; [ | split; [ | split]]]].
  - intros Hnone Hext Hchain.
    rewrite (transferProp_created E invoke h source target so to k _ v [] Hs Ht Hown Hnb
               Hget tr0 Hnone Hext Hchain).
    rewrite app_nil_r. reflexivity.
  - intros v0 e0 Hto.
    rewrite (transferProp_written E invoke h source target so to k _ v [] Hs Ht Hown Hnb
               Hget tr0 v0 e0 Hto).
    rewrite app_nil_r. reflexivity.
  - intros q Hto Hconf Hq.
    rewrite (transferProp_defined E invoke h source target so to k _ v [] Hs Ht Hown Hnb
               Hget tr0).
    + rewrite !app_nil_r. reflexivity.
    + rewrite Hto. exact Hconf.
    + apply (PutValue_refused invoke h target k v (tr0 ++ []) target q);
        [apply (lookup_chain_own _ _ _ _ _ _ Ht Hto) | exact Hq].
  - intros owner q Hnone Hext Hchain Hq.
    rewrite (transferProp_defined E invoke h source target so to k _ v [] Hs Ht Hown Hnb
               Hget tr0).
    + rewrite !app_nil_r. reflexivity.
    + rewrite Hnone. exact Hext.
    + apply (PutValue_refused invoke h target k v (tr0 ++ []) owner q Hchain Hq).
  - intros Hnone Hext Hchain.
    rewrite (transferProp_failed E invoke h source target so to k _ v [] Hs Ht Hown Hnb
               Hget tr0 Hnone Hext Hchain).
    reflexivity.
  - intros q Hto Hconf.
    apply (transferProp_skipped E invoke h source target so to k Hs Ht Hnb tr0 q Hto Hconf).
Qed.

(** The [constructor] of [Widget.prototype], which is not enumerable,
    copied onto [Widget], which has no property of that name: the copy is
    enumerable. *)
Lemma transfer_copies_value_not_attributes_witness :
  transferProp (quiet_host false) (run (quiet_host false) 1) (VObject 7) (VObject 6)
    (KString "constructor") page_state
  = (mkState
       (<[6 := with_props Widget
                 (put_property (obj_props Widget) (KString "constructor")
                    (DataProperty (VObject 6) true true true))]>
          (heap page_state)) [], Normal tt).
Proof.
  exact (proj1
    (transfer_copies_value_not_attributes (quiet_host false) (run (quiet_host false) 1)
       page_state 7 6 Widget_prototype Widget (KString "constructor") (VObject 6)
       true false true eq_refl eq_refl eq_refl eq_refl)
    eq_refl eq_refl eq_refl).
Defined.

(** What [fn.prototype] holds under a name, the empty object that
    inherits from it holds as well, in the store [bind] leaves behind. *)
Lemma bound_prototype_lookup h fn context fp ps k v :
  fp < length h ->
  data_lookup h fp k = Some v ->
  data_lookup (bound_heap h (VObject fn) context (VObject fp) ps) (length h + 4) k
  = Some v.
Proof.
  intros Hfp Hd.
  set (hb := bound_heap h (VObject fn) context (VObject fp) ps).
  assert (Hold : forall l o, h !! l = Some o -> hb !! l = Some o).
  { intros l o Hl. apply heap_extends. exact Hl. }
  assert (Hlen : length hb = length h + 6).
  { unfold hb, bound_heap. rewrite length_app. reflexivity. }
  assert (HI : hb !! (length h + 4) = Some (mkObject (VObject fp) true [] None false)).
  { unfold hb, bound_heap. rewrite lookup_new. reflexivity. }
  unfold data_lookup in Hd |- *.
  rewrite Hlen. replace (length h + 6) with (S (length h + 5)) by lia.
  cbn [lookup_chain]. rewrite HI. cbn [obj_props own_property obj_proto].
  destruct (lookup_chain (length h) h fp k) as [owner p | | ] eqn:Hc;
    try discriminate;
    rewrite (lookup_chain_stable _ _ _ _ _ (length h + 5) hb Hc ltac:(discriminate)
               ltac:(lia) Hold);
    exact Hd.
Qed.

(** X14. The prototype object of the wrapper is empty and inherits from
    [fn.prototype]: whatever [fn.prototype] reads under a name, the prototype
    object of the wrapper reads the same, [constructor] included, which is
    therefore the one of [fn.prototype] and not the wrapper. *)
Theorem bound_prototype_reads_through
  (E : Env) (fuel : nat) (st : State) (fn fp : loc) (fo : JsObject) (context : JsValue) :
  Bindable (heap st) fn fo (VObject fp) ->
  exists st' bound instance,
    bind E (run E (S fuel)) (VObject fn) context st = (st', Normal (VObject bound))
    /\ (forall invoke,
        GetV invoke (VObject bound) (KString "prototype") st'
        = (st', Normal (VObject instance)))
    /\ instance <> fp
    /\ (forall k v invoke,
        data_lookup (heap st) fp k = Some v ->
        GetV invoke (VObject fp) k st' = (st', Normal v)
        /\ GetV invoke (VObject instance) k st' = (st', Normal v)).
Proof.
  intros Hb.
  destruct (bind_plain E fuel st fn fo context (VObject fp) Hb) as [ps [Hbind _]].
  destruct Hb as [Hfn _ _ Hproto Hvalid].
  set (h := heap st) in *.
  set (hb := bound_heap h (VObject fn) context (VObject fp) ps) in *.
  assert (Hfp : fp < length h).
  { simpl in Hvalid. destruct (h !! fp) eqn:Hl; [ | discriminate].
    apply lookup_lt_Some in Hl. exact Hl. }
  assert (Hold : forall l o, h !! l = Some o -> hb !! l = Some o).
  { intros l o Hl. apply heap_extends. exact Hl. }
  assert (Hlen : length hb = length h + 6).
  { unfold hb, bound_heap. rewrite length_app. reflexivity. }
  assert (HW : hb !! length h
               = Some (mkObject (VObject FunctionPrototype) true
                         (wrapper_props (length h) ps)
                         (Some (CodeBound (VObject fn) context)) true)).
  { pose proof (bound_heap_wrapper h fn context (VObject fp) ps []) as Hw.
    rewrite app_nil_r in Hw. exact Hw. }
  assert (HI : hb !! (length h + 4) = Some (mkObject (VObject fp) true [] None false)).
  { unfold hb, bound_heap. rewrite lookup_new. reflexivity. }
  exists (mkState hb (trace st)), (length h), (length h + 4).
  split; [exact Hbind | ]. split; [ | split; [lia | ]].
  - intros invoke. apply GetV_data. unfold data_lookup. cbn [heap].
    erewrite lookup_chain_own;
      [ | exact HW | cbn [obj_props]; apply wrapper_props_prototype ].
    reflexivity.
  - intros k v invoke Hd. split.
    + apply GetV_data. cbn [heap]. apply (data_lookup_stable h); [exact Hd | exact Hold | lia].
    + apply GetV_data. cbn [heap]. apply bound_prototype_lookup; assumption.
Qed.

(** The wrapper of [Widget]: its prototype object, at place 12, reads
    [constructor] as [Widget.prototype] does, which gives [Widget]. *)
Lemma bound_prototype_reads_through_witness :
  exists st' instance,
    GetV (run (quiet_host false) 1) (VObject 8) (KString "prototype") st'
    = (st', Normal (VObject instance))
    /\ GetV (run (quiet_host false) 1) (VObject instance) (KString "constructor") st'
       = (st', Normal (VObject 6)).
Proof.
  destruct (bound_prototype_reads_through (quiet_host false) 0 page_state 6 7 Widget
              VUndefined page_state_bindable)
    as [st' [bound [instance [Hbind [Hproto [_ Hread]]]]]].
  injection Hbind as <- <-.
  eexists _, instance. split; [apply Hproto | ].
  exact (proj2 (Hread (KString "constructor") (VObject 6) (run (quiet_host false) 1)
                  eq_refl)).
Defined.

(** X15. [bind] accepts an object that is no function. The wrapper it returns
    for one is a function all the same ([typeof] says so), and the error only
    shows when the wrapper is used: for an object that has no [prototype] and no
    [apply], every call of the wrapper and every [new] throw a TypeError. *)
Theorem bound_of_what_is_no_function_throws
  (E : Env) (fuel fuel' : nat) (st : State) (fn : loc) (fo : JsObject)
  (context fnPrototype this : JsValue) (args : list JsValue) :
  Bindable (heap st) fn fo fnPrototype ->
  obj_call fo = None ->
  is_object fnPrototype = false ->
  data_lookup (heap st) fn (KString "apply") = Some VUndefined ->
  exists st' bound,
    bind E (run E (S fuel)) (VObject fn) context st = (st', Normal (VObject bound))
    /\ typeof (VObject bound) st' = (st', Normal "function")
    /\ run E (2 + fuel') (VObject bound) (AsCall this) args st' = (st', Throw TypeError)
    /\ snd (run E (2 + fuel') (VObject bound) (AsConstruct (VObject bound)) args st')
       = Throw TypeError.
Proof.
  intros Hb Hcall Hprim Happly.
  destruct (bind_plain E fuel st fn fo context fnPrototype Hb) as [ps [Hbind _]].
  destruct Hb as [Hfn _ _ Hproto Hvalid].
  set (h := heap st) in *.
  set (hb := bound_heap h (VObject fn) context fnPrototype ps) in *.
  set (W := mkObject (VObject FunctionPrototype) true (wrapper_props (length h) ps)
              (Some (CodeBound (VObject fn) context)) true).
  assert (HW : forall extra, (hb ++ extra) !! length h = Some W).
  { intros extra. apply bound_heap_wrapper. }
  assert (Hbody : forall extra receiver,
    bound_body (run E (S fuel')) (length h) (VObject fn) context receiver args
      (mkState (hb ++ extra) (trace st))
    = (mkState (hb ++ extra) (trace st), Throw TypeError)).
  { intros extra receiver. unfold bound_body, handlerParams.
    pose proof (instanceof_wrapper E h fn context fnPrototype ps Hproto Hvalid extra
                  (trace st) fuel' receiver) as Hiw.
    fold hb in Hiw. rewrite Hprim in Hiw.
    rewrite (bind_M_Normal _ _ _ _ _ Hiw).
    erewrite bind_M_Normal.
    2:{ apply GetV_data. cbn [heap].
        apply (data_lookup_stable h); [exact Happly | apply bound_heap_old | ].
        apply bound_heap_length. }
    reflexivity. }
  exists (mkState hb (trace st)), (length h).
  split; [exact Hbind | ]. split; [ | split].
  - unfold typeof, deref, bind_M, ret. cbn [heap].
    rewrite <- (app_nil_r hb), HW. reflexivity.
  - change (2 + fuel') with (S (S fuel')).
    rewrite (run_bound E (S fuel') _ (length h) W (VObject fn) context this args).
    + pose proof (Hbody [] this) as H. rewrite app_nil_r in H. exact H.
    + cbn [heap]. rewrite <- (app_nil_r hb). apply HW.
    + reflexivity.
  - change (2 + fuel') with (S (S fuel')).
    rewrite (run_bound_construct E (S fuel') _ (length h) W (VObject fn) context
               (VObject (length h)) args).
    + unfold ordinary_construct, OrdinaryCreateFromConstructor.
      erewrite bind_M_Normal.
      2:{ erewrite bind_M_Normal.
          2:{ apply GetV_data. unfold data_lookup. cbn [heap].
              erewrite lookup_chain_own;
                [ | rewrite <- (app_nil_r hb); apply HW
                  | apply wrapper_props_prototype ].
              reflexivity. }
          reflexivity. }
      cbn [heap trace]. erewrite bind_M_Throw; [reflexivity | ]. apply Hbody.
    + cbn [heap]. rewrite <- (app_nil_r hb). apply HW.
    + reflexivity.
    + reflexivity.
Qed.

(** The property at [Widget.prototype], a plain object: it can be bound,
    and the wrapper cannot be called. *)
Lemma bound_of_what_is_no_function_throws_witness :
  exists st' bound,
    bind (quiet_host false) (run (quiet_host false) 1) (VObject 7) VUndefined page_state
    = (st', Normal (VObject bound))
    /\ run (quiet_host false) 2 (VObject bound) (AsCall VUndefined) [] st'
       = (st', Throw TypeError).
Proof.
  destruct (bound_of_what_is_no_function_throws (quiet_host false) 0 0 page_state 7
              Widget_prototype VUndefined VUndefined VUndefined [])
    as [st' [bound [Hbind [_ [Hcall _]]]]].
  - constructor; reflexivity.
  - reflexivity.
  - reflexivity.
  - reflexivity.
  - exists st', bound. split; [exact Hbind | exact Hcall].
Defined.

(** X11. A static [k] of the source that is an accessor is not copied as an
    accessor. Let its getter be a function of the page that leaves the store
    as it is, and [k] be outside the protected names.
    When the getter returns a value:
    - on a target that has no own [k], can be extended and inherits no [k]
      or a writable data property, the assignment [target[key] = source[key]]
      runs the getter once and creates a writable, enumerable, configurable
      data property with what it returned, so the wrapper keeps the value of
      that moment;
    - on a target with a configurable writable data property [k] of its own
      the getter runs once and the value is written into that property;
    - where the assignment is refused without running code, by a
      configurable own [k] of the target that is read-only or an accessor
      without a setter, or by such a property inherited by a target that has
      no own [k] and can be extended, the getter runs twice, for the
      assignment and for the fallback, and [Object.defineProperty] stores
      the value as a read-only data property with the [enumerable] and
      [configurable] of the accessor;
    - on a target that has no own [k], cannot be extended and inherits no
      setter under [k], the getter runs twice, nothing is stored, and a
      development build logs the failure.
    When the getter throws and the target has no non-configurable own [k],
    the getter runs twice, the store is as it was, and a development build
    logs the failure. On a target with a non-configurable own [k] the getter
    does not run and nothing changes. *)
Theorem transfer_snapshots_a_getter
  (E : Env) (fuel : nat) (st : State) (source target getter : loc)
  (so to go : JsObject) (k : PropertyKey) (setter : JsValue) (e c : bool) (id : nat) :
  heap st !! source = Some so ->
  heap st !! target = Some to ->
  heap st !! getter = Some go ->
  own_property (obj_props so) k = Some (AccessorProperty (VObject getter) setter e c) ->
  obj_call go = Some (CodeHost id) ->
  buildInProps k = false ->
  (forall v,
     host_call E id getter (VObject source) [] (heap st) = (heap st, Normal v) ->
     (own_property (obj_props to) k = None -> obj_extensible to = true ->
      admits_assignment (lookup_chain (length (heap st)) (heap st) target k) = true ->
      transferProp E (run E (S fuel)) (VObject source) (VObject target) k st
      = (mkState (<[target := with_props to
                      (put_property (obj_props to) k (DataProperty v true true true))]>
                    (heap st))
           (trace st ++ [EvCall getter (VObject source) []]), Normal tt))
     /\ (forall v0 e0,
         own_property (obj_props to) k = Some (DataProperty v0 true e0 true) ->
         transferProp E (run E (S fuel)) (VObject source) (VObject target) k st
         = (mkState (<[target := with_props to
                         (put_property (obj_props to) k (DataProperty v true e0 true))]>
                       (heap st))
              (trace st ++ [EvCall getter (VObject source) []]), Normal tt))
     /\ (forall q,
         own_property (obj_props to) k = Some q ->
         prop_configurable q = true ->
         refuses_assignment q = true ->
         transferProp E (run E (S fuel)) (VObject source) (VObject target) k st
         = (mkState (<[target := with_props to
                         (put_property (obj_props to) k (DataProperty v false e c))]>
                       (heap st))
              (trace st ++ [EvCall getter (VObject source) [];
                            EvCall getter (VObject source) []]), Normal tt))
     /\ (forall owner q,
         own_property (obj_props to) k = None -> obj_extensible to = true ->
         lookup_chain (length (heap st)) (heap st) target k = Found owner q ->
         refuses_assignment q = true ->
         transferProp E (run E (S fuel)) (VObject source) (VObject target) k st
         = (mkState (<[target := with_props to
                         (put_property (obj_props to) k (DataProperty v false e c))]>
                       (heap st))
              (trace st ++ [EvCall getter (VObject source) [];
                            EvCall getter (VObject source) []]), Normal tt))
     /\ (own_property (obj_props to) k = None -> obj_extensible to = false ->
         holds_no_setter (lookup_chain (length (heap st)) (heap st) target k) = true ->
         transferProp E (run E (S fuel)) (VObject source) (VObject target) k st
         = (mkState (heap st)
              (trace st ++ [EvCall getter (VObject source) [];
                            EvCall getter (VObject source) []]
               ++ if DEV E then [EvWarnTransfer k] else []), Normal tt)))
  /\ (forall x,
      host_call E id getter (VObject source) [] (heap st) = (heap st, Throw x) ->
      match own_property (obj_props to) k with
      | Some q => prop_configurable q
      | None => true
      end = true ->
      transferProp E (run E (S fuel)) (VObject source) (VObject target) k st
      = (mkState (heap st)
           (trace st ++ [EvCall getter (VObject source) []; EvCall getter (VObject source) []]
            ++ if DEV E then [EvWarnTransfer k] else []), Normal tt))
  /\ (forall q,
      own_property (obj_props to) k = Some q ->
      prop_configurable q = false ->
      transferProp E (run E (S fuel)) (VObject source) (VObject target) k st
      = (st, Normal tt)).
Proof.
  intros Hs Ht Hg Hown Hcode Hnb.
  destruct st as [h tr0]. cbn [heap trace] in *.
  set (call := EvCall getter (VObject source) []).
  assert (Hread : forall tr,
            GetV (run E (S fuel)) (VObject source) k (mkState h tr)
            = (emit call ;;; run_host (host_call E id getter (VObject source) []))
                (mkState h tr)).
  { intros tr. unfold GetV, OrdinaryGet, get_heap, bind_M at 1, ret at 1. cbn [heap].
    rewrite (lookup_chain_own _ _ _ _ _ _ Hs Hown). cbn [is_undefined]. unfold Call.
    apply (run_host_function E fuel (mkState h tr) getter go id); assumption. }
  split; [ | split].
  - intros v Hhost.
    assert (Hget : forall tr,
              GetV (run E (S fuel)) (VObject source) k (mkState h tr)
              = (mkState h (tr ++ [call]), Normal v)).
    { intros tr. rewrite Hread. unfold emit, run_host, bind_M. cbn [heap trace].
      rewrite Hhost. reflexivity. }
    split; [ | split; [ | split; [ | split]]].
    + intros Hnone Hext Hchain.
      apply (transferProp_created E (run E (S fuel)) h source target so to k _ v [call]
               Hs Ht Hown Hnb Hget tr0 Hnone Hext Hchain).
    + intros v0 e0 Hto.
      apply (transferProp_written E (run E (S fuel)) h source target so to k _ v [call]
               Hs Ht Hown Hnb Hget tr0 v0 e0 Hto).
    + intros q Hto Hconf Hq.
      apply (transferProp_defined E (run E (S fuel)) h source target so to k _ v [call]
               Hs Ht Hown Hnb Hget tr0).
      * rewrite Hto. exact Hconf.
      * apply (PutValue_refused (run E (S fuel)) h target k v (tr0 ++ [call]) target q);
          [apply (lookup_chain_own _ _ _ _ _ _ Ht Hto) | exact Hq].
    + intros owner q Hnone Hext Hchain Hq.
      apply (transferProp_defined E (run E (S fuel)) h source target so to k _ v [call]
               Hs Ht Hown Hnb Hget tr0).
      * rewrite Hnone. exact Hext.
      * apply (PutValue_refused (run E (S fuel)) h target k v (tr0 ++ [call]) owner q
                 Hchain Hq).
    + intros Hnone Hext Hchain.
      apply (transferProp_failed E (run E (S fuel)) h source target so to k _ v [call]
               Hs Ht Hown Hnb Hget tr0 Hnone Hext Hchain).
  - intros x Hhost Hconf.
    rewrite (transferProp_try E (run E (S fuel)) h source target so to k _ Hs Ht Hown Hnb
               tr0 Hconf).
    erewrite try_catch_Throw.
    2:{ erewrite bind_M_Throw; [reflexivity | ].
        rewrite Hread. unfold emit, run_host, bind_M. cbn [heap trace].
        rewrite Hhost. reflexivity. }
    erewrite try_catch_Throw.
    2:{ erewrite bind_M_Throw; [reflexivity | ].
        rewrite Hread. unfold emit, run_host, bind_M. cbn [heap trace].
        rewrite Hhost. reflexivity. }
    destruct (DEV E); unfold emit, ret; cbn [heap trace];
      rewrite <- ?app_assoc, ?app_nil_r; reflexivity.
  - intros q Hto Hconf.
    apply (transferProp_skipped E (run E (S fuel)) h source target so to k Hs Ht Hnb tr0 q
             Hto Hconf).
Qed.

(** The static [stamp] of [Clock], a getter that gives 42, copied onto the
    object at place 7: the getter runs once, and 42 is stored. *)
Lemma transfer_snapshots_a_getter_witness :
  transferProp clock_host (run clock_host 1) (VObject 6) (VObject 7) (KString "stamp")
    clock_state
  = (mkState
       (<[7 := with_props Widget_prototype
                 (put_property (obj_props Widget_prototype) (KString "stamp")
                    (DataProperty (VNumber (number_of_nat 42)) true true true))]>
          (heap clock_state))
       [EvCall 8 (VObject 6) []], Normal tt).
Proof.
  exact (proj1
    (proj1
       (transfer_snapshots_a_getter clock_host 0 clock_state 6 7 8 Clock Widget_prototype
          (builtin (CodeHost 1) "get stamp" 0) (KString "stamp") VUndefined true true 1
          eq_refl eq_refl eq_refl eq_refl eq_refl eq_refl)
       (VNumber (number_of_nat 42)) eq_refl)
    eq_refl eq_refl eq_refl).
Defined.

(** X29. Binding a function whose statics are plain runs nothing: [fn] is
    neither called nor constructed and nothing is logged, so the trace after
    [bind] is the trace before. [bind] adds six objects to the store (the
    wrapper and [fNOP] with the prototype objects they are created with, the
    instance of [fNOP], the instance-check method); the wrapper is the first of
    them, it can be called and constructed, and it inherits from
    [Function.prototype]. *)
Theorem bind_runs_nothing
  (E : Env) (fuel : nat) (st : State) (fn : loc) (fo : JsObject)
  (context fnPrototype : JsValue) :
  Bindable (heap st) fn fo fnPrototype ->
  exists st' bo,
    bind E (run E (S fuel)) (VObject fn) context st
    = (st', Normal (VObject (length (heap st))))
    /\ trace st' = trace st
    /\ length (heap st') = length (heap st) + 6
    /\ heap st' !! length (heap st) = Some bo
    /\ obj_call bo = Some (CodeBound (VObject fn) context)
    /\ obj_construct bo = true
    /\ obj_extensible bo = true
    /\ obj_proto bo = VObject FunctionPrototype.
Proof.
  intros Hb.
  destruct (bind_plain E fuel st fn fo context fnPrototype Hb) as [ps [Hbind _]].
  destruct Hb as [Hfn _ _ Hproto Hvalid].
  pose proof (bound_heap_wrapper (heap st) fn context fnPrototype ps []) as Hw.
  rewrite app_nil_r in Hw.
  eexists _, _. split; [exact Hbind | ]. cbn [heap trace].
  split; [reflexivity | ].
  split; [unfold bound_heap; rewrite length_app; reflexivity | ].
  split; [exact Hw | ]. repeat split.
Qed.

(** [bind(Widget, undefined)]: the trace stays empty. *)
Lemma bind_runs_nothing_witness :
  trace page_bound_state = [] /\ length (heap page_bound_state) = 8 + 6.
Proof.
  destruct (bind_runs_nothing (quiet_host false) 0 page_state 6 Widget VUndefined
              (VObject 7) page_state_bindable) as [st' [bo [Hbind [Htrace [Hlen _]]]]].
  assert (Hst : st' = page_bound_state).
  { unfold page_bound_state. rewrite Hbind. reflexivity. }
  subst st'. split; [exact Htrace | exact Hlen].
Defined.

(* ===================================================================== *)
(** ** [safeToString] and [isConstructor] *)
(* ===================================================================== *)

(** *** The two patterns *)

Lemma after_prefix_spec p : forall s rest,
  after_prefix p s = Some rest <-> s = (p ++ rest)%string.
Proof.
  induction p as [ | a p IH]; intros s rest; simpl.
  - split; [intros [= ->]; reflexivity | intros ->; reflexivity].
  - destruct s as [ | b s]; [split; discriminate | ].
    destruct (decide (a = b)) as [<- | Hne].
    + rewrite bool_decide_eq_true_2 by reflexivity. rewrite IH.
      split; [intros ->; reflexivity | intros [= ->]; reflexivity].
    + rewrite bool_decide_eq_false_2 by exact Hne.
      split; [discriminate | intros [= -> _]; contradiction].
Qed.

(** The white space at the start of a string is all that
    [skip_white_space] takes. *)
Lemma skip_white_space_spec s :
  exists ws,
    s = (ws ++ skip_white_space s)%string
    /\ Forall (fun ch => is_white_space ch = true) (list_ascii_of_string ws)
    /\ match skip_white_space s with
       | String d _ => is_white_space d = false
       | EmptyString => True
       end.
Proof.
  induction s as [ | c s [ws [Hs [Hws Hnext]]]]; simpl.
  - exists "". repeat split. constructor.
  - destruct (is_white_space c) eqn:Hc.
    + exists (String c ws). split; [exact (f_equal (String c) Hs) | ].
      split; [constructor; assumption | exact Hnext].
    + exists "". simpl. split; [reflexivity | split; [constructor | exact Hc]].
Qed.

Lemma skip_white_space_app ws s :
  Forall (fun ch => is_white_space ch = true) (list_ascii_of_string ws) ->
  skip_white_space (ws ++ s)%string = skip_white_space s.
Proof.
  induction ws as [ | c ws IH]; simpl; intros H; [reflexivity | ].
  inversion H as [ | ? ? Hc Hws]; subst. rewrite Hc. apply IH. exact Hws.
Qed.

Lemma upper_letter_is_no_white_space c :
  is_upper_letter c = true -> is_white_space c = false.
Proof.
  unfold is_upper_letter, is_white_space. cbv zeta.
  destruct (N_of_ascii c) as [ | n]; [discriminate | ].
  intros H. apply andb_true_iff in H. destruct H as [H1 H2].
  apply N.leb_le in H1. apply N.leb_le in H2.
  apply orb_false_iff. split; [apply orb_false_iff; split | ].
  - apply andb_false_iff. right. apply N.leb_gt. lia.
  - apply N.eqb_neq. lia.
  - apply N.eqb_neq. lia.
Qed.

(** X18. What the two patterns accept. [/^function\s+[A-Z]/]: the word
    [function], white space, and a capital letter; the name of a function
    declaration that starts with a capital letter is the case in mind.
    [/^class\b/]: the word [class] where a word ends. *)
Theorem constructor_patterns_spec (s : string) :
  (matches_function_pattern s = true
   <-> exists ws c rest,
         s = ("function" ++ ws ++ String c rest)%string
         /\ ws <> ""
         /\ Forall (fun ch => is_white_space ch = true) (list_ascii_of_string ws)
         /\ is_upper_letter c = true)
  /\ (matches_class_pattern s = true
      <-> s = "class"
          \/ exists c rest, s = ("class" ++ String c rest)%string
                            /\ is_word_char c = false)
  /\ (matches_function_pattern "function Widget(a, b) { }" = true
      /\ matches_function_pattern "function widget() { }" = false
      /\ matches_function_pattern "function () { }" = false
      /\ matches_function_pattern "function* Steps() { }" = false
      /\ matches_function_pattern "async function Load() { }" = false
      /\ matches_function_pattern "() => { }" = false
      /\ matches_class_pattern "class point { }" = true
      /\ matches_class_pattern "class{ }" = true
      /\ matches_class_pattern "classes()" = false
      /\ matches_function_pattern "[toString failed]"
         || matches_class_pattern "[toString failed]" = false).
Proof.
  split; [ | split].
  - unfold matches_function_pattern. split.
    + destruct (after_prefix "function" s) as [[ | c rest] | ] eqn:Hp; try discriminate.
      apply after_prefix_spec in Hp. intros H. apply andb_true_iff in H.
      destruct H as [Hc Hd].
      destruct (skip_white_space_spec rest) as [ws [Hrest [Hws _]]].
      destruct (skip_white_space rest) as [ | d rest'] eqn:Hskip; [discriminate | ].
      exists (String c ws), d, rest'. split; [ | split; [discriminate | split]].
      * rewrite Hp, Hrest. reflexivity.
      * constructor; assumption.
      * exact Hd.
    + intros [ws [c [rest [-> [Hne [Hws Hc]]]]]].
      destruct ws as [ | w ws]; [contradiction | ].
      replace (after_prefix "function"
                 ("function" ++ String w ws ++ String c rest)%string)
        with (Some (String w (ws ++ String c rest)%string))
        by (symmetry; apply after_prefix_spec; reflexivity).
      inversion Hws as [ | ? ? Hw Hws']; subst. rewrite Hw.
      rewrite (skip_white_space_app _ _ Hws'). simpl.
      rewrite (upper_letter_is_no_white_space _ Hc). exact Hc.
  - unfold matches_class_pattern. split.
    + destruct (after_prefix "class" s) as [[ | c rest] | ] eqn:Hp; try discriminate.
      * apply after_prefix_spec in Hp. intros _. left. exact Hp.
      * apply after_prefix_spec in Hp. intros H. right. exists c, rest.
        split; [exact Hp | ]. apply negb_true_iff. exact H.
    + intros [-> | [c [rest [-> Hc]]]]; [reflexivity | ].
      replace (after_prefix "class" ("class" ++ String c rest)%string)
        with (Some (String c rest))
        by (symmetry; apply after_prefix_spec; reflexivity).
      apply negb_true_iff. exact Hc.
  - repeat split; reflexivity.
Qed.

(** *** [safeToString] *)


(** X17. [safeToString] never throws: what [thing.toString()] throws, and the
    TypeError of a [thing] that is [undefined] or [null] or whose [toString] is
    no function, all end in the string ["[toString failed]"]. Whatever
    [toString] returns is handed on as it is, string or not. *)
Theorem safeToString_never_throws
  (E : Env) (fuel : nat) (thing : JsValue) (st : State) :
  match snd (safeToString (run E fuel) thing st) with
  | Throw _ => False
  | _ => True
  end
  /\ (thing = VUndefined \/ thing = VNull ->
      safeToString (run E fuel) thing st = (st, Normal (VString "[toString failed]")))
  /\ (forall l v,
      thing = VObject l ->
      data_lookup (heap st) l (KString "toString") = Some v ->
      IsCallable v st = (st, Normal false) ->
      safeToString (run E (S fuel)) thing st
      = (st, Normal (VString "[toString failed]")))
  /\ (forall l f st' e,
      thing = VObject l ->
      data_lookup (heap st) l (KString "toString") = Some f ->
      run E fuel f (AsCall thing) [] st = (st', Throw e) ->
      safeToString (run E fuel) thing st = (st', Normal (VString "[toString failed]")))
  /\ (forall l f st' r,
      thing = VObject l ->
      data_lookup (heap st) l (KString "toString") = Some f ->
      run E fuel f (AsCall thing) [] st = (st', Normal r) ->
      safeToString (run E fuel) thing st = (st', Normal r)).
Proof.
  split; [ | split; [ | split; [ | split]]].
  - unfold safeToString, try_catch.
    destruct ((toString <- GetV (run E fuel) thing (KString "toString") ;;
               Call (run E fuel) toString thing []) st) as [st' [r | e | | ]];
      exact I.
  - intros [-> | ->]; reflexivity.
  - intros l v -> Hd Hcall. unfold safeToString.
    erewrite (try_catch_Throw _ _ st st TypeError); [reflexivity | ].
    rewrite (bind_M_Normal _ _ _ _ _ (GetV_data _ st l _ _ Hd)).
    unfold Call. cbn [run]. unfold invoke_step.
    destruct v as [ | | b | n | z | s | s | f]; try reflexivity.
    unfold IsCallable, deref, bind_M, ret in Hcall |- *.
    destruct (heap st !! f) as [o | ]; [ | discriminate].
    injection Hcall as Hcall. destruct (obj_call o); [discriminate | reflexivity].
  - intros l f st' e -> Hd Hrun. unfold safeToString.
    erewrite (try_catch_Throw _ _ st st' e); [reflexivity | ].
    rewrite (bind_M_Normal _ _ _ _ _ (GetV_data _ st l _ _ Hd)). exact Hrun.
  - intros l f st' r -> Hd Hrun. unfold safeToString.
    apply try_catch_Normal.
    rewrite (bind_M_Normal _ _ _ _ _ (GetV_data _ st l _ _ Hd)). exact Hrun.
Qed.

(** [safeToString] on [Widget.prototype], in a realm that has no
    [Object.prototype.toString]: the TypeError is caught. *)
Lemma safeToString_never_throws_witness :
  safeToString (run (quiet_host false) 1) (VObject 7) page_state
  = (page_state, Normal (VString "[toString failed]")).
Proof.
  exact (proj1 (proj2 (proj2
    (safeToString_never_throws (quiet_host false) 0 (VObject 7) page_state)))
    7 VUndefined eq_refl eq_refl eq_refl).
Defined.

(** *** [isConstructor] *)

(** What [hasConstructor] can be: a falsy value, or a boolean. *)
Lemma hasConstructor_value invoke fn fp st st' hc :
  (if ToBoolean fp then
     constructor <- GetV invoke fp (KString "constructor") ;;
     if IsStrictlyEqual constructor fn then
       names <- Object_getOwnPropertyNames fp ;;
       ret (VBool (Nat.ltb 1 (List.length names)))
     else ret (VBool false)
   else ret fp) st = (st', Normal hc) ->
  ToBoolean hc = false \/ hc = VBool true.
Proof.
  destruct (ToBoolean fp) eqn:Hfp.
  - unfold bind_M.
    destruct (GetV invoke fp (KString "constructor") st) as [st1 [c | e | | ]];
      try discriminate.
    destruct (IsStrictlyEqual c fn).
    + destruct (Object_getOwnPropertyNames fp st1) as [st2 [names | e | | ]];
        try discriminate.
      intros [= <- <-]. destruct (Nat.ltb 1 (List.length names)); auto.
    + intros [= <- <-]. auto.
  - intros [= <- <-]. auto.
Qed.

(** X19. [isConstructor] answers with a boolean whenever it answers, although
    [hasConstructor] may be any falsy value. It throws where [fn.prototype]
    cannot be read: on [undefined] and [null]. *)
Theorem isConstructor_answers_with_a_boolean
  (invoke : JsValue -> Mode -> list JsValue -> M JsValue)
  (fn : JsValue) (st st' : State) (r : JsValue) :
  isConstructor invoke fn st = (st', Normal r) ->
  (exists b, r = VBool b)
  /\ fn <> VUndefined /\ fn <> VNull
  /\ isConstructor invoke VUndefined st = (st, Throw TypeError)
  /\ isConstructor invoke VNull st = (st, Throw TypeError).
Proof.
  intros H.
  split; [ | split; [ | split; [ | split; reflexivity]]];
    try (intros ->; discriminate).
  unfold isConstructor in H. unfold bind_M at 1 in H.
  destruct (GetV invoke fn (KString "prototype") st) as [st1 [fp | e | | ]];
    try discriminate.
  unfold bind_M at 1 in H.
  match type of H with
  | context [match ?m st1 with _ => _ end] => destruct (m st1) as [st2 [hc | e | | ]] eqn:Hhc
  end; try discriminate.
  apply hasConstructor_value in Hhc.
  unfold bind_M at 1 in H.
  match type of H with
  | context [match ?m st2 with _ => _ end] => destruct (m st2) as [st3 [str | e | | ]]
  end; try discriminate.
  destruct Hhc as [Hhc | ->].
  - rewrite Hhc in H. unfold bind_M in H.
    destruct (RegExp_test invoke matches_function_pattern str st3)
      as [st4 [[ | ] | e | | ]]; try discriminate.
    + injection H as _ <-. eauto.
    + destruct (RegExp_test invoke matches_class_pattern str st4)
        as [st5 [b | e | | ]]; try discriminate.
      injection H as _ <-. eauto.
  - cbn [ToBoolean] in H. injection H as _ <-. eauto.
Qed.

(** [isConstructor(Widget)] in a realm where functions have no [toString]:
    the answer is a boolean. *)
Lemma isConstructor_answers_with_a_boolean_witness :
  exists b,
    snd (isConstructor (run (quiet_host false) 2) (VObject 6) page_state)
    = Normal (VBool b).
Proof.
  destruct (proj1
    (isConstructor_answers_with_a_boolean (run (quiet_host false) 2) (VObject 6)
       page_state page_state (VBool false) eq_refl)) as [b Hb].
  exists b. rewrite <- Hb. reflexivity.
Defined.

(** X20. A function whose [prototype] object holds the back link [constructor]
    and at least one more own string-keyed property is a constructor for
    [isConstructor], whatever its text: [toString] is not called and nothing
    runs. *)
Theorem isConstructor_by_its_prototype
  (invoke : JsValue -> Mode -> list JsValue -> M JsValue)
  (st : State) (fn fp : loc) (po : JsObject) :
  data_lookup (heap st) fn (KString "prototype") = Some (VObject fp) ->
  heap st !! fp = Some po ->
  data_lookup (heap st) fp (KString "constructor") = Some (VObject fn) ->
  1 < List.length (string_keys (OrdinaryOwnPropertyKeys po)) ->
  isConstructor invoke (VObject fn) st = (st, Normal (VBool true)).
Proof.
  intros Hproto Hfp Hcons Hnames. unfold isConstructor.
  rewrite (bind_M_Normal _ _ _ _ _ (GetV_data _ st fn _ _ Hproto)).
  cbn [ToBoolean].
  erewrite bind_M_Normal.
  2:{ rewrite (bind_M_Normal _ _ _ _ _ (GetV_data _ st fp _ _ Hcons)).
      unfold IsStrictlyEqual. rewrite bool_decide_eq_true_2 by reflexivity.
      unfold Object_getOwnPropertyNames, deref, bind_M, ret. rewrite Hfp.
      apply Nat.ltb_lt in Hnames. rewrite Hnames. reflexivity. }
  reflexivity.
Qed.

(** [Gadget], whose prototype has [constructor] and [kind]. *)
Lemma isConstructor_by_its_prototype_witness :
  isConstructor (run text_host 0) (VObject 7) text_state
  = (text_state, Normal (VBool true)).
Proof.
  exact (isConstructor_by_its_prototype (run text_host 0) text_state 7 8
           (nth 8 text_heap Widget) eq_refl eq_refl eq_refl (le_n 2)).
Defined.

(** Without such a prototype the text decides: [hasConstructor] is falsy,
    and what [safeToString] returns goes to the two patterns. *)
Lemma isConstructor_reads_text invoke st fn fpv :
  data_lookup (heap st) fn (KString "prototype") = Some fpv ->
  (ToBoolean fpv = false
   \/ exists fp po c,
        fpv = VObject fp
        /\ heap st !! fp = Some po
        /\ data_lookup (heap st) fp (KString "constructor") = Some c
        /\ (c <> VObject fn
            \/ List.length (string_keys (OrdinaryOwnPropertyKeys po)) <= 1)) ->
  isConstructor invoke (VObject fn) st
  = (functionStr <- safeToString invoke (VObject fn) ;;
     isFunction <- RegExp_test invoke matches_function_pattern functionStr ;;
     if isFunction then ret (VBool true)
     else
       isClass <- RegExp_test invoke matches_class_pattern functionStr ;;
       ret (VBool isClass)) st.
Proof.
  intros Hproto Hno. unfold isConstructor.
  rewrite (bind_M_Normal _ _ _ _ _ (GetV_data _ st fn _ _ Hproto)).
  assert (Hhc : exists hc,
            (if ToBoolean fpv then
               constructor <- GetV invoke fpv (KString "constructor") ;;
               if IsStrictlyEqual constructor (VObject fn) then
                 names <- Object_getOwnPropertyNames fpv ;;
                 ret (VBool (Nat.ltb 1 (List.length names)))
               else ret (VBool false)
             else ret fpv) st = (st, Normal hc)
            /\ ToBoolean hc = false).
  { destruct Hno as [Hfalsy | [fp [po [c [-> [Hfp [Hcons Hwhy]]]]]]].
    - rewrite Hfalsy. exists fpv. split; [reflexivity | exact Hfalsy].
    - cbn [ToBoolean]. exists (VBool false). split; [ | reflexivity].
      rewrite (bind_M_Normal _ _ _ _ _ (GetV_data _ st fp _ _ Hcons)).
      destruct (IsStrictlyEqual c (VObject fn)) eqn:Heq; [ | reflexivity].
      destruct Hwhy as [Hne | Hlen].
      + exfalso. apply Hne. destruct c; try discriminate.
        unfold IsStrictlyEqual in Heq. apply bool_decide_eq_true in Heq. exact Heq.
      + unfold Object_getOwnPropertyNames, deref, bind_M, ret. rewrite Hfp.
        replace (Nat.ltb 1 _) with false; [reflexivity | ].
        symmetry. apply Nat.ltb_ge. exact Hlen. }
  destruct Hhc as [hc [Hhc Hfalse]].
  rewrite (bind_M_Normal _ _ _ _ _ Hhc). rewrite Hfalse. reflexivity.
Qed.






(** X28. [isConstructor] is not as safe as [safeToString]: the patterns turn
    what [toString] returned into a string, so a [toString] that returns a
    symbol makes [isConstructor] throw a TypeError. Where it returns
    [undefined], [null], a boolean, [NaN], a zero or an infinity, the string of
    that value matches no pattern and the answer is [false]. *)
Theorem isConstructor_on_a_text_that_is_no_string
  (invoke : JsValue -> Mode -> list JsValue -> M JsValue)
  (st st' : State) (fn : loc) (fpv r : JsValue) :
  data_lookup (heap st) fn (KString "prototype") = Some fpv ->
  (ToBoolean fpv = false
   \/ exists fp po c,
        fpv = VObject fp
        /\ heap st !! fp = Some po
        /\ data_lookup (heap st) fp (KString "constructor") = Some c
        /\ (c <> VObject fn
            \/ List.length (string_keys (OrdinaryOwnPropertyKeys po)) <= 1)) ->
  safeToString invoke (VObject fn) st = (st', Normal r) ->
  (forall s, r = VSymbol s ->
     isConstructor invoke (VObject fn) st = (st', Throw TypeError))
  /\ (r = VUndefined \/ r = VNull \/ (exists b, r = VBool b)
      \/ r = NaN \/ (exists sign, r = VNumber (S754_zero sign))
      \/ (exists sign, r = VNumber (S754_infinity sign)) ->
      isConstructor invoke (VObject fn) st = (st', Normal (VBool false))).
Proof.
  intros Hproto Hno Hstr.
  rewrite (isConstructor_reads_text invoke st fn fpv Hproto Hno).
  rewrite (bind_M_Normal _ _ _ _ _ Hstr).
  split.
  - intros s ->. reflexivity.
  - intros [-> | [-> | [[[ | ] ->] | [-> | [[[ | ] ->] | [[ | ] ->]]]]]]; reflexivity.
Qed.

(** [helper] in a realm whose [toString] returns [undefined]: the string
    ["undefined"] matches no pattern. *)
Lemma isConstructor_on_a_text_that_is_no_string_witness :
  isConstructor (run (quiet_host false) 2) (VObject 9) text_state
  = (mkState text_heap [EvCall 6 (VObject 9) []], Normal (VBool false)).
Proof.
  exact (proj2
    (isConstructor_on_a_text_that_is_no_string (run (quiet_host false) 2) text_state
       (mkState text_heap [EvCall 6 (VObject 9) []]) 9 (VObject 10) VUndefined eq_refl
       (or_intror (ex_intro _ 10 (ex_intro _ (nth 10 text_heap Widget)
          (ex_intro _ (VObject 9)
             (conj eq_refl (conj eq_refl (conj eq_refl (or_intror (le_n 1)))))))))
       eq_refl)
    (or_introl eq_refl)).
Defined.

(* ===================================================================== *)
(** ** Instances made through the wrapper *)
(* ===================================================================== *)

(** X16. What [new bound(...args)] returns is an instance of the wrapper and of
    [fn]: for an everyday function [fn] whose constructor makes a new object,
    the object that [new bound(...args)] returns has the prototype object of the
    wrapper as its prototype, and both [obj instanceof bound] and [obj
    instanceof fn] hold. [fn] is constructed once, with itself as [new.target]. *)
Theorem instances_of_the_wrapper_pass_both_checks
  (E : Env) (fuel fuel' : nat) (st : State) (fn fp : loc) (fo made : JsObject)
  (context : JsValue) (args : list JsValue) (id : nat) :
  Bindable (heap st) fn fo (VObject fp) ->
  Everyday (heap st) fn fo ->
  obj_call fo = Some (CodeHost id) ->
  obj_construct fo = true ->
  chain_reaches (length (heap st)) (heap st) (VObject fp) (length (heap st))
  = Some false ->
  obj_extensible made = true ->
  (forall h', host_construct E id fn args (VObject fn) h'
              = (h' ++ [made], Normal (VObject (length h')))) ->
  exists st' bound st2 obj instance,
    bind E (run E (S fuel)) (VObject fn) context st = (st', Normal (VObject bound))
    /\ run E (3 + fuel') (VObject bound) (AsConstruct (VObject bound)) args st'
       = (st2, Normal (VObject obj))
    /\ GetV (run E fuel') (VObject bound) (KString "prototype") st2
       = (st2, Normal (VObject instance))
    /\ heap st2 !! obj = Some (with_proto made (VObject instance))
    /\ InstanceofOperator (run E (2 + fuel')) (VObject obj) (VObject bound) st2
       = (st2, Normal true)
    /\ InstanceofOperator (run E (1 + fuel')) (VObject obj) (VObject fn) st2
       = (st2, Normal true)
    /\ trace st2 = trace st ++ [EvConstruct fn args (VObject fn)].
Proof.
  intros Hb Hev Hid Hcons Hends Hmade Hhost.
  destruct (bind_plain E fuel st fn fo context (VObject fp) Hb) as [ps [Hbind _]].
  destruct Hb as [Hfn _ _ Hproto Hvalid].
  set (h := heap st) in *.
  set (hb := bound_heap h (VObject fn) context (VObject fp) ps) in *.
  set (st' := mkState hb (trace st)) in *.
  set (W := mkObject (VObject FunctionPrototype) true (wrapper_props (length h) ps)
              (Some (CodeBound (VObject fn) context)) true).
  set (T := mkObject (VObject (length h + 4)) true [] None false).
  set (M' := with_proto made (VObject (length h + 4))).
  set (tr2 := trace st ++ [EvConstruct fn args (VObject fn)]).
  assert (Hfp : fp < length h).
  { simpl in Hvalid. destruct (h !! fp) eqn:Hl; [ | discriminate].
    apply lookup_lt_Some in Hl. exact Hl. }
  assert (Hold : forall extra l o, h !! l = Some o -> (hb ++ extra) !! l = Some o).
  { intros extra l o. apply bound_heap_old. }
  assert (HW : forall extra, (hb ++ extra) !! length h = Some W).
  { intros extra. apply bound_heap_wrapper. }
  assert (HW0 : hb !! length h = Some W).
  { rewrite <- (app_nil_r hb). apply HW. }
  assert (HI : forall extra,
             (hb ++ extra) !! (length h + 4)
             = Some (mkObject (VObject fp) true [] None false)).
  { intros extra. unfold hb, bound_heap. rewrite <- app_assoc, lookup_new. reflexivity. }
  assert (Hlen : length hb = length h + 6).
  { unfold hb, bound_heap. rewrite length_app. reflexivity. }
  assert (Hget : forall invoke extra tr,
             GetV invoke (VObject (length h)) (KString "prototype")
               (mkState (hb ++ extra) tr)
             = (mkState (hb ++ extra) tr, Normal (VObject (length h + 4)))).
  { intros invoke extra tr. apply GetV_data. unfold data_lookup. cbn [heap].
    erewrite lookup_chain_own; [ | apply HW | apply wrapper_props_prototype ].
    reflexivity. }
  assert (Hinst : forall extra tr f x ox,
             (hb ++ extra) !! x = Some ox ->
             obj_proto ox = VObject (length h + 4) ->
             InstanceofOperator (run E (S (S f))) (VObject x) (VObject (length h))
               (mkState (hb ++ extra) tr)
             = (mkState (hb ++ extra) tr, Normal true)
             /\ InstanceofOperator (run E (S f)) (VObject x) (VObject fn)
                  (mkState (hb ++ extra) tr)
                = (mkState (hb ++ extra) tr, Normal true)).
  { intros extra tr f x ox Hx Hpx.
    assert (Hfn_check :
              InstanceofOperator (run E (S f)) (VObject x) (VObject fn)
                (mkState (hb ++ extra) tr)
              = (mkState (hb ++ extra) tr, Normal true)).
    { rewrite (instanceof_everyday E h fn fo (VObject fp) Hfn Hproto
                 (mkState (hb ++ extra) tr) f (VObject x) fp Hev eq_refl).
      - unfold inherits_from. cbn [heap].
        assert (Hpos : exists m, length (hb ++ extra) = S m).
        { rewrite length_app, Hlen. exists (length h + 5 + length extra). lia. }
        destruct Hpos as [m ->].
        erewrite (proto_chain_has_second m (hb ++ extra) x (length h + 4) fp ox).
        + reflexivity.
        + exact Hx.
        + exact Hpx.
        + lia.
        + apply HI.
        + reflexivity.
      - cbn [heap]. apply Hold.
      - cbn [heap]. rewrite length_app. lia. }
    split; [ | exact Hfn_check].
    pose proof (instanceof_wrapper E h fn context (VObject fp) ps Hproto Hvalid extra
                  tr (S f) (VObject x)) as Hiw.
    fold hb in Hiw. cbn [is_object] in Hiw. rewrite Hiw. exact Hfn_check. }
  exists st', (length h), (mkState (hb ++ [T; M']) tr2), (length hb + 1), (length h + 4).
  change (3 + fuel') with (S (S (S fuel'))).
  change (2 + fuel') with (S (S fuel')).
  change (1 + fuel') with (S fuel').
  split; [exact Hbind | ].
  assert (HM : (hb ++ [T; M']) !! (length hb + 1) = Some M').
  { rewrite lookup_new. reflexivity. }
  split; [ | split; [apply Hget | split; [exact HM | ]]].
  2:{ destruct (Hinst [T; M'] tr2 fuel' (length hb + 1) M' HM eq_refl) as [H1 H2].
      split; [exact H1 | split; [exact H2 | reflexivity]]. }
  (* new bound(...args) *)
  rewrite (run_bound_construct E (S (S fuel')) st' (length h) W _ _ _ _ HW0 eq_refl eq_refl).
  unfold ordinary_construct, OrdinaryCreateFromConstructor.
  assert (Hcreate :
    (proto <- GetV (run E (S (S fuel'))) (VObject (length h)) (KString "prototype") ;;
     alloc (mkObject (match proto with
                      | VObject _ => proto
                      | _ => VObject ObjectPrototype
                      end) true [] None false)) st'
    = (mkState (hb ++ [T]) (trace st), Normal (length hb))).
  { unfold st'. rewrite <- (app_nil_r hb) at 1.
    rewrite (bind_M_Normal _ _ _ _ _ (Hget _ [] _)).
    unfold alloc. cbn [heap trace]. rewrite app_nil_r. reflexivity. }
  rewrite (bind_M_Normal _ _ _ _ _ Hcreate).
  assert (HT : (hb ++ [T]) !! length hb = Some T).
  { apply list_lookup_middle. reflexivity. }
  erewrite bind_M_Normal.
  2:{ unfold bound_body, handlerParams.
      rewrite (bind_M_Normal _ _ _ _ _
                 (proj1 (Hinst [T] (trace st) fuel' (length hb) T HT eq_refl))).
      (* new fn(...args) *)
      unfold Construct.
      erewrite bind_M_Normal.
      2:{ rewrite (run_host_construct E (S fuel') (mkState (hb ++ [T]) (trace st))
                     fn fo id (VObject fn) args (Hold [T] _ _ Hfn) Hid Hcons).
          unfold emit, run_host, bind_M. cbn [heap trace]. rewrite Hhost. reflexivity. }
      rewrite <- app_assoc. cbn [app]. fold tr2.
      rewrite (bind_M_Normal _ _ _ _ _ (Hget _ [T; made] tr2)).
      (* Object.setPrototypeOf(obj, bound.prototype) *)
      assert (Hmade_at : (hb ++ [T; made]) !! (length hb + 1) = Some made).
      { rewrite lookup_new. reflexivity. }
      replace (length (hb ++ [T])) with (length hb + 1)
        by (rewrite length_app; reflexivity).
      erewrite bind_M_Normal.
      2:{ apply (Object_setPrototypeOf_object (mkState (hb ++ [T; made]) tr2) _ made);
            [exact Hmade_at | exact Hmade | ].
          cbn [heap]. rewrite length_app, Hlen. cbn [length].
          replace (length h + 6 + 2) with (S (length h + 7)) by lia.
          cbn [chain_reaches].
          rewrite bool_decide_eq_false_2 by lia.
          rewrite HI. cbn [obj_proto].
          eapply (chain_reaches_fresh (length h) h); [exact Hends | lia | lia | ].
          intros l o. apply Hold. }
      cbn [heap trace]. rewrite insert_new. reflexivity. }
  reflexivity.
Qed.

(** [new bound()] on the wrapper of [Widget], with the host that makes an
    empty object for every construction: the instance at place 15 passes
    both checks. *)
Lemma instances_of_the_wrapper_pass_both_checks_witness :
  exists st2,
    run (quiet_host false) 3 (VObject 8) (AsConstruct (VObject 8)) [] page_bound_state
    = (st2, Normal (VObject 15))
    /\ InstanceofOperator (run (quiet_host false) 2) (VObject 15) (VObject 8) st2
       = (st2, Normal true)
    /\ InstanceofOperator (run (quiet_host false) 1) (VObject 15) (VObject 6) st2
       = (st2, Normal true).
Proof.
  destruct (instances_of_the_wrapper_pass_both_checks (quiet_host false) 0 0 page_state
              6 7 Widget (mkObject (VObject ObjectPrototype) true [] None false)
              VUndefined [] 0 page_state_bindable page_state_everyday eq_refl eq_refl
              eq_refl eq_refl (fun h' => eq_refl))
    as [st' [bound [st2 [obj [instance [Hbind [Hnew [_ [_ [H1 [H2 _]]]]]]]]]]].
  change (3 + 0) with 3 in Hnew. change (2 + 0) with 2 in H1.
  change (1 + 0) with 1 in H2.
  assert (Hst : st' = page_bound_state).
  { unfold page_bound_state. rewrite Hbind. reflexivity. }
  assert (Hbound : bound = 8).
  { assert (H : snd (bind (quiet_host false) (run (quiet_host false) 1) (VObject 6)
                       VUndefined page_state) = Normal (VObject 8)) by reflexivity.
    rewrite Hbind in H. injection H as H. exact H. }
  subst st' bound.
  assert (Hobj : obj = 15).
  { assert (H : snd (run (quiet_host false) 3 (VObject 8) (AsConstruct (VObject 8)) []
                       page_bound_state) = Normal (VObject 15)) by reflexivity.
    rewrite Hnew in H. injection H as H. exact H. }
  subst obj. exists st2. split; [exact Hnew | split; [exact H1 | exact H2]].
Defined.
